(** * ATTN backend: the dual-store attendance lifecycle

    A shallow embedding of the attendance backend (Redis client, Postgres
    client, teacher and student services, verification webhook and the
    persistence sweep) together with the properties of its specification.

    Conventions of the embedding.
    - A [datetime] is an instant in microseconds (UTC); every read of the
      clock in the source ([datetime.now(timezone.utc)], the Redis clock used
      for [ex=] expiry) is an explicit argument.
    - A [UUID] is its 128-bit value; [str(uuid)] and [UUID(str)] are inverse
      on canonical strings, so a key such as [attendance_session:{id}] is
      identified with the id.
    - The Redis keyspace is split by key prefix, one finite map per prefix.
    - A stored blob is the typed value: [model_dump_json] followed by
      [model_validate_json] gives the value back.
    - A [str] is the sequence of its UTF-8 bytes; a header value, which the
      framework decodes as latin-1, has one byte per character.
    - Store I/O is taken to succeed, with two exceptions that the data
      itself can cause: a [SET] whose expiry is not positive is refused by
      Redis, and a durable write of the sweep may raise, which the sweep
      catches. Python exceptions that the code raises or handles itself are
      values of the result types. *)

From Stdlib Require Import ZArith NArith Ascii String.
From Stdlib.Strings Require Import Byte.
From stdpp Require Import base option list strings gmap fin_maps fin_sets.

Local Open Scope Z_scope.
Local Open Scope string_scope.

Definition UUID := N.
Definition datetime := Z.
Definition bytes := list byte.

(** Python truthiness of [Optional[str]] and [Optional[bytes]]. *)
Definition truthy_str (o : option string) : bool :=
  match o with
  | Some s => negb (bool_decide (s = ""))
  | None => false
  end.

Definition truthy_bytes (o : option bytes) : bool :=
  match o with
  | Some [] => false
  | Some (_ :: _) => true
  | None => false
  end.

Inductive result (E A : Type) : Type :=
| Ok (a : A)
| Err (e : E).
Arguments Ok {E A} a.
Arguments Err {E A} e.

(** ** models/db_models.py *)

Module User.
Record t := mk {
  user_school_number : string;
  user_full_name : string;
  role : string
}.
End User.

Module Attendance.
Record t := mk {
  attendance_id : UUID;
  teacher_school_number : string;
  lesson_name : string;
  ip_address : option string;
  start_time : datetime;
  end_time : datetime;
  security_option : Z;
  is_deleted : bool;
  deletion_reason : option string;
  deletion_time : option datetime
}.
End Attendance.

Module AttendanceRecord.
Record t := mk {
  attendance_id : UUID;
  student_number : string;
  is_attended : bool;
  attendance_time : option datetime;
  fail_reason : option string;
  is_deleted : bool;
  deletion_reason : option string;
  deletion_time : option datetime
}.
End AttendanceRecord.

(** ** models/redis_models.py *)

Module UserSessionRedis.
Record t := mk {
  user_data : User.t;
  session_id : UUID;
  session_start_time : datetime;
  session_end_time : datetime;
  image_url : option string
}.
End UserSessionRedis.

Module AttendanceRedis.
Record t := mk {
  attendance_id : UUID;
  teacher_school_number : string;
  teacher_full_name : string;
  lesson_name : string;
  ip_address : option string;
  start_time : datetime;
  end_time : datetime;
  security_option : Z;
  is_deleted : bool;
  deletion_reason : option string;
  deletion_time : option datetime
}.

(** [session.end_time = v] *)
Definition set_end_time (v : datetime) (a : t) : t :=
  mk (attendance_id a) (teacher_school_number a) (teacher_full_name a)
     (lesson_name a) (ip_address a) (start_time a) v (security_option a)
     (is_deleted a) (deletion_reason a) (deletion_time a).
End AttendanceRedis.

Module AttendanceRecordRedis.
Record t := mk {
  attendance_id : UUID;
  student_number : string;
  student_full_name : string;
  is_attended : bool;
  attendance_time : option datetime;
  fail_reason : option string;
  is_deleted : bool;
  deletion_reason : option string;
  deletion_time : option datetime
}.

Definition set_is_attended (v : bool) (r : t) : t :=
  mk (attendance_id r) (student_number r) (student_full_name r) v
     (attendance_time r) (fail_reason r) (is_deleted r) (deletion_reason r)
     (deletion_time r).

Definition set_attendance_time (v : option datetime) (r : t) : t :=
  mk (attendance_id r) (student_number r) (student_full_name r)
     (is_attended r) v (fail_reason r) (is_deleted r) (deletion_reason r)
     (deletion_time r).

Definition set_fail_reason (v : option string) (r : t) : t :=
  mk (attendance_id r) (student_number r) (student_full_name r)
     (is_attended r) (attendance_time r) v (is_deleted r) (deletion_reason r)
     (deletion_time r).
End AttendanceRecordRedis.

(** ** db/redis_client.py *)

(** The keyspace, one map per key prefix:
    - [users:{school_number}], a blob stored with an expiry instant;
    - [attendance_session:{id}];
    - [attendance_index:name:{lesson}:{teacherFullName}], a set of ids, keyed
      here by the text after [attendance_index:name:];
    - [attendance_index:teacher:{teacher_number}], a set of ids;
    - [attendance_records:{attendance_id}:{student_number}];
    - [verification:{verification_id}], stored with an expiry instant; its
      value [f"{user_school_number}:{attendance_id}"] is kept as the pair. *)
Record Redis := mkRedis {
  users : gmap string (datetime * UserSessionRedis.t);
  attendance_session : gmap UUID AttendanceRedis.t;
  attendance_index_name : gmap string (gset UUID);
  attendance_index_teacher : gmap string (gset UUID);
  attendance_records : gmap (UUID * string) AttendanceRecordRedis.t;
  verification : gmap UUID (datetime * (string * UUID))
}.

Definition redis_empty : Redis := mkRedis ∅ ∅ ∅ ∅ ∅ ∅.

Definition with_users (v : gmap string (datetime * UserSessionRedis.t)) (r : Redis) : Redis :=
  mkRedis v (attendance_session r) (attendance_index_name r)
          (attendance_index_teacher r) (attendance_records r) (verification r).

Definition with_attendance_records
  (v : gmap (UUID * string) AttendanceRecordRedis.t) (r : Redis) : Redis :=
  mkRedis (users r) (attendance_session r) (attendance_index_name r)
          (attendance_index_teacher r) v (verification r).

Definition with_verification (v : gmap UUID (datetime * (string * UUID))) (r : Redis) : Redis :=
  mkRedis (users r) (attendance_session r) (attendance_index_name r)
          (attendance_index_teacher r) (attendance_records r) v.

(** GET of a key written with [ex=]: gone once the clock reaches the expiry. *)
Definition get_ex {K V : Type} `{Countable K}
  (now : datetime) (k : K) (m : gmap K (datetime * V)) : option V :=
  match m !! k with
  | Some (expiry, v) => if bool_decide (now < expiry) then Some v else None
  | None => None
  end.

(** SMEMBERS, SADD, SREM on one index map. A missing key is the empty set and
    a set that becomes empty is removed, as Redis does. *)
Definition smembers (k : string) (m : gmap string (gset UUID)) : gset UUID :=
  default ∅ (m !! k).

Definition sadd (k : string) (x : UUID) (m : gmap string (gset UUID)) : gmap string (gset UUID) :=
  <[k := {[x]} ∪ smembers k m]> m.

Definition srem (k : string) (x : UUID) (m : gmap string (gset UUID)) : gmap string (gset UUID) :=
  match m !! k with
  | Some s => if decide (s ∖ {[x]} = ∅) then delete k m else <[k := s ∖ {[x]}]> m
  | None => m
  end.

Definition seconds (n : Z) : Z := n * 1000000.

(** [SET key value EX ttl]: Redis refuses an expire time that is not
    positive ([ResponseError: invalid expire time in 'set' command]) and
    stores nothing; [None] stands for that exception. *)
Definition save_user_session (now : datetime) (user : UserSessionRedis.t) (ttl : Z) (r : Redis)
  : option Redis :=
  if bool_decide (0 < ttl)
  then Some (with_users (<[User.user_school_number (UserSessionRedis.user_data user)
                           := (now + seconds ttl, user)]> (users r)) r)
  else None.

Definition get_user_session (now : datetime) (user_school_number : string) (r : Redis) : option UserSessionRedis.t :=
  get_ex now user_school_number (users r).

Definition delete_user_session (user_school_number : string) (r : Redis) : Redis :=
  with_users (delete user_school_number (users r)) r.

Definition index_key_by_name (attendance : AttendanceRedis.t) : string :=
  AttendanceRedis.lesson_name attendance +:+ ":" +:+ AttendanceRedis.teacher_full_name attendance.

Definition index_key_by_teacher (attendance : AttendanceRedis.t) : string :=
  AttendanceRedis.teacher_school_number attendance.

(** One MULTI/EXEC batch: SET of the blob, SADD into both indexes. *)
Definition save_attendance_session (attendance : AttendanceRedis.t) (r : Redis) : Redis :=
  mkRedis (users r)
    (<[AttendanceRedis.attendance_id attendance := attendance]> (attendance_session r))
    (sadd (index_key_by_name attendance) (AttendanceRedis.attendance_id attendance) (attendance_index_name r))
    (sadd (index_key_by_teacher attendance) (AttendanceRedis.attendance_id attendance) (attendance_index_teacher r))
    (attendance_records r) (verification r).

Definition get_attendance_session (attendance_id : UUID) (r : Redis) : option AttendanceRedis.t :=
  attendance_session r !! attendance_id.

Definition get_attendance_sessions_by_name (lesson_name teacher_name : string) (r : Redis) : list AttendanceRedis.t :=
  omap (λ att_id, get_attendance_session att_id r)
       (elements (smembers (lesson_name +:+ ":" +:+ teacher_name) (attendance_index_name r))).

(** One MULTI/EXEC batch: DEL of the blob, SREM from both indexes. *)
Definition delete_attendance_session (attendance : AttendanceRedis.t) (r : Redis) : Redis :=
  mkRedis (users r)
    (delete (AttendanceRedis.attendance_id attendance) (attendance_session r))
    (srem (index_key_by_name attendance) (AttendanceRedis.attendance_id attendance) (attendance_index_name r))
    (srem (index_key_by_teacher attendance) (AttendanceRedis.attendance_id attendance) (attendance_index_teacher r))
    (attendance_records r) (verification r).

Definition add_attendance_record (record : AttendanceRecordRedis.t) (r : Redis) : Redis :=
  with_attendance_records
    (<[(AttendanceRecordRedis.attendance_id record, AttendanceRecordRedis.student_number record) := record]>
       (attendance_records r)) r.

(** SCAN over [attendance_records:{attendance_id}:*], then GET of each key. *)
Definition get_attendance_records (attendance_id : UUID) (r : Redis) : list AttendanceRecordRedis.t :=
  (map_to_list (filter (λ kv, kv.1.1 = attendance_id) (attendance_records r))).*2.

Definition get_attendance_record_by_id (attendance_id : UUID) (student_number : string) (r : Redis)
  : option AttendanceRecordRedis.t :=
  attendance_records r !! (attendance_id, student_number).

Definition update_attendance_record (record : AttendanceRecordRedis.t) (r : Redis) : Redis :=
  add_attendance_record record r.

Definition map_verification_to_user (now : datetime) (verification_id : UUID)
  (user_school_number : string) (attendance_id : UUID) (r : Redis) : Redis :=
  with_verification (<[verification_id := (now + seconds 300, (user_school_number, attendance_id))]> (verification r)) r.

(** Does the text contain a colon? *)
Fixpoint has_colon (s : string) : bool :=
  match s with
  | EmptyString => false
  | String c s' => if Ascii.eqb c ":"%char then true else has_colon s'
  end.

(** The stored value is split on [':']; the id part never holds a colon, so
    the split has two parts exactly when the school number holds none. *)
Definition get_user_and_attendance_for_verification (now : datetime) (verification_id : UUID) (r : Redis)
  : option (string * UUID) :=
  match get_ex now verification_id (verification r) with
  | Some (user_school_number, attendance_id) =>
      if has_colon user_school_number then None else Some (user_school_number, attendance_id)
  | None => None
  end.

Definition delete_verification_mapping (verification_id : UUID) (r : Redis) : Redis :=
  with_verification (delete verification_id (verification r)) r.

(** ** db/db_client.py *)

(** The three tables, each keyed by its primary key. *)
Record Postgres := mkPostgres {
  Users : gmap string User.t;
  Attendances : gmap UUID Attendance.t;
  AttendanceRecords : gmap (UUID * string) AttendanceRecord.t
}.

Definition postgres_empty : Postgres := mkPostgres ∅ ∅ ∅.

(** [INSERT ... ON CONFLICT (key) DO NOTHING] *)
Definition insert_do_nothing {K V : Type} `{Countable K} (k : K) (v : V) (tbl : gmap K V) : gmap K V :=
  match tbl !! k with
  | Some _ => tbl
  | None => <[k := v]> tbl
  end.

Definition add_users (users : list User.t) (d : Postgres) : Postgres :=
  mkPostgres
    (foldl (λ tbl u, insert_do_nothing (User.user_school_number u) u tbl) (Users d) users)
    (Attendances d) (AttendanceRecords d).

(** The INSERT names seven columns; the three deletion columns take the
    column defaults (not deleted, no reason, no time). *)
Definition attendance_row (att : Attendance.t) : Attendance.t :=
  Attendance.mk (Attendance.attendance_id att) (Attendance.teacher_school_number att)
    (Attendance.lesson_name att) (Attendance.ip_address att) (Attendance.start_time att)
    (Attendance.end_time att) (Attendance.security_option att) false None None.

Definition add_attendances (attendances : list Attendance.t) (d : Postgres) : Postgres :=
  mkPostgres (Users d)
    (foldl (λ tbl att, insert_do_nothing (Attendance.attendance_id att) (attendance_row att) tbl)
           (Attendances d) attendances)
    (AttendanceRecords d).

Definition get_attendance_by_id (attendance_id : UUID) (d : Postgres) : option Attendance.t :=
  match Attendances d !! attendance_id with
  | Some att => if Attendance.is_deleted att then None else Some att
  | None => None
  end.

(** [INSERT ... ON CONFLICT (attendance_id, student_number) DO UPDATE SET ...]:
    a new row takes the column defaults for the deletion columns, an existing
    row has its verdict columns overwritten and its deletion columns reset. *)
Definition upsert_attendance_record (rec : AttendanceRecord.t)
  (tbl : gmap (UUID * string) AttendanceRecord.t) : gmap (UUID * string) AttendanceRecord.t :=
  let key := (AttendanceRecord.attendance_id rec, AttendanceRecord.student_number rec) in
  match tbl !! key with
  | Some _ =>
      <[key := AttendanceRecord.mk key.1 key.2 (AttendanceRecord.is_attended rec)
                 (AttendanceRecord.attendance_time rec) (AttendanceRecord.fail_reason rec)
                 false None None]> tbl
  | None =>
      <[key := AttendanceRecord.mk (AttendanceRecord.attendance_id rec)
                 (AttendanceRecord.student_number rec) (AttendanceRecord.is_attended rec)
                 (AttendanceRecord.attendance_time rec) (AttendanceRecord.fail_reason rec)
                 false None None]> tbl
  end.

Definition add_attendance_records (records : list AttendanceRecord.t) (d : Postgres) : Postgres :=
  mkPostgres (Users d) (Attendances d)
    (foldl (λ tbl rec, upsert_attendance_record rec tbl) (AttendanceRecords d) records).

(** Soft delete of an attendance row. *)
Definition delete_attendance (now : datetime) (attendance_id : UUID) (reason : string) (d : Postgres) : Postgres :=
  mkPostgres (Users d)
    (alter (λ att, Attendance.mk (Attendance.attendance_id att) (Attendance.teacher_school_number att)
                     (Attendance.lesson_name att) (Attendance.ip_address att) (Attendance.start_time att)
                     (Attendance.end_time att) (Attendance.security_option att)
                     true (Some reason) (Some now))
           attendance_id (Attendances d))
    (AttendanceRecords d).

(** ** tools/wifi_verifier.py *)

(** A parsed address of the [ipaddress] module: the family and the integer. *)
Inductive IPAddress :=
| IPv4Address (n : N)
| IPv6Address (n : N).

(** The netmask of [IPv4Network(".../24")] and of [IPv6Network(".../64")]. *)
Definition netmask_v4_24 : N := N.shiftl (N.ones 24) 8.
Definition netmask_v6_64 : N := N.shiftl (N.ones 64) 64.

(** [student_ip in IPvXNetwork(f"{session_ip}/p", strict=False)]: the network
    address is the session address masked, and membership compares the masked
    student address with it. *)
Definition in_network (netmask session_ip student_ip : N) : bool :=
  bool_decide (N.land student_ip netmask = N.land session_ip netmask).

Section WifiVerifier.

(** [ipaddress.ip_address]; [None] stands for its [ValueError]. *)
Variable ipaddress_ip_address : string → option IPAddress.

Definition verify_wifi (attendance : AttendanceRedis.t) (ip_address : string) : bool :=
  if negb (truthy_str (AttendanceRedis.ip_address attendance)) || negb (truthy_str (Some ip_address))
  then false
  else
    match AttendanceRedis.ip_address attendance with
    | None => false
    | Some session_address =>
        if bool_decide (session_address = ip_address) then true
        else
          match ipaddress_ip_address session_address with
          | None => bool_decide (session_address = ip_address)
          | Some session_ip =>
              match ipaddress_ip_address ip_address with
              | None => bool_decide (session_address = ip_address)
              | Some student_ip =>
                  match session_ip, student_ip with
                  | IPv6Address s, IPv6Address c => in_network netmask_v6_64 s c
                  | IPv4Address s, IPv4Address c => in_network netmask_v4_24 s c
                  | _, _ => false
                  end
              end
          end
    end.

End WifiVerifier.

(** ** The world outside the two stores *)

(** What one attendance attempt obtains from outside: the reference photo
    that the campus directory serves for a URL ([None]: the download or its
    base64 decoding raised), the [uuid4()] drawn for the verification, and
    whether the verifier microservice accepts the submitted job. *)
Record Outside := mkOutside {
  aksis_profile_image : string → option bytes;
  uuid4_verification : UUID;
  verifier_accepts : bool
}.

(** The outbound calls made, in order. *)
Inductive Call :=
| GetProfileImage (image_url : string)
| VerifyFaceAsync (verification_id : UUID) (student_school_number : string)
                  (picture intended_picture : bytes).

Inductive exn :=
| ServiceError (msg : string)
| AuthorizationError (msg : string)
| VerificationError.

(** ** tools/face_verifier.py *)

Definition submit_face_verification_job (out : Outside) (now : datetime)
  (student : User.t) (attendance_id : UUID) (normal_image_bytes reference_image_bytes : bytes)
  (r : Redis) : result exn string * Redis * list Call :=
  let verification_id := uuid4_verification out in
  let r1 := map_verification_to_user now verification_id (User.user_school_number student) attendance_id r in
  let call := VerifyFaceAsync verification_id (User.user_school_number student)
                              normal_image_bytes reference_image_bytes in
  if verifier_accepts out
  then (Ok "SUBMITTED", r1, [call])
  else (Err VerificationError, delete_verification_mapping verification_id r1, [call]).

(** ** The teacher lookup of db/redis_client.py and the two services *)

Section Services.

(** [ipaddress.ip_address]; [None] stands for its [ValueError]. *)
Variable ipaddress_ip_address : string → option IPAddress.

(** [set.pop()] on the members read from the teacher index: some member of a
    non-empty set, which one is not determined by the program. *)
Variable set_pop : gset UUID → UUID.

Definition get_attendance_session_of_teacher (now : datetime) (teacher_school_number : string)
  (r : Redis) : option AttendanceRedis.t :=
  let attendance_ids := smembers teacher_school_number (attendance_index_teacher r) in
  if decide (attendance_ids = ∅) then None
  else
    let attendance_id := set_pop attendance_ids in
    match get_attendance_session attendance_id r with
    | Some session =>
        if bool_decide (AttendanceRedis.end_time session > now) then Some session else None
    | None => None
    end.

(** *** services/teacher_service.py *)

Definition start_attendance (now : datetime) (uuid4 : UUID) (teacher : User.t) (lesson_name : string)
  (ip_address : option string) (start_time end_time : datetime) (security_option : Z) (r : Redis)
  : result exn AttendanceRedis.t * Redis :=
  match get_attendance_session_of_teacher now (User.user_school_number teacher) r with
  | Some _ =>
      (Err (ServiceError "You already have an active attendance session. Please end it first."), r)
  | None =>
      let new_attendance_session :=
        AttendanceRedis.mk uuid4 (User.user_school_number teacher) (User.user_full_name teacher)
          lesson_name ip_address start_time end_time security_option false None None in
      (Ok new_attendance_session, save_attendance_session new_attendance_session r)
  end.

Definition finish_attendance (now : datetime) (teacher : User.t) (attendance_id : UUID) (r : Redis)
  : result exn unit * Redis :=
  match get_attendance_session attendance_id r with
  | None => (Err (AuthorizationError "Attendance not found or you are not authorized to end it."), r)
  | Some session_to_finish =>
      if bool_decide (AttendanceRedis.teacher_school_number session_to_finish
                      ≠ User.user_school_number teacher)
      then (Err (AuthorizationError "Attendance not found or you are not authorized to end it."), r)
      else (Ok (), save_attendance_session (AttendanceRedis.set_end_time now session_to_finish) r)
  end.

(** The two halves of [finish_attendance], on either side of its awaits:
    the read with the owner check, and the write of the blob that was read,
    stamped with the clock of that moment. Another task (the sweep, another
    request) can run between the two. *)
Definition finish_attendance_read (teacher : User.t) (attendance_id : UUID) (r : Redis)
  : result exn AttendanceRedis.t :=
  match get_attendance_session attendance_id r with
  | None => Err (AuthorizationError "Attendance not found or you are not authorized to end it.")
  | Some session_to_finish =>
      if bool_decide (AttendanceRedis.teacher_school_number session_to_finish
                      ≠ User.user_school_number teacher)
      then Err (AuthorizationError "Attendance not found or you are not authorized to end it.")
      else Ok session_to_finish
  end.

Definition finish_attendance_write (now : datetime) (session_to_finish : AttendanceRedis.t)
  (r : Redis) : Redis :=
  save_attendance_session (AttendanceRedis.set_end_time now session_to_finish) r.

Definition get_live_attendance_by_teacher (now : datetime) (teacher : User.t) (r : Redis)
  : option AttendanceRedis.t :=
  get_attendance_session_of_teacher now (User.user_school_number teacher) r.

(** A live record enriched with the student it names
    ([_enrich_records_with_user_data] on a Redis record). *)
Definition enrich_redis_record (record : AttendanceRecordRedis.t) : AttendanceRecord.t * User.t :=
  (AttendanceRecord.mk (AttendanceRecordRedis.attendance_id record)
     (AttendanceRecordRedis.student_number record) (AttendanceRecordRedis.is_attended record)
     (AttendanceRecordRedis.attendance_time record) (AttendanceRecordRedis.fail_reason record)
     (AttendanceRecordRedis.is_deleted record) (AttendanceRecordRedis.deletion_reason record)
     (AttendanceRecordRedis.deletion_time record),
   User.mk (AttendanceRecordRedis.student_number record)
     (AttendanceRecordRedis.student_full_name record) "Student").

Definition accept_student_attendance (now : datetime) (attendance_id : UUID)
  (student_school_number : string) (r : Redis) : option (AttendanceRecord.t * User.t) * Redis :=
  match get_attendance_record_by_id attendance_id student_school_number r with
  | None => (None, r)
  | Some target_record =>
      let target_record :=
        AttendanceRecordRedis.set_fail_reason None
          (AttendanceRecordRedis.set_attendance_time (Some now)
             (AttendanceRecordRedis.set_is_attended true target_record)) in
      (Some (enrich_redis_record target_record), update_attendance_record target_record r)
  end.

Definition fail_student_in_live_attendance (attendance_id : UUID) (student_school_number : string)
  (reason : string) (r : Redis) : option (AttendanceRecord.t * User.t) * Redis :=
  match get_attendance_record_by_id attendance_id student_school_number r with
  | None => (None, r)
  | Some target_record =>
      let target_record :=
        AttendanceRecordRedis.set_fail_reason (Some reason)
          (AttendanceRecordRedis.set_is_attended false target_record) in
      (Some (enrich_redis_record target_record), update_attendance_record target_record r)
  end.

(** *** services/student_service.py *)

(** The security checks of [attend_to_attendance]: the failure reason they
    leave ([None]: accepted), or the exception that escapes them. *)
Definition security_checks (out : Outside) (now : datetime) (student : User.t)
  (active_attendance : AttendanceRedis.t) (student_ip : option string)
  (normal_image_bytes : option bytes) (r : Redis)
  : result exn (option string) * Redis * list Call :=
  let security_option := AttendanceRedis.security_option active_attendance in
  let fail_reason : option string :=
    if bool_decide (security_option >= 2)
    then
      if negb (truthy_str student_ip)
         || negb (verify_wifi ipaddress_ip_address active_attendance (default "" student_ip))
      then Some "WIFI_FAILED" else None
    else None in
  if bool_decide (security_option = 3) && bool_decide (fail_reason = None)
  then
    match normal_image_bytes with
    | Some (b :: image) =>
        match get_user_session now (User.user_school_number student) r with
        | Some user_session =>
            if truthy_str (UserSessionRedis.image_url user_session)
            then
              let url := default "" (UserSessionRedis.image_url user_session) in
              match aksis_profile_image out url with
              | None =>
                  (Err (ServiceError "An unexpected error occurred during the attendance process."),
                   r, [GetProfileImage url])
              | Some reference_image_bytes =>
                  match submit_face_verification_job out now student
                          (AttendanceRedis.attendance_id active_attendance)
                          (b :: image) reference_image_bytes r with
                  | (Ok _, r', calls) =>
                      (Ok (Some "FACE_RECOGNITION_PENDING"), r', GetProfileImage url :: calls)
                  | (Err _, r', calls) =>
                      (Ok (Some "FACE_VERIFICATION_SUBMISSION_FAILED"), r', GetProfileImage url :: calls)
                  end
              end
            else (Ok (Some "REFERENCE_IMAGE_NOT_FOUND"), r, [])
        | None => (Ok (Some "REFERENCE_IMAGE_NOT_FOUND"), r, [])
        end
    | _ => (Ok (Some "FACE_VERIFICATION_REQUIRED_BUT_IMAGE_MISSING"), r, [])
    end
  else (Ok fail_reason, r, []).

(** [now] is the clock at the end-time check (and the Redis clock of the
    call), [now_record] the later clock read that stamps the record. *)
Definition attend_to_attendance (out : Outside) (now now_record : datetime) (student : User.t)
  (attendance_id : UUID) (student_ip : option string) (normal_image_bytes : option bytes)
  (r : Redis) : result exn AttendanceRecordRedis.t * Redis * list Call :=
  match get_attendance_session attendance_id r with
  | None => (Err (ServiceError "This attendance session does not exist."), r, [])
  | Some active_attendance =>
      if bool_decide (AttendanceRedis.end_time active_attendance <= now)
      then (Err (ServiceError "This attendance session has already ended."), r, [])
      else
        let existing_record :=
          get_attendance_record_by_id attendance_id (User.user_school_number student) r in
        if from_option AttendanceRecordRedis.is_attended false existing_record
        then (Err (ServiceError "You have already successfully joined this session."), r, [])
        else if from_option
                  (λ rec, bool_decide (AttendanceRecordRedis.fail_reason rec
                                       = Some "FACE_RECOGNITION_PENDING"))
                  false existing_record
        then (Err (ServiceError "Your attendance is already pending verification. Please wait."), r, [])
        else
          match security_checks out now student active_attendance student_ip normal_image_bytes r with
          | (Err e, r', calls) => (Err e, r', calls)
          | (Ok fail_reason, r', calls) =>
              let final_is_attended := bool_decide (fail_reason = None) in
              let new_record :=
                AttendanceRecordRedis.mk (AttendanceRedis.attendance_id active_attendance)
                  (User.user_school_number student) (User.user_full_name student)
                  final_is_attended
                  (if final_is_attended then Some now_record else None)
                  fail_reason false None None in
              (Ok new_record, add_attendance_record new_record r', calls)
          end
  end.

End Services.

(** ** api/webhooks.py *)

Module VerificationResultPayload.
Record t := mk {
  verification_passed : bool;
  reason : string
}.
End VerificationResultPayload.

(** The outcome of [json.loads] followed by the validation of
    [overall_result]: a payload, one of the handled errors
    ([JSONDecodeError], [ValidationError], [KeyError]), or an error the
    handler does not catch. *)
Inductive PayloadParse :=
| Parsed (payload : VerificationResultPayload.t)
| Malformed
| ParseCrash.

(** What the route answers: a 200 with its [status] text, an [HTTPException]
    with its status code, or an exception no handler catches (a 500). *)
Inductive Response :=
| Status200 (status : string)
| HTTPException (status_code : Z)
| UnhandledException.

Fixpoint is_ascii (s : string) : bool :=
  match s with
  | EmptyString => true
  | String c s' => (N_of_ascii c <? 128)%N && is_ascii s'
  end.

(** [hmac.compare_digest] on two [str]: defined on ASCII-only text, a
    [TypeError] ([None]) otherwise. *)
Definition compare_digest (a b : string) : option bool :=
  if is_ascii a && is_ascii b then Some (bool_decide (a = b)) else None.

Section Webhooks.

(** [hmac.new(key, msg, sha256).hexdigest()], the pre-shared key, and the
    decoding of the body. *)
Variable hmac_sha256_hexdigest : bytes → bytes → string.
Variable WEBHOOK_SECRET_KEY : bytes.
Variable parse_payload : bytes → PayloadParse.

Definition update_attendance_from_webhook (now : datetime) (verification_id : UUID)
  (raw_body : bytes) (x_webhook_signature : string) (r : Redis) : Response * Redis :=
  let expected_signature := hmac_sha256_hexdigest WEBHOOK_SECRET_KEY raw_body in
  match compare_digest expected_signature x_webhook_signature with
  | None => (UnhandledException, r)
  | Some false => (HTTPException 403, r)
  | Some true =>
      match parse_payload raw_body with
      | ParseCrash => (UnhandledException, r)
      | Malformed => (HTTPException 422, r)
      | Parsed payload =>
          match get_user_and_attendance_for_verification now verification_id r with
          | None => (Status200 "İşlem bulunamadı veya zaten işlenmiş.", r)
          | Some (user_school_number, attendance_id) =>
              match get_attendance_record_by_id attendance_id user_school_number r with
              | None => (HTTPException 404, delete_verification_mapping verification_id r)
              | Some attendance_record =>
                  let attendance_record :=
                    if VerificationResultPayload.verification_passed payload
                    then
                      AttendanceRecordRedis.set_fail_reason None
                        (AttendanceRecordRedis.set_attendance_time (Some now)
                           (AttendanceRecordRedis.set_is_attended true attendance_record))
                    else
                      AttendanceRecordRedis.set_fail_reason
                        (Some ("FACE_VERIFICATION_FAILED: "
                               +:+ VerificationResultPayload.reason payload))
                        (AttendanceRecordRedis.set_is_attended false attendance_record) in
                  (Status200 "success",
                   delete_verification_mapping verification_id
                     (update_attendance_record attendance_record r))
              end
          end
      end
  end.

End Webhooks.

(** ** tasks/cron.py *)

(** The [Attendance] built from the dumped live session: the extra
    [teacher_full_name] is dropped. *)
Definition attendance_to_db (a : AttendanceRedis.t) : Attendance.t :=
  Attendance.mk (AttendanceRedis.attendance_id a) (AttendanceRedis.teacher_school_number a)
    (AttendanceRedis.lesson_name a) (AttendanceRedis.ip_address a) (AttendanceRedis.start_time a)
    (AttendanceRedis.end_time a) (AttendanceRedis.security_option a) (AttendanceRedis.is_deleted a)
    (AttendanceRedis.deletion_reason a) (AttendanceRedis.deletion_time a).

(** The [AttendanceRecord] built from the dump of a live record restricted
    to five fields; the deletion fields take the model defaults. *)
Definition record_to_db (rec : AttendanceRecordRedis.t) : AttendanceRecord.t :=
  AttendanceRecord.mk (AttendanceRecordRedis.attendance_id rec)
    (AttendanceRecordRedis.student_number rec) (AttendanceRecordRedis.is_attended rec)
    (AttendanceRecordRedis.attendance_time rec) (AttendanceRecordRedis.fail_reason rec)
    false None None.

(** The writes to the durable store that the sweep issues. *)
Inductive DbWrite :=
| AddUsers (users : list User.t)
| AddAttendances (attendances : list Attendance.t)
| AddAttendanceRecords (records : list AttendanceRecord.t).

Definition run_write (w : DbWrite) (d : Postgres) : Postgres :=
  match w with
  | AddUsers users => add_users users d
  | AddAttendances attendances => add_attendances attendances d
  | AddAttendanceRecords records => add_attendance_records records d
  end.

(** The store once every write of a list has gone through, in order. *)
Definition all_written (ws : list DbWrite) (d : Postgres) : Postgres :=
  foldl (λ d w, run_write w d) d ws.

(** The writes of the block "DB Persistence (Strict Order)" for one expired
    session, in the order the block issues them: the teacher, the students
    of the live records (only when there are records), the session, and the
    records (only when there are records). *)
Definition session_writes (attendance_session : AttendanceRedis.t)
  (associated_redis_records : list AttendanceRecordRedis.t) : list DbWrite :=
  let teacher_user :=
    User.mk (AttendanceRedis.teacher_school_number attendance_session)
            (AttendanceRedis.teacher_full_name attendance_session) "Teacher" in
  let students_to_upsert :=
    map (λ rec, User.mk (AttendanceRecordRedis.student_number rec)
                        (AttendanceRecordRedis.student_full_name rec) "Student")
        associated_redis_records in
  let records_to_db := map record_to_db associated_redis_records in
  (AddUsers [teacher_user]
   :: match associated_redis_records with
      | [] => []
      | _ :: _ => [AddUsers students_to_upsert]
      end
   ++ AddAttendances [attendance_to_db attendance_session]
   :: match records_to_db with
      | [] => []
      | _ :: _ => [AddAttendanceRecords records_to_db]
      end)%list.

(** DEL of several keys of [attendance_records:...]. *)
Definition delete_record_keys (keys : list (UUID * string)) (r : Redis) : Redis :=
  with_attendance_records (foldr delete (attendance_records r) keys) r.

(** The block "Redis Cleanup" for the same session. *)
Definition cleanup_session (attendance_session : AttendanceRedis.t)
  (associated_redis_records : list AttendanceRecordRedis.t) (r : Redis) : Redis :=
  let attendance_id := AttendanceRedis.attendance_id attendance_session in
  let r := delete_attendance_session attendance_session r in
  let record_keys_to_delete :=
    map (λ rec, (attendance_id, AttendanceRecordRedis.student_number rec))
        associated_redis_records in
  match record_keys_to_delete with
  | [] => r
  | _ :: _ => delete_record_keys record_keys_to_delete r
  end.

(** SCAN over [attendance_session:*]. *)
Definition scan_attendance_sessions (r : Redis) : list UUID :=
  (map_to_list (attendance_session r)).*1.

Section Sweep.

(** Whether the database refuses a write in a given state. The client then
    raises and the write leaves nothing behind ([executemany] runs in one
    implicit transaction). What makes a write fail (a character the column
    cannot hold, a constraint, the connection) is outside the program. *)
Variable raises : DbWrite → Postgres → bool.

(** Writes issued one after the other until one raises: the store reached,
    and whether all of them went through. *)
Fixpoint run_writes (ws : list DbWrite) (d : Postgres) : Postgres * bool :=
  match ws with
  | [] => (d, true)
  | w :: ws => if raises w d then (d, false) else run_writes ws (run_write w d)
  end.

(** The persistence block for one expired session: the durable store after
    it and, when no write has raised, the live records it has read. *)
Definition persist_session (attendance_session : AttendanceRedis.t) (r : Redis) (d : Postgres)
  : Postgres * option (list AttendanceRecordRedis.t) :=
  let attendance_id := AttendanceRedis.attendance_id attendance_session in
  let associated_redis_records := get_attendance_records attendance_id r in
  match run_writes (session_writes attendance_session associated_redis_records) d with
  | (d, true) => (d, Some associated_redis_records)
  | (d, false) => (d, None)
  end.

(** The body of the loop for one scanned key. An exception of the
    persistence block is caught by the [except Exception] of the loop body:
    it is logged, the cleanup is skipped and the loop goes on, so the
    writes done before it stay and the live copy stays whole. *)
Definition process_session_key (now : datetime) (session_key : UUID) (s : Redis * Postgres)
  : Redis * Postgres :=
  match attendance_session s.1 !! session_key with
  | None => s
  | Some attendance_session =>
      if bool_decide (AttendanceRedis.end_time attendance_session >= now) then s
      else
        match persist_session attendance_session s.1 s.2 with
        | (d, Some associated_redis_records) =>
            (cleanup_session attendance_session associated_redis_records s.1, d)
        | (d, None) => (s.1, d)
        end
  end.

(** The loop over a scan result. *)
Definition sweep_keys (now : datetime) (session_keys : list UUID) (s : Redis * Postgres)
  : Redis * Postgres :=
  foldl (λ s session_key, process_session_key now session_key s) s session_keys.

Definition unified_persistence_task (now : datetime) (r : Redis) (d : Postgres) : Redis * Postgres :=
  sweep_keys now (scan_attendance_sessions r) (r, d).

End Sweep.

(** ** Well-formed stores and the lifecycle as a transition system *)

(** Every live blob sits under the key of its own id, as
    [save_attendance_session] and [add_attendance_record] write it. *)
Definition wf_sessions (r : Redis) : Prop :=
  ∀ k a, attendance_session r !! k = Some a → AttendanceRedis.attendance_id a = k.

Definition wf_records (r : Redis) : Prop :=
  ∀ k rec, attendance_records r !! k = Some rec →
    (AttendanceRecordRedis.attendance_id rec, AttendanceRecordRedis.student_number rec) = k.

(** "Same network" as the specification words it: the two addresses agree on
    their leading 24 bits (of 32), respectively 64 bits (of 128). *)
Definition same_slash_24 (a b : N) : Prop := N.shiftr a 8 = N.shiftr b 8.
Definition same_slash_64 (a b : N) : Prop := N.shiftr a 64 = N.shiftr b 64.

(** The parser returns addresses of the width of their family. *)
Definition parser_in_range (parse : string → option IPAddress) : Prop :=
  ∀ s, match parse s with
       | Some (IPv4Address n) => (n < 2 ^ 32)%N
       | Some (IPv6Address n) => (n < 2 ^ 128)%N
       | None => True
       end.

(** The two stores, the sweep iterations that have finished their durable
    writes but not yet their Redis cleanup, the blobs held by the finish
    requests that have read but not yet written, and the ids handed out so
    far. *)
Record System := mkSystem {
  redis : Redis;
  postgres : Postgres;
  in_flight : list (AttendanceRedis.t * list AttendanceRecordRedis.t);
  finishing : list AttendanceRedis.t;
  created : gset UUID
}.

Definition system_init : System := mkSystem redis_empty postgres_empty [] [] ∅.

Definition in_live (id : UUID) (s : System) : Prop :=
  is_Some (attendance_session (redis s) !! id).

Definition in_durable (id : UUID) (s : System) : Prop :=
  is_Some (Attendances (postgres s) !! id).

Definition exactly_one_store (id : UUID) (s : System) : Prop :=
  (in_live id s ∧ ¬ in_durable id s) ∨ (¬ in_live id s ∧ in_durable id s).

(** The other writes of the Redis client, through which all traffic that
    is not about sessions goes: attendance attempts, webhook deliveries,
    teacher overrides, logins and logouts. *)
Inductive client_write : Redis → Redis → Prop :=
| write_record rec r :
    client_write r (add_attendance_record rec r)
| write_verification now verification_id user_school_number attendance_id r :
    client_write r (map_verification_to_user now verification_id user_school_number attendance_id r)
| write_verification_delete verification_id r :
    client_write r (delete_verification_mapping verification_id r)
| write_user now user ttl r r' :
    save_user_session now user ttl r = Some r' →
    client_write r r'
| write_user_delete user_school_number r :
    client_write r (delete_user_session user_school_number r).

Section Lifecycle.

Variable set_pop : gset UUID → UUID.
Variable raises : DbWrite → Postgres → bool.

(** Interleaved execution, task by task. [start_attendance] and the soft
    delete of a durable row run as a whole. [finish_attendance] runs as its
    two halves: the read with the owner check, and later the write of the
    blob that was read. One iteration of the sweep runs as its persistence
    block, which either goes through or raises part of the way, and, when
    it went through, later its cleanup block. Other traffic may come in
    between all of these. A fresh [uuid4()] is an id not handed out before. *)
Inductive step : System → System → Prop :=
| step_start now uuid4 teacher lesson_name ip_address start_time end_time security_option s a r' :
    uuid4 ∉ created s →
    start_attendance set_pop now uuid4 teacher lesson_name ip_address start_time end_time
                     security_option (redis s) = (Ok a, r') →
    step s (mkSystem r' (postgres s) (in_flight s) (finishing s) ({[uuid4]} ∪ created s))
| step_finish_read teacher attendance_id s a :
    finish_attendance_read teacher attendance_id (redis s) = Ok a →
    step s (mkSystem (redis s) (postgres s) (in_flight s) (a :: finishing s) (created s))
| step_finish_write now a before after s :
    finishing s = (before ++ a :: after)%list →
    step s (mkSystem (finish_attendance_write now a (redis s)) (postgres s) (in_flight s)
                     (before ++ after)%list (created s))
| step_sweep_persist now session_key a s d' recs :
    attendance_session (redis s) !! session_key = Some a →
    bool_decide (AttendanceRedis.end_time a >= now) = false →
    persist_session raises a (redis s) (postgres s) = (d', Some recs) →
    step s (mkSystem (redis s) d' ((a, recs) :: in_flight s) (finishing s) (created s))
| step_sweep_raise now session_key a s d' :
    attendance_session (redis s) !! session_key = Some a →
    bool_decide (AttendanceRedis.end_time a >= now) = false →
    persist_session raises a (redis s) (postgres s) = (d', None) →
    step s (mkSystem (redis s) d' (in_flight s) (finishing s) (created s))
| step_sweep_cleanup a recs before after s :
    in_flight s = (before ++ (a, recs) :: after)%list →
    step s (mkSystem (cleanup_session a recs (redis s)) (postgres s) (before ++ after)%list
                     (finishing s) (created s))
| step_delete now attendance_id reason s :
    step s (mkSystem (redis s) (delete_attendance now attendance_id reason (postgres s))
                     (in_flight s) (finishing s) (created s))
| step_traffic r' s :
    client_write (redis s) r' →
    step s (mkSystem r' (postgres s) (in_flight s) (finishing s) (created s))
| step_read s :
    step s s.

(** Execution in which every operation, a whole pass of the sweep included,
    runs to completion before the next one starts. *)
Inductive op_step : System → System → Prop :=
| op_start now uuid4 teacher lesson_name ip_address start_time end_time security_option s a r' :
    uuid4 ∉ created s →
    start_attendance set_pop now uuid4 teacher lesson_name ip_address start_time end_time
                     security_option (redis s) = (Ok a, r') →
    op_step s (mkSystem r' (postgres s) (in_flight s) (finishing s) ({[uuid4]} ∪ created s))
| op_finish now teacher attendance_id s r' :
    finish_attendance now teacher attendance_id (redis s) = (Ok (), r') →
    op_step s (mkSystem r' (postgres s) (in_flight s) (finishing s) (created s))
| op_sweep now s r' d' :
    unified_persistence_task raises now (redis s) (postgres s) = (r', d') →
    op_step s (mkSystem r' d' (in_flight s) (finishing s) (created s))
| op_delete now attendance_id reason s :
    op_step s (mkSystem (redis s) (delete_attendance now attendance_id reason (postgres s))
                        (in_flight s) (finishing s) (created s))
| op_traffic r' s :
    client_write (redis s) r' →
    op_step s (mkSystem r' (postgres s) (in_flight s) (finishing s) (created s))
| op_read s :
    op_step s s.

End Lifecycle.

(** ** Instances of the outside functions, for running the model *)

(** A dotted-quad reader: four decimal fields of at most 255. Every other
    text is unparseable for it. *)
Fixpoint read_fields (s : string) (cur : option N) (acc : list N) : option (list N) :=
  match s with
  | EmptyString =>
      match cur with
      | Some n => Some (acc ++ [n])%list
      | None => None
      end
  | String c s' =>
      if Ascii.eqb c "."%char
      then match cur with
           | Some n => read_fields s' None (acc ++ [n])%list
           | None => None
           end
      else
        let d := N_of_ascii c in
        if ((48 <=? d) && (d <=? 57))%N
        then read_fields s' (Some (10 * default 0 cur + (d - 48)))%N acc
        else None
  end.

Definition dotted_quad (s : string) : option IPAddress :=
  match read_fields s None [] with
  | Some [a; b; c; d] =>
      if ((a <=? 255) && (b <=? 255) && (c <=? 255) && (d <=? 255))%N
      then Some (IPv4Address (((a * 256 + b) * 256 + c) * 256 + d))
      else None
  | _ => None
  end.

(** A database that takes every write, and one that refuses text holding a
    NUL character, as PostgreSQL does for its text columns. *)
Definition never_raises : DbWrite → Postgres → bool := λ _ _, false.

Fixpoint has_nul (s : string) : bool :=
  match s with
  | EmptyString => false
  | String c s' => (N_of_ascii c =? 0)%N || has_nul s'
  end.

Definition raises_on_nul (w : DbWrite) (d : Postgres) : bool :=
  match w with
  | AddUsers users =>
      existsb (λ u, has_nul (User.user_school_number u) || has_nul (User.user_full_name u)
                    || has_nul (User.role u)) users
  | AddAttendances attendances =>
      existsb (λ att, has_nul (Attendance.teacher_school_number att)
                      || has_nul (Attendance.lesson_name att)
                      || has_nul (default "" (Attendance.ip_address att))) attendances
  | AddAttendanceRecords records =>
      existsb (λ rec, has_nul (AttendanceRecord.student_number rec)
                      || has_nul (default "" (AttendanceRecord.fail_reason rec))) records
  end.

(** The member a pop returns on a run: the first in the enumeration. *)
Definition pop_first (s : gset UUID) : UUID := default 0%N (head (elements s)).

(** A stand-in digest (two hex digits from the lengths) and a stand-in body
    decoder (first byte: verdict, rest ignored). *)
Definition toy_hexdigest (key msg : bytes) : string :=
  if Nat.even (length key + length msg) then "00" else "01".

Definition toy_parse_payload (raw_body : bytes) : PayloadParse :=
  match raw_body with
  | [] => Malformed
  | b :: _ =>
      Parsed (VerificationResultPayload.mk (Byte.eqb b "1"%byte) "no match")
  end.

(** ** Sample data *)

Definition sample_teacher : User.t := User.mk "T-101" "Dr. Integration" "Teacher".

Definition sample_session : AttendanceRedis.t :=
  AttendanceRedis.mk 7%N "T-101" "Dr. Integration" "Algebra" (Some "192.168.1.117")
                     1000 5000 2 false None None.

Definition sample_live : Redis := save_attendance_session sample_session redis_empty.

Definition sample_pending_record : AttendanceRecordRedis.t :=
  AttendanceRecordRedis.mk 7%N "S-201" "Student Alpha" false None
                           (Some "FACE_RECOGNITION_PENDING") false None None.

(** A record accepted at instant 1200. *)
Definition sample_accepted_record : AttendanceRecordRedis.t :=
  AttendanceRecordRedis.mk 7%N "S-201" "Student Alpha" true (Some 1200) None false None None.

(** A live session with one pending record and its correlation entry. *)
Definition sample_pending : Redis :=
  map_verification_to_user 1500 42%N "S-201" 7%N
    (add_attendance_record sample_pending_record sample_live).

(** The same, the record having been accepted by hand in between. *)
Definition sample_accepted_then_called_back : Redis :=
  map_verification_to_user 1500 42%N "S-201" 7%N
    (add_attendance_record sample_accepted_record sample_live).

Definition body_passed : bytes := ["1"%byte].
Definition body_failed : bytes := ["0"%byte].

(** A header value with a byte outside ASCII (0xE9). *)
Definition non_ascii_signature : string := String (ascii_of_N 233) EmptyString.

(** [rec'] differs from [rec] at most in the attended flag and the failure
    reason. *)
Definition only_verdict_changed (rec rec' : AttendanceRecordRedis.t) : Prop :=
  AttendanceRecordRedis.attendance_time rec' = AttendanceRecordRedis.attendance_time rec
  ∧ AttendanceRecordRedis.attendance_id rec' = AttendanceRecordRedis.attendance_id rec
  ∧ AttendanceRecordRedis.student_number rec' = AttendanceRecordRedis.student_number rec
  ∧ AttendanceRecordRedis.student_full_name rec' = AttendanceRecordRedis.student_full_name rec
  ∧ AttendanceRecordRedis.is_deleted rec' = AttendanceRecordRedis.is_deleted rec
  ∧ AttendanceRecordRedis.deletion_reason rec' = AttendanceRecordRedis.deletion_reason rec
  ∧ AttendanceRecordRedis.deletion_time rec' = AttendanceRecordRedis.deletion_time rec.

Definition sample_student : User.t := User.mk "S-201" "Student Alpha" "Student".

Definition sample_outside : Outside := mkOutside (λ _, None) 42%N true.

(** A tier-3 session opened from 192.168.1.117, ending at 5000. *)
Definition sample_session_tier3 : AttendanceRedis.t :=
  AttendanceRedis.mk 9%N "T-101" "Dr. Integration" "Topology" (Some "192.168.1.117")
                     1000 5000 3 false None None.

Definition sample_live_tier3 : Redis := save_attendance_session sample_session_tier3 redis_empty.

(** A tier-2 session whose recorded address is the empty text, as
    [get_client_ip] yields for a forwarding header such as [","]. *)
Definition sample_session_blank_ip : AttendanceRedis.t :=
  AttendanceRedis.mk 11%N "T-101" "Dr. Integration" "Logic" (Some "") 1000 5000 2 false None None.

Definition sample_live_blank_ip : Redis :=
  save_attendance_session sample_session_blank_ip redis_empty.

(** The rule of the specification for two addresses: an exact match, two
    IPv4 addresses in one /24, or two IPv6 addresses in one /64. *)
Definition judged_same_network (parse : string → option IPAddress)
  (session_address caller_address : string) : Prop :=
  session_address = caller_address
  ∨ (∃ s c, parse session_address = Some (IPv4Address s)
            ∧ parse caller_address = Some (IPv4Address c) ∧ same_slash_24 s c)
  ∨ (∃ s c, parse session_address = Some (IPv6Address s)
            ∧ parse caller_address = Some (IPv6Address c) ∧ same_slash_64 s c).

(** The network check of an attempt, as [attend_to_attendance] writes it:
    [student_ip] is there and [verify_wifi] says yes. *)
Definition network_check (parse : string → option IPAddress)
  (attendance : AttendanceRedis.t) (student_ip : option string) : bool :=
  truthy_str student_ip && verify_wifi parse attendance (default "" student_ip).

(** ** What the sweep does to one session id *)

(** The two stores look the same from [id]: its blob, its live records, its
    membership in every index set, its durable row and its durable records. *)
Definition same_view (id : UUID) (s s' : Redis * Postgres) : Prop :=
  attendance_session s'.1 !! id = attendance_session s.1 !! id
  ∧ (∀ sn, attendance_records s'.1 !! (id, sn) = attendance_records s.1 !! (id, sn))
  ∧ (∀ k, id ∈ smembers k (attendance_index_name s'.1)
          ↔ id ∈ smembers k (attendance_index_name s.1))
  ∧ (∀ k, id ∈ smembers k (attendance_index_teacher s'.1)
          ↔ id ∈ smembers k (attendance_index_teacher s.1))
  ∧ Attendances s'.2 !! id = Attendances s.2 !! id
  ∧ (∀ sn, AttendanceRecords s'.2 !! (id, sn) = AttendanceRecords s.2 !! (id, sn)).

(** The session [a], live in [s], has been moved to the durable store in
    [s']: its blob, its record keys and its two index entries are gone; the
    durable store holds its row, with the session's teacher, lesson, address,
    times and security option and not deleted (or the row that was there
    already, if any: the insert does nothing on conflict), and, for every
    record that was live, a durable record with its verdict, time and
    failure reason, not deleted. *)
Definition migrated (a : AttendanceRedis.t) (s s' : Redis * Postgres) : Prop :=
  let id := AttendanceRedis.attendance_id a in
  attendance_session s'.1 !! id = None
  ∧ (∀ sn, attendance_records s'.1 !! (id, sn) = None)
  ∧ (id ∉ smembers (index_key_by_name a) (attendance_index_name s'.1))
  ∧ (id ∉ smembers (index_key_by_teacher a) (attendance_index_teacher s'.1))
  ∧ Attendances s'.2 !! id
    = Some (default
              (Attendance.mk id (AttendanceRedis.teacher_school_number a)
                 (AttendanceRedis.lesson_name a) (AttendanceRedis.ip_address a)
                 (AttendanceRedis.start_time a) (AttendanceRedis.end_time a)
                 (AttendanceRedis.security_option a) false None None)
              (Attendances s.2 !! id))
  ∧ (∀ sn, AttendanceRecords s'.2 !! (id, sn)
           = match attendance_records s.1 !! (id, sn) with
             | Some rec =>
                 Some (AttendanceRecord.mk id sn (AttendanceRecordRedis.is_attended rec)
                         (AttendanceRecordRedis.attendance_time rec)
                         (AttendanceRecordRedis.fail_reason rec) false None None)
             | None => AttendanceRecords s.2 !! (id, sn)
             end).

(** The database takes every write of the persistence block of the session
    [a], with the live records [r] holds for it, in whatever state. *)
Definition writes_accepted (raises : DbWrite → Postgres → bool) (a : AttendanceRedis.t)
  (r : Redis) : Prop :=
  ∀ w d, w ∈ session_writes a (get_attendance_records (AttendanceRedis.attendance_id a) r) →
         raises w d = false.

(** Two live sessions of different teachers, the first (id 7, ending at 5000)
    with one accepted record, the second (id 13) ending at 9000. *)
Definition sample_session_late : AttendanceRedis.t :=
  AttendanceRedis.mk 13%N "T-102" "Dr. Unit" "Geometry" (Some "10.10.10.10")
                     1000 9000 1 false None None.

Definition sample_two_sessions : Redis :=
  add_attendance_record sample_accepted_record
    (save_attendance_session sample_session_late
       (save_attendance_session sample_session redis_empty)).

(** A session whose lesson name holds a NUL character (as a JSON body
    can carry it), ending at 5000, with one accepted record. *)
Definition sample_session_nul : AttendanceRedis.t :=
  AttendanceRedis.mk 19%N "T-101" "Dr. Integration"
                     (String "A"%char (String (ascii_of_N 0) "lgebra"))
                     (Some "192.168.1.117") 1000 5000 2 false None None.

Definition sample_live_nul : Redis :=
  add_attendance_record
    (AttendanceRecordRedis.mk 19%N "S-201" "Student Alpha" true (Some 1200) None false None None)
    (save_attendance_session sample_session_nul redis_empty).

(** ** Invariants of the lifecycle *)

(** An iteration of the sweep is in flight for [id]: its durable writes are
    done, its Redis cleanup is still to come. *)
Definition sweep_in_flight (id : UUID) (s : System) : Prop :=
  ∃ a recs, (a, recs) ∈ in_flight s ∧ AttendanceRedis.attendance_id a = id.

(** At every instant: blobs sit under their own ids, the stores hold
    created ids only, no created id is missing from both stores, a sweep
    iteration in flight has its session in the durable store, and a finish
    request in flight holds the blob of a created session. *)
Definition never_lost (s : System) : Prop :=
  wf_sessions (redis s)
  ∧ (∀ id, in_live id s ∨ in_durable id s → id ∈ created s)
  ∧ (∀ id, id ∈ created s → in_live id s ∨ in_durable id s)
  ∧ (∀ a recs, (a, recs) ∈ in_flight s → in_durable (AttendanceRedis.attendance_id a) s)
  ∧ (∀ a, a ∈ finishing s → AttendanceRedis.attendance_id a ∈ created s).

(** Between whole operations: the live store is well formed, the two stores
    hold created ids only, and each created id is in exactly one of them. *)
Definition settled (s : System) : Prop :=
  wf_sessions (redis s) ∧ wf_records (redis s)
  ∧ (∀ id, in_live id s ∨ in_durable id s → id ∈ created s)
  ∧ (∀ id, id ∈ created s → exactly_one_store id s).

(** ** A teacher who finishes one session and opens the next before the sweep *)

(** At 0 the teacher opens a session (id 2, to end at 5000), finishes it at
    100, and at 150 opens the next (id 1, to end at 9000). No sweep has run. *)
Definition after_first_start : Redis :=
  (start_attendance pop_first 0 2%N sample_teacher "Algebra" (Some "192.168.1.117")
                    0 5000 2 redis_empty).2.

Definition after_finish : Redis :=
  (finish_attendance 100 sample_teacher 2%N after_first_start).2.

Definition after_second_start : Redis :=
  (start_attendance pop_first 150 1%N sample_teacher "Topology" (Some "192.168.1.117")
                    150 9000 2 after_finish).2.

Definition first_session : AttendanceRedis.t :=
  AttendanceRedis.mk 2%N "T-101" "Dr. Integration" "Algebra" (Some "192.168.1.117")
                     0 5000 2 false None None.

Definition second_session : AttendanceRedis.t :=
  AttendanceRedis.mk 1%N "T-101" "Dr. Integration" "Topology" (Some "192.168.1.117")
                     150 9000 2 false None None.

Definition third_session : AttendanceRedis.t :=
  AttendanceRedis.mk 3%N "T-101" "Dr. Integration" "Analysis" (Some "192.168.1.117")
                     200 9500 2 false None None.

(** The student logged in (with a profile image) before a tier-3 session,
    and an outside world that serves the reference photo. *)
Definition sample_logged_in_tier3 : Redis :=
  default sample_live_tier3
    (save_user_session 0
       (UserSessionRedis.mk sample_student 1%N 0 100000 (Some "https://img/201"))
       3600 sample_live_tier3).

Definition outside_accepting : Outside := mkOutside (λ _, Some ["r"%byte]) 42%N true.
Definition outside_refusing : Outside := mkOutside (λ _, Some ["r"%byte]) 42%N false.

(** * The rest of the clients, services and routes *)

(** ** db/db_client.py, the reads and the updates of historical records *)

Module AsyncPostgresClient.

(** [SELECT * FROM Users WHERE user_school_number = ANY($1)] *)
Definition get_users (user_school_numbers : list string) (d : Postgres) : list User.t :=
  match user_school_numbers with
  | [] => []
  | _ :: _ => (map_to_list (filter (λ kv, kv.1 ∈ user_school_numbers) (Users d))).*2
  end.


Definition get_attendance_records (attendance_id : UUID) (d : Postgres) : list AttendanceRecord.t :=
  (map_to_list
     (filter (λ kv, kv.1.1 = attendance_id ∧ AttendanceRecord.is_deleted kv.2 = false)
             (AttendanceRecords d))).*2.




End AsyncPostgresClient.

(** Every row of [Users] carries its own key. *)
Definition wf_users (d : Postgres) : Prop :=
  ∀ k u, Users d !! k = Some u → User.user_school_number u = k.

(** ** services/teacher_service.py, ownership, enrichment and history *)

(** "Whichever of live or durable resolves". *)
Inductive AnyAttendance :=
| LiveAttendance (a : AttendanceRedis.t)
| HistoricalAttendance (a : Attendance.t).

Definition owner_of (x : AnyAttendance) : string :=
  match x with
  | LiveAttendance a => AttendanceRedis.teacher_school_number a
  | HistoricalAttendance a => Attendance.teacher_school_number a
  end.

Module TeacherService.

Definition get_and_verify_attendance_owner (attendance_id : UUID) (teacher : User.t)
  (r : Redis) (d : Postgres) : result exn AnyAttendance :=
  match get_attendance_session attendance_id r with
  | Some live_session =>
      if bool_decide (AttendanceRedis.teacher_school_number live_session
                      = User.user_school_number teacher)
      then Ok (LiveAttendance live_session)
      else Err (AuthorizationError "You are not authorized to access this live attendance.")
  | None =>
      match get_attendance_by_id attendance_id d with
      | None =>
          Err (AuthorizationError "Attendance not found or you are not authorized to access it.")
      | Some db_attendance =>
          if bool_decide (Attendance.teacher_school_number db_attendance
                          ≠ User.user_school_number teacher)
          then Err (AuthorizationError
                      "Attendance not found or you are not authorized to access it.")
          else Ok (HistoricalAttendance db_attendance)
      end
  end.

(** [{user.user_school_number: user for user in users}] *)
Definition user_map_of (users : list User.t) : gmap string User.t :=
  foldl (λ m user, <[User.user_school_number user := user]> m) ∅ users.

Definition _enrich_records_with_user_data
  (records : list (AttendanceRecord.t + AttendanceRecordRedis.t)) (d : Postgres)
  : list (AttendanceRecord.t * User.t) :=
  match records with
  | [] => []
  | _ :: _ =>
      let db_records_to_process :=
        omap (λ rec, match rec with inl x => Some x | inr _ => None end) records in
      let redis_records_to_process :=
        omap (λ rec, match rec with inr x => Some x | inl _ => None end) records in
      let student_numbers_to_fetch : gset string :=
        list_to_set (AttendanceRecord.student_number <$> db_records_to_process) in
      let user_map :=
        if decide (student_numbers_to_fetch = ∅) then ∅
        else user_map_of (AsyncPostgresClient.get_users (elements student_numbers_to_fetch) d) in
      ((enrich_redis_record <$> redis_records_to_process)
       ++ omap (λ record,
                  (λ student_user, (record, student_user))
                    <$> user_map !! AttendanceRecord.student_number record)
               db_records_to_process)%list
  end.

Definition get_live_attendance_records (attendance_id : UUID) (r : Redis) (d : Postgres)
  : list (AttendanceRecord.t * User.t) :=
  _enrich_records_with_user_data (inr <$> get_attendance_records attendance_id r) d.


Definition get_historical_attendance_records (attendance_id : UUID) (d : Postgres)
  : list (AttendanceRecord.t * User.t) :=
  _enrich_records_with_user_data
    (inl <$> AsyncPostgresClient.get_attendance_records attendance_id d) d.




Definition delete_attendance (now : datetime) (attendance_id : UUID) (reason : string)
  (d : Postgres) : Postgres :=
  delete_attendance now attendance_id reason d.

End TeacherService.

(** ** services/student_service.py, lookup and status *)

Module StudentService.

Definition find_active_sessions_by_name (now : datetime) (lesson_name teacher_name : string)
  (r : Redis) : list AttendanceRedis.t :=
  filter (λ session, AttendanceRedis.end_time session > now)
         (get_attendance_sessions_by_name lesson_name teacher_name r).

Definition get_my_attendance_status (now : datetime) (attendance_id : UUID) (student : User.t)
  (r : Redis) : result exn (option AttendanceRecordRedis.t) :=
  match get_attendance_session attendance_id r with
  | None => Ok None
  | Some attendance_session =>
      if bool_decide (AttendanceRedis.end_time attendance_session <= now)
      then Err (ServiceError "This attendance session has already ended.")
      else Ok (get_attendance_record_by_id attendance_id (User.user_school_number student) r)
  end.

End StudentService.

(** ** api/dependencies.py, the caller's address *)

(** What [get_client_ip] reads of a request: the headers (names in lower
    case, values decoded as latin-1) and the host of the socket peer. *)
Record Request := mkRequest {
  headers : gmap string string;
  client_host : option string
}.

(** [str.isspace] on a character below 256. *)
Definition is_space (c : ascii) : bool :=
  let n := N_of_ascii c in
  ((9 <=? n) && (n <=? 13) || (28 <=? n) && (n <=? 32) || (n =? 133) || (n =? 160))%N.

(** [s.split(",")[0]] *)
Fixpoint before_comma (s : string) : string :=
  match s with
  | EmptyString => EmptyString
  | String c s' => if Ascii.eqb c ","%char then EmptyString else String c (before_comma s')
  end.

Fixpoint lstrip (s : string) : string :=
  match s with
  | EmptyString => EmptyString
  | String c s' => if is_space c then lstrip s' else s
  end.

Fixpoint rstrip (s : string) : string :=
  match s with
  | EmptyString => EmptyString
  | String c s' =>
      match rstrip s' with
      | EmptyString => if is_space c then EmptyString else String c EmptyString
      | String c' t => String c (String c' t)
      end
  end.

(** [s.strip()] *)
Definition strip (s : string) : string := rstrip (lstrip s).

(** The loop over the proxy headers: the first one that is there and not
    empty gives its first comma-separated field, stripped. *)
Fixpoint first_forwarded (header_names : list string) (request : Request) : option string :=
  match header_names with
  | [] => None
  | header_name :: rest =>
      match headers request !! header_name with
      | Some header =>
          if truthy_str (Some header) then Some (strip (before_comma header))
          else first_forwarded rest request
      | None => first_forwarded rest request
      end
  end.

Definition get_client_ip (request : Request) : option string :=
  match first_forwarded ["cf-connecting-ip"; "x-real-ip"; "x-forwarded-for"] request with
  | Some client_ip => Some client_ip
  | None => client_host request
  end.

Fixpoint has_comma (s : string) : bool :=
  match s with
  | EmptyString => false
  | String c s' => if Ascii.eqb c ","%char then true else has_comma s'
  end.

Definition starts_with_space (s : string) : bool :=
  match s with
  | EmptyString => false
  | String c _ => is_space c
  end.

Fixpoint ends_with_space (s : string) : bool :=
  match s with
  | EmptyString => false
  | String c EmptyString => is_space c
  | String _ s' => ends_with_space s'
  end.

(** ** api/teacher.py, the routes over the services *)

(** Python [needle in haystack] on two [str]. *)
Fixpoint contains (needle haystack : string) : bool :=
  String.prefix needle haystack
  || match haystack with
     | EmptyString => false
     | String _ rest => contains needle rest
     end.

(** [len(s)] of a [str]: its code points, that is the bytes of its UTF-8
    encoding other than the continuation bytes ([10xxxxxx]). *)
Fixpoint str_len (s : string) : Z :=
  match s with
  | EmptyString => 0
  | String c s' =>
      (if (128 <=? N_of_ascii c)%N && (N_of_ascii c <? 192)%N then 0 else 1) + str_len s'
  end.

(** What a route answers: a response with its status code and body, or an
    error with its status code ([HTTPException], or the 422 of the
    framework for a body that fails the validation of its model). A route
    is modelled for a request whose user [get_current_user] has resolved and
    that is within the rate limit; the validation of the body comes before
    the route's own code. *)
Inductive Answer (A : Type) : Type :=
| Sent (status_code : Z) (body : A)
| Refused (status_code : Z).
Arguments Sent {A} status_code body.
Arguments Refused {A} status_code.

Module TeacherRoutes.

Definition _verify_teacher_role (user : User.t) : bool := contains "Teacher" (User.role user).

(** [_get_and_verify_owner]: the status code of the refusal, or the session. *)
Definition _get_and_verify_owner (attendance_id : UUID) (user : User.t) (r : Redis) (d : Postgres)
  : Z + AnyAttendance :=
  match TeacherService.get_and_verify_attendance_owner attendance_id user r d with
  | Ok attendance => inr attendance
  | Err (AuthorizationError _) => inl 404
  | Err _ => inl 400
  end.

Definition finish_attendance (now : datetime) (attendance_id : UUID) (user : User.t)
  (s : Redis * Postgres) : Answer unit * (Redis * Postgres) :=
  if negb (_verify_teacher_role user) then (Refused 403, s)
  else
    match _get_and_verify_owner attendance_id user s.1 s.2 with
    | inl status_code => (Refused status_code, s)
    | inr _ =>
        match finish_attendance now user attendance_id s.1 with
        | (Ok _, r') => (Sent 204 (), (r', s.2))
        | (Err _, r') => (Refused 400, (r', s.2))
        end
    end.

(** [AttendanceDeleteRequest]: [reason] with [min_length=10]. *)
Definition delete_attendance (now : datetime) (attendance_id : UUID) (reason : string)
  (user : User.t) (s : Redis * Postgres) : Answer unit * (Redis * Postgres) :=
  if bool_decide (str_len reason < 10) then (Refused 422, s)
  else if negb (_verify_teacher_role user) then (Refused 403, s)
  else
    match _get_and_verify_owner attendance_id user s.1 s.2 with
    | inl status_code => (Refused status_code, s)
    | inr _ => (Sent 204 (), (s.1, TeacherService.delete_attendance now attendance_id reason s.2))
    end.

Definition get_attendance_records (attendance_id : UUID) (user : User.t) (s : Redis * Postgres)
  : Answer (list (AttendanceRecord.t * User.t)) :=
  if negb (_verify_teacher_role user) then Refused 403
  else
    match _get_and_verify_owner attendance_id user s.1 s.2 with
    | inl status_code => Refused status_code
    | inr (LiveAttendance _) =>
        Sent 200 (TeacherService.get_live_attendance_records attendance_id s.1 s.2)
    | inr (HistoricalAttendance _) =>
        Sent 200 (TeacherService.get_historical_attendance_records attendance_id s.2)
    end.

Definition accept_student_in_live_attendance (now : datetime) (attendance_id : UUID)
  (student_school_number : string) (user : User.t) (s : Redis * Postgres)
  : Answer (AttendanceRecord.t * User.t) * (Redis * Postgres) :=
  if negb (_verify_teacher_role user) then (Refused 403, s)
  else
    match _get_and_verify_owner attendance_id user s.1 s.2 with
    | inl status_code => (Refused status_code, s)
    | inr _ =>
        match accept_student_attendance now attendance_id student_school_number s.1 with
        | (Some updated_record, r') => (Sent 200 updated_record, (r', s.2))
        | (None, r') => (Refused 404, (r', s.2))
        end
    end.

(** [FailStudentRequest]: [reason] with [min_length=5]. *)
Definition fail_student_in_live_attendance (attendance_id : UUID)
  (student_school_number : string) (reason : string) (user : User.t) (s : Redis * Postgres)
  : Answer (AttendanceRecord.t * User.t) * (Redis * Postgres) :=
  if bool_decide (str_len reason < 5) then (Refused 422, s)
  else if negb (_verify_teacher_role user) then (Refused 403, s)
  else
    match _get_and_verify_owner attendance_id user s.1 s.2 with
    | inl status_code => (Refused status_code, s)
    | inr _ =>
        match fail_student_in_live_attendance attendance_id student_school_number reason s.1 with
        | (Some updated_record, r') => (Sent 200 updated_record, (r', s.2))
        | (None, r') => (Refused 404, (r', s.2))
        end
    end.

End TeacherRoutes.

(** An index map as Redis keeps it: no key holds an empty set. *)
Definition no_empty_sets (m : gmap string (gset UUID)) : Prop :=
  ∀ k s, m !! k = Some s → s ≠ ∅.


Definition sample_user_session : UserSessionRedis.t :=
  UserSessionRedis.mk sample_student 1%N 0 100000 (Some "https://img/201").

(** A durable store after a sweep of [sample_two_sessions] at 6000. *)
Definition sample_swept : Redis * Postgres :=
  unified_persistence_task raises_on_nul 6000 sample_two_sessions postgres_empty.

Definition sample_history : Postgres := sample_swept.2.


(** A tier-1 session (no check at all), ending at 5000. *)
Definition sample_session_tier1 : AttendanceRedis.t :=
  AttendanceRedis.mk 15%N "T-101" "Dr. Integration" "Geometry" None 1000 5000 1 false None None.

Definition sample_live_tier1 : Redis := save_attendance_session sample_session_tier1 redis_empty.

(** * Properties *)

(** ** Index sets *)

Lemma elem_of_smembers_sadd (k k' : string) (x y : UUID) (m : gmap string (gset UUID)) :
  y ∈ smembers k' (sadd k x m) ↔ (k = k' ∧ y = x) ∨ y ∈ smembers k' m.
Proof.
  unfold sadd, smembers. destruct (decide (k = k')) as [->|Hne].
  - rewrite lookup_insert_eq. simpl. set_solver.
  - rewrite lookup_insert_ne by done. naive_solver.
Qed.

Lemma elem_of_smembers_srem (k k' : string) (x y : UUID) (m : gmap string (gset UUID)) :
  y ∈ smembers k' (srem k x m) ↔ y ∈ smembers k' m ∧ ¬ (k = k' ∧ y = x).
Proof.
  unfold srem, smembers. destruct (m !! k) as [s|] eqn:Hk.
  - destruct (decide (s ∖ {[x]} = ∅)) as [He|He].
    + destruct (decide (k = k')) as [->|Hne].
      * rewrite lookup_delete_eq, Hk. simpl. set_solver.
      * rewrite lookup_delete_ne by done. naive_solver.
    + destruct (decide (k = k')) as [->|Hne].
      * rewrite lookup_insert_eq, Hk. simpl. set_solver.
      * rewrite lookup_insert_ne by done. naive_solver.
  - destruct (decide (k = k')) as [->|Hne].
    + rewrite Hk. simpl. set_solver.
    + naive_solver.
Qed.

(** ** Finishing a session *)

(** What a finish by the owner does: the blob is saved again with the new
    end time. *)
Lemma finish_attendance_owner (now : datetime) (teacher : User.t) (attendance_id : UUID)
  (a : AttendanceRedis.t) (r : Redis) :
  attendance_session r !! attendance_id = Some a →
  AttendanceRedis.teacher_school_number a = User.user_school_number teacher →
  finish_attendance now teacher attendance_id r
  = (Ok (), save_attendance_session (AttendanceRedis.set_end_time now a) r).
Proof.
  intros Hget Hown. unfold finish_attendance, get_attendance_session. rewrite Hget.
  rewrite bool_decide_eq_false_2; [done|]. intros Hne. by apply Hne.
Qed.

(** C9. A finish issued by the owning teacher on a live session does not
    delete the live copy: the call succeeds, the blob is still stored under
    its id and indexed under both index keys, its [end_time] is the time of
    the call, and every other field is as before. Nothing else in the
    ephemeral store changes. *)
Theorem finish_attendance_keeps_live_copy
  (now : datetime) (teacher : User.t) (attendance_id : UUID) (a : AttendanceRedis.t) (r : Redis) :
  attendance_session r !! attendance_id = Some a →
  AttendanceRedis.attendance_id a = attendance_id →
  AttendanceRedis.teacher_school_number a = User.user_school_number teacher →
  ∃ r' a',
    finish_attendance now teacher attendance_id r = (Ok (), r')
    ∧ attendance_session r' !! attendance_id = Some a'
    ∧ attendance_id ∈ smembers (index_key_by_name a') (attendance_index_name r')
    ∧ attendance_id ∈ smembers (index_key_by_teacher a') (attendance_index_teacher r')
    ∧ AttendanceRedis.end_time a' = now
    ∧ AttendanceRedis.attendance_id a' = AttendanceRedis.attendance_id a
    ∧ AttendanceRedis.teacher_school_number a' = AttendanceRedis.teacher_school_number a
    ∧ AttendanceRedis.teacher_full_name a' = AttendanceRedis.teacher_full_name a
    ∧ AttendanceRedis.lesson_name a' = AttendanceRedis.lesson_name a
    ∧ AttendanceRedis.ip_address a' = AttendanceRedis.ip_address a
    ∧ AttendanceRedis.start_time a' = AttendanceRedis.start_time a
    ∧ AttendanceRedis.security_option a' = AttendanceRedis.security_option a
    ∧ AttendanceRedis.is_deleted a' = AttendanceRedis.is_deleted a
    ∧ AttendanceRedis.deletion_reason a' = AttendanceRedis.deletion_reason a
    ∧ AttendanceRedis.deletion_time a' = AttendanceRedis.deletion_time a
    ∧ (∀ k, k ≠ attendance_id → attendance_session r' !! k = attendance_session r !! k)
    ∧ attendance_records r' = attendance_records r
    ∧ verification r' = verification r
    ∧ users r' = users r.
Proof.
  intros Hget Hid Hown.
  exists (save_attendance_session (AttendanceRedis.set_end_time now a) r),
         (AttendanceRedis.set_end_time now a).
  split; [by apply finish_attendance_owner|].
  split.
  { simpl. rewrite Hid. apply lookup_insert_eq. }
  split.
  { simpl. apply elem_of_smembers_sadd. left. by rewrite Hid. }
  split.
  { simpl. apply elem_of_smembers_sadd. left. by rewrite Hid. }
  repeat split; try done.
  intros k Hk. simpl. rewrite Hid. by rewrite lookup_insert_ne.
Qed.

Lemma finish_attendance_keeps_live_copy_witness :
  ∃ r' a',
    finish_attendance 2000 sample_teacher 7%N sample_live = (Ok (), r')
    ∧ attendance_session r' !! 7%N = Some a'
    ∧ AttendanceRedis.end_time a' = 2000.
Proof.
  destruct (finish_attendance_keeps_live_copy 2000 sample_teacher 7%N sample_session sample_live)
    as (r' & a' & H1 & H2 & _ & _ & H5 & _); [reflexivity | reflexivity | reflexivity |].
  exists r', a'. auto.
Defined.

(** ** The verification webhook *)

Lemma get_verification_deleted (now : datetime) (verification_id : UUID) (r : Redis) :
  get_user_and_attendance_for_verification now verification_id
    (delete_verification_mapping verification_id r) = None.
Proof.
  unfold get_user_and_attendance_for_verification, get_ex, delete_verification_mapping. simpl.
  by rewrite lookup_delete_eq.
Qed.

Section WebhookProperties.

Variable hmac_sha256_hexdigest : bytes → bytes → string.
Variable WEBHOOK_SECRET_KEY : bytes.
Variable parse_payload : bytes → PayloadParse.

(** A delivery whose signature is not the expected digest never changes the
    store; it is answered 403, or dies with an unhandled exception when the
    comparison itself raises. *)
Lemma webhook_bad_signature_touches_nothing
  (now : datetime) (verification_id : UUID) (raw_body : bytes) (signature : string) (r : Redis) :
  hmac_sha256_hexdigest WEBHOOK_SECRET_KEY raw_body ≠ signature →
  (update_attendance_from_webhook hmac_sha256_hexdigest WEBHOOK_SECRET_KEY
      parse_payload now verification_id raw_body signature r = (HTTPException 403, r)
   ∨ update_attendance_from_webhook hmac_sha256_hexdigest WEBHOOK_SECRET_KEY
      parse_payload now verification_id raw_body signature r = (UnhandledException, r)).
Proof.
  intros Hne. unfold update_attendance_from_webhook, compare_digest.
  destruct (is_ascii _ && is_ascii _); [|by right].
  rewrite bool_decide_eq_false_2 by done. by left.
Qed.

Lemma webhook_bad_ascii_signature_403
  (now : datetime) (verification_id : UUID) (raw_body : bytes) (signature : string) (r : Redis) :
  is_ascii (hmac_sha256_hexdigest WEBHOOK_SECRET_KEY raw_body) = true →
  is_ascii signature = true →
  hmac_sha256_hexdigest WEBHOOK_SECRET_KEY raw_body ≠ signature →
  update_attendance_from_webhook hmac_sha256_hexdigest WEBHOOK_SECRET_KEY
      parse_payload now verification_id raw_body signature r = (HTTPException 403, r).
Proof.
  intros Ha Hb Hne. unfold update_attendance_from_webhook, compare_digest.
  rewrite Ha, Hb. simpl. by rewrite bool_decide_eq_false_2.
Qed.

(** C3. A delivery with a valid signature and [verification_passed = true]
    whose verification id resolves to an existing record answers 200
    "success", leaves that record attended with the timestamp of the call and
    no failure reason, and deletes the correlation entry; any later validly
    signed delivery of the same id answers 200 as well and changes nothing. *)
Theorem webhook_pass_applied_once
  (now : datetime) (verification_id : UUID) (raw_body : bytes) (signature : string) (r : Redis)
  (payload : VerificationResultPayload.t) (user_school_number : string) (attendance_id : UUID)
  (rec : AttendanceRecordRedis.t) :
  compare_digest (hmac_sha256_hexdigest WEBHOOK_SECRET_KEY raw_body) signature = Some true →
  parse_payload raw_body = Parsed payload →
  VerificationResultPayload.verification_passed payload = true →
  get_user_and_attendance_for_verification now verification_id r
    = Some (user_school_number, attendance_id) →
  get_attendance_record_by_id attendance_id user_school_number r = Some rec →
  (AttendanceRecordRedis.attendance_id rec, AttendanceRecordRedis.student_number rec)
    = (attendance_id, user_school_number) →
  ∃ r',
    update_attendance_from_webhook hmac_sha256_hexdigest WEBHOOK_SECRET_KEY
      parse_payload now verification_id raw_body signature r = (Status200 "success", r')
    ∧ get_attendance_record_by_id attendance_id user_school_number r'
      = Some (AttendanceRecordRedis.mk attendance_id user_school_number
                (AttendanceRecordRedis.student_full_name rec) true (Some now) None
                (AttendanceRecordRedis.is_deleted rec) (AttendanceRecordRedis.deletion_reason rec)
                (AttendanceRecordRedis.deletion_time rec))
    ∧ verification r' !! verification_id = None
    ∧ ∀ now' raw_body' signature' payload',
        compare_digest (hmac_sha256_hexdigest WEBHOOK_SECRET_KEY raw_body') signature' = Some true →
        parse_payload raw_body' = Parsed payload' →
        update_attendance_from_webhook hmac_sha256_hexdigest WEBHOOK_SECRET_KEY
          parse_payload now' verification_id raw_body' signature' r'
        = (Status200 "İşlem bulunamadı veya zaten işlenmiş.", r').
Proof.
  intros Hsig Hparse Hpass Hmap Hrec Hkey.
  destruct rec as [aid sn name att time reason del dreason dtime]. simpl in Hkey.
  injection Hkey as -> ->.
  eexists. split.
  { unfold update_attendance_from_webhook. rewrite Hsig, Hparse, Hmap, Hrec, Hpass. reflexivity. }
  split.
  { unfold get_attendance_record_by_id. simpl. apply lookup_insert_eq. }
  split.
  { simpl. apply lookup_delete_eq. }
  intros now' body' sig' payload' Hsig' Hparse'.
  unfold update_attendance_from_webhook. rewrite Hsig', Hparse'.
  by rewrite get_verification_deleted.
Qed.

(** The failed verdict of the webhook, on the stored record. *)
Lemma webhook_fail_record
  (now : datetime) (verification_id : UUID) (raw_body : bytes) (signature : string) (r : Redis)
  (payload : VerificationResultPayload.t) (user_school_number : string) (attendance_id : UUID)
  (rec : AttendanceRecordRedis.t) :
  compare_digest (hmac_sha256_hexdigest WEBHOOK_SECRET_KEY raw_body) signature = Some true →
  parse_payload raw_body = Parsed payload →
  VerificationResultPayload.verification_passed payload = false →
  get_user_and_attendance_for_verification now verification_id r
    = Some (user_school_number, attendance_id) →
  get_attendance_record_by_id attendance_id user_school_number r = Some rec →
  (AttendanceRecordRedis.attendance_id rec, AttendanceRecordRedis.student_number rec)
    = (attendance_id, user_school_number) →
  ∃ r',
    update_attendance_from_webhook hmac_sha256_hexdigest WEBHOOK_SECRET_KEY
      parse_payload now verification_id raw_body signature r = (Status200 "success", r')
    ∧ get_attendance_record_by_id attendance_id user_school_number r'
      = Some (AttendanceRecordRedis.set_fail_reason
                (Some ("FACE_VERIFICATION_FAILED: " +:+ VerificationResultPayload.reason payload))
                (AttendanceRecordRedis.set_is_attended false rec)).
Proof.
  intros Hsig Hparse Hpass Hmap Hrec Hkey.
  eexists. split.
  { unfold update_attendance_from_webhook. rewrite Hsig, Hparse, Hmap, Hrec, Hpass. reflexivity. }
  unfold get_attendance_record_by_id. simpl.
  injection Hkey as Ha Hs. rewrite Ha, Hs. apply lookup_insert_eq.
Qed.

End WebhookProperties.

Lemma webhook_pass_applied_once_witness :
  ∃ r',
    update_attendance_from_webhook toy_hexdigest [] toy_parse_payload 1600 42%N body_passed "01"
                                   sample_pending = (Status200 "success", r')
    ∧ (AttendanceRecordRedis.is_attended <$> get_attendance_record_by_id 7%N "S-201" r') = Some true
    ∧ verification r' !! 42%N = None
    ∧ update_attendance_from_webhook toy_hexdigest [] toy_parse_payload 1700 42%N body_passed "01" r'
      = (Status200 "İşlem bulunamadı veya zaten işlenmiş.", r').
Proof.
  destruct (webhook_pass_applied_once toy_hexdigest [] toy_parse_payload 1600 42%N body_passed "01"
              sample_pending (VerificationResultPayload.mk true "no match") "S-201" 7%N
              sample_pending_record)
    as (r' & H1 & H2 & H3 & H4);
    [reflexivity | reflexivity | reflexivity | reflexivity | reflexivity | reflexivity |].
  exists r'. split; [exact H1|]. split; [by rewrite H2|]. split; [exact H3|].
  by apply (H4 1700 body_passed "01" (VerificationResultPayload.mk true "no match")).
Defined.

(** C4, at a signature header that holds a byte outside ASCII: the digest
    comparison raises instead of answering, so the delivery ends in an
    unhandled exception (a 500), not in the 403 rejection, whatever the
    digest, the key, the body and the store are. The store is left as it
    was. *)
Theorem webhook_non_ascii_signature_unhandled :
  is_ascii non_ascii_signature = false
  ∧ toy_hexdigest [] body_passed ≠ non_ascii_signature
  ∧ update_attendance_from_webhook toy_hexdigest [] toy_parse_payload 1600 42%N body_passed
      non_ascii_signature sample_pending = (UnhandledException, sample_pending)
  ∧ ∀ (hmac_sha256_hexdigest : bytes → bytes → string) (WEBHOOK_SECRET_KEY : bytes)
      (parse_payload : bytes → PayloadParse) (now : datetime) (verification_id : UUID)
      (raw_body : bytes) (r : Redis),
      update_attendance_from_webhook hmac_sha256_hexdigest WEBHOOK_SECRET_KEY parse_payload
        now verification_id raw_body non_ascii_signature r = (UnhandledException, r).
Proof.
  split; [reflexivity|]. split; [discriminate|]. split; [reflexivity|].
  intros hmac key parse now vid body r.
  unfold update_attendance_from_webhook, compare_digest.
  replace (is_ascii non_ascii_signature) with false by reflexivity.
  by rewrite andb_false_r.
Qed.

(** ** Failed verdicts *)

(** C10. A failed verdict on a live record, from the webhook
    ([verification_passed = false]) or from the teacher's live fail, changes
    only the attended flag and the failure reason: the stored record keeps
    its [attendance_time] (and every other field), so a record accepted
    earlier keeps its timestamp next to [is_attended = false]. *)
Theorem failed_verdict_keeps_attendance_time :
  (∀ (hmac_sha256_hexdigest : bytes → bytes → string) (WEBHOOK_SECRET_KEY : bytes)
     (parse_payload : bytes → PayloadParse)
     (now : datetime) (verification_id : UUID) (raw_body : bytes) (signature : string) (r : Redis)
     (payload : VerificationResultPayload.t) (user_school_number : string) (attendance_id : UUID)
     (rec : AttendanceRecordRedis.t),
     compare_digest (hmac_sha256_hexdigest WEBHOOK_SECRET_KEY raw_body) signature = Some true →
     parse_payload raw_body = Parsed payload →
     VerificationResultPayload.verification_passed payload = false →
     get_user_and_attendance_for_verification now verification_id r
       = Some (user_school_number, attendance_id) →
     get_attendance_record_by_id attendance_id user_school_number r = Some rec →
     (AttendanceRecordRedis.attendance_id rec, AttendanceRecordRedis.student_number rec)
       = (attendance_id, user_school_number) →
     ∃ r' rec',
       update_attendance_from_webhook hmac_sha256_hexdigest WEBHOOK_SECRET_KEY parse_payload
         now verification_id raw_body signature r = (Status200 "success", r')
       ∧ get_attendance_record_by_id attendance_id user_school_number r' = Some rec'
       ∧ AttendanceRecordRedis.is_attended rec' = false
       ∧ AttendanceRecordRedis.fail_reason rec'
         = Some ("FACE_VERIFICATION_FAILED: " +:+ VerificationResultPayload.reason payload)
       ∧ only_verdict_changed rec rec')
  ∧ (∀ (attendance_id : UUID) (student_school_number reason : string) (r : Redis)
       (rec : AttendanceRecordRedis.t),
       get_attendance_record_by_id attendance_id student_school_number r = Some rec →
       (AttendanceRecordRedis.attendance_id rec, AttendanceRecordRedis.student_number rec)
         = (attendance_id, student_school_number) →
       ∃ out r' rec',
         fail_student_in_live_attendance attendance_id student_school_number reason r
           = (Some out, r')
         ∧ get_attendance_record_by_id attendance_id student_school_number r' = Some rec'
         ∧ AttendanceRecordRedis.is_attended rec' = false
         ∧ AttendanceRecordRedis.fail_reason rec' = Some reason
         ∧ only_verdict_changed rec rec'
         ∧ AttendanceRecord.attendance_time out.1 = AttendanceRecordRedis.attendance_time rec).
Proof.
  split.
  - intros hmac key parse now vid body sig r payload usn aid rec Hsig Hparse Hpass Hmap Hrec Hkey.
    destruct (webhook_fail_record hmac key parse now vid body sig r payload usn aid rec)
      as (r' & Hrun & Hget); try done.
    exists r', (AttendanceRecordRedis.set_fail_reason
                  (Some ("FACE_VERIFICATION_FAILED: " +:+ VerificationResultPayload.reason payload))
                  (AttendanceRecordRedis.set_is_attended false rec)).
    repeat split; done.
  - intros aid sn reason r rec Hrec Hkey.
    unfold fail_student_in_live_attendance. rewrite Hrec.
    eexists _, _, (AttendanceRecordRedis.set_fail_reason (Some reason)
                     (AttendanceRecordRedis.set_is_attended false rec)).
    split; [reflexivity|]. split.
    { unfold get_attendance_record_by_id. simpl. injection Hkey as Ha Hs.
      rewrite Ha, Hs. apply lookup_insert_eq. }
    repeat split; done.
Qed.

Lemma failed_verdict_keeps_attendance_time_witness :
  (∃ r' rec',
     update_attendance_from_webhook toy_hexdigest [] toy_parse_payload 1600 42%N body_failed "01"
       sample_accepted_then_called_back = (Status200 "success", r')
     ∧ get_attendance_record_by_id 7%N "S-201" r' = Some rec'
     ∧ AttendanceRecordRedis.is_attended rec' = false
     ∧ AttendanceRecordRedis.attendance_time rec' = Some 1200)
  ∧ (∃ r' rec',
       (fail_student_in_live_attendance 7%N "S-201" "left early" sample_accepted_then_called_back).2 = r'
       ∧ get_attendance_record_by_id 7%N "S-201" r' = Some rec'
       ∧ AttendanceRecordRedis.is_attended rec' = false
       ∧ AttendanceRecordRedis.attendance_time rec' = Some 1200).
Proof.
  destruct failed_verdict_keeps_attendance_time as [Hweb Hteacher]. split.
  - destruct (Hweb toy_hexdigest [] toy_parse_payload 1600 42%N body_failed "01"
                sample_accepted_then_called_back (VerificationResultPayload.mk false "no match")
                "S-201" 7%N sample_accepted_record)
      as (r' & rec' & H1 & H2 & H3 & _ & H5 & _);
      [reflexivity | reflexivity | reflexivity | reflexivity | reflexivity | reflexivity |].
    exists r', rec'. repeat split; try done; by rewrite H5.
  - destruct (Hteacher 7%N "S-201" "left early" sample_accepted_then_called_back
                sample_accepted_record)
      as (out & r' & rec' & H1 & H2 & H3 & _ & (H5 & _) & _); [reflexivity | reflexivity |].
    exists r', rec'. repeat split; try done; try (by rewrite H1); by rewrite H5.
Defined.

(** ** The attendance attempt *)

Section AttemptProperties.

Variable ipaddress_ip_address : string → option IPAddress.

(** An attempt on a live, unexpired session by a student without an accepted
    or pending record runs the security checks and stores their verdict. *)
Lemma attend_reaches_checks
  (out : Outside) (now now_record : datetime) (student : User.t) (attendance_id : UUID)
  (student_ip : option string) (normal_image_bytes : option bytes) (r : Redis)
  (a : AttendanceRedis.t) :
  get_attendance_session attendance_id r = Some a →
  now < AttendanceRedis.end_time a →
  (∀ rec, get_attendance_record_by_id attendance_id (User.user_school_number student) r = Some rec →
          AttendanceRecordRedis.is_attended rec = false
          ∧ AttendanceRecordRedis.fail_reason rec ≠ Some "FACE_RECOGNITION_PENDING") →
  attend_to_attendance ipaddress_ip_address out now now_record student attendance_id student_ip normal_image_bytes r
  = match security_checks ipaddress_ip_address out now student a student_ip normal_image_bytes r with
    | (Err e, r', calls) => (Err e, r', calls)
    | (Ok fail_reason, r', calls) =>
        let new_record :=
          AttendanceRecordRedis.mk (AttendanceRedis.attendance_id a)
            (User.user_school_number student) (User.user_full_name student)
            (bool_decide (fail_reason = None))
            (if bool_decide (fail_reason = None) then Some now_record else None)
            fail_reason false None None in
        (Ok new_record, add_attendance_record new_record r', calls)
    end.
Proof.
  intros Hget Hend Hrec. unfold attend_to_attendance. rewrite Hget.
  rewrite bool_decide_eq_false_2 by lia.
  destruct (get_attendance_record_by_id _ _ r) as [rec|] eqn:He; simpl; [|done].
  destruct (Hrec rec eq_refl) as [-> Hp]. by rewrite bool_decide_eq_false_2.
Qed.

(** C7. A student who already holds a record for the session that is
    attended, or pending, is rejected with a [ServiceError]: the store is
    left exactly as it was (the record included) and no outbound call is
    made, so neither the network check, nor the photo check, nor the
    dispatch runs again. *)
Theorem reattempt_rejected
  (out : Outside) (now now_record : datetime) (student : User.t) (attendance_id : UUID)
  (student_ip : option string) (normal_image_bytes : option bytes) (r : Redis)
  (rec : AttendanceRecordRedis.t) :
  get_attendance_record_by_id attendance_id (User.user_school_number student) r = Some rec →
  AttendanceRecordRedis.is_attended rec = true
  ∨ AttendanceRecordRedis.fail_reason rec = Some "FACE_RECOGNITION_PENDING" →
  ∃ msg,
    attend_to_attendance ipaddress_ip_address out now now_record student attendance_id student_ip normal_image_bytes r
    = (Err (ServiceError msg), r, []).
Proof.
  intros Hrec Hstate. unfold attend_to_attendance.
  destruct (get_attendance_session attendance_id r) as [a|]; [|by eexists].
  destruct (bool_decide (AttendanceRedis.end_time a <= now)); [by eexists|].
  rewrite Hrec. simpl.
  destruct (AttendanceRecordRedis.is_attended rec) eqn:Hatt; [by eexists|].
  destruct Hstate as [?|Hpending]; [done|].
  rewrite bool_decide_eq_true_2 by done. by eexists.
Qed.

(** C6. On a tier-3 session, an attempt that passes the network check but
    carries no photo is answered with a record that is not attended, with
    the reason that the image is missing; afterwards that record is the one
    read back for the student, every other record is as before, no outbound
    call has been made (no verification job is submitted) and the
    correlation map is as it was. *)
Theorem tier3_without_photo_rejected
  (out : Outside) (now now_record : datetime) (student : User.t) (attendance_id : UUID)
  (student_ip : option string) (normal_image_bytes : option bytes) (r : Redis)
  (a : AttendanceRedis.t) :
  get_attendance_session attendance_id r = Some a →
  now < AttendanceRedis.end_time a →
  (∀ rec, get_attendance_record_by_id attendance_id (User.user_school_number student) r = Some rec →
          AttendanceRecordRedis.is_attended rec = false
          ∧ AttendanceRecordRedis.fail_reason rec ≠ Some "FACE_RECOGNITION_PENDING") →
  AttendanceRedis.security_option a = 3 →
  truthy_str student_ip = true →
  verify_wifi ipaddress_ip_address a (default "" student_ip) = true →
  truthy_bytes normal_image_bytes = false →
  let new_record :=
    AttendanceRecordRedis.mk (AttendanceRedis.attendance_id a) (User.user_school_number student)
      (User.user_full_name student) false None
      (Some "FACE_VERIFICATION_REQUIRED_BUT_IMAGE_MISSING") false None None in
  ∃ r',
    attend_to_attendance ipaddress_ip_address out now now_record student attendance_id student_ip normal_image_bytes r
    = (Ok new_record, r', [])
    ∧ get_attendance_record_by_id (AttendanceRedis.attendance_id a)
        (User.user_school_number student) r' = Some new_record
    ∧ (∀ k, k ≠ (AttendanceRedis.attendance_id a, User.user_school_number student) →
            attendance_records r' !! k = attendance_records r !! k)
    ∧ verification r' = verification r.
Proof.
  intros Hget Hend Hrec Htier Hip Hwifi Himg. cbn zeta.
  rewrite (attend_reaches_checks _ _ _ _ _ _ _ _ a) by done.
  unfold security_checks. rewrite Htier, Hip, Hwifi. simpl.
  eexists. split; [by destruct normal_image_bytes as [[|b image]|]|].
  unfold get_attendance_record_by_id, add_attendance_record. cbn.
  split; [apply lookup_insert_eq|]. split; [|done].
  intros k Hk. by rewrite lookup_insert_ne.
Qed.

End AttemptProperties.

Lemma reattempt_rejected_witness :
  ∃ msg,
    attend_to_attendance dotted_quad sample_outside 1600 1601 sample_student 7%N
      (Some "192.168.1.50") None sample_pending
    = (Err (ServiceError msg), sample_pending, []).
Proof.
  apply (reattempt_rejected dotted_quad sample_outside 1600 1601 sample_student 7%N
           (Some "192.168.1.50") None sample_pending sample_pending_record).
  - reflexivity.
  - right. reflexivity.
Defined.

Lemma tier3_without_photo_rejected_witness :
  ∃ r',
    attend_to_attendance dotted_quad sample_outside 1600 1601 sample_student 9%N
      (Some "192.168.1.50") None sample_live_tier3
    = (Ok (AttendanceRecordRedis.mk 9%N "S-201" "Student Alpha" false None
             (Some "FACE_VERIFICATION_REQUIRED_BUT_IMAGE_MISSING") false None None), r', [])
    ∧ get_attendance_record_by_id 9%N "S-201" r'
      = Some (AttendanceRecordRedis.mk 9%N "S-201" "Student Alpha" false None
                (Some "FACE_VERIFICATION_REQUIRED_BUT_IMAGE_MISSING") false None None)
    ∧ get_attendance_record_by_id 9%N "S-201" sample_live_tier3 = None
    ∧ verification r' = ∅.
Proof.
  destruct (tier3_without_photo_rejected dotted_quad sample_outside 1600 1601 sample_student
              9%N (Some "192.168.1.50") None sample_live_tier3 sample_session_tier3)
    as (r' & Hrun & Hread & _ & Hverification).
  - reflexivity.
  - reflexivity.
  - intros rec Hrec. vm_compute in Hrec. discriminate.
  - reflexivity.
  - reflexivity.
  - vm_compute. reflexivity.
  - reflexivity.
  - exists r'. split; [exact Hrun|]. split; [exact Hread|]. split; [reflexivity|].
    exact Hverification.
Defined.

(** The dispatch path of tier 3 on a run: the job is submitted, the record is
    pending and the correlation entry is there; when the verifier refuses
    the job, the entry is rolled back. *)
Example attend_tier3_dispatches :
  ∃ rec r',
    attend_to_attendance dotted_quad outside_accepting 1600 1601 sample_student 9%N
      (Some "192.168.1.50") (Some ["p"%byte]) sample_logged_in_tier3
    = (Ok rec, r',
       [GetProfileImage "https://img/201"; VerifyFaceAsync 42%N "S-201" ["p"%byte] ["r"%byte]])
    ∧ AttendanceRecordRedis.fail_reason rec = Some "FACE_RECOGNITION_PENDING"
    ∧ get_user_and_attendance_for_verification 1700 42%N r' = Some ("S-201", 9%N).
Proof. eexists _, _. split; [reflexivity|]. split; reflexivity. Qed.

Example attend_tier3_submission_refused :
  ∃ rec r',
    attend_to_attendance dotted_quad outside_refusing 1600 1601 sample_student 9%N
      (Some "192.168.1.50") (Some ["p"%byte]) sample_logged_in_tier3
    = (Ok rec, r',
       [GetProfileImage "https://img/201"; VerifyFaceAsync 42%N "S-201" ["p"%byte] ["r"%byte]])
    ∧ AttendanceRecordRedis.fail_reason rec = Some "FACE_VERIFICATION_SUBMISSION_FAILED"
    ∧ verification r' !! 42%N = None.
Proof. eexists _, _. split; [reflexivity|]. split; reflexivity. Qed.

(** ** The network check *)

(** Masking with [w] ones shifted left by [p] clears the low [p] bits of a
    number below [2^(p+w)] and keeps the rest. *)
Lemma land_shifted_ones (a p w : N) :
  (a < 2 ^ (p + w))%N →
  N.land a (N.shiftl (N.ones w) p) = N.shiftl (N.shiftr a p) p.
Proof.
  intros Ha. apply N.bits_inj. intros n. rewrite N.land_spec.
  destruct (N.ltb_spec n p) as [Hlt|Hge].
  - rewrite !N.shiftl_spec_low by done. apply andb_false_r.
  - rewrite !N.shiftl_spec_high' by done. rewrite N.shiftr_spec'.
    replace (n - p + p)%N with n by lia.
    destruct (N.ltb_spec (n - p) w) as [Hlow|Hhigh].
    + rewrite N.ones_spec_low by done. apply andb_true_r.
    + rewrite N.ones_spec_high by done. rewrite andb_false_r.
      rewrite <- (N.mod_small a (2 ^ (p + w))) by done.
      symmetry. apply N.mod_pow2_bits_high. lia.
Qed.

Lemma shiftl_cancel (a b p : N) : N.shiftl a p = N.shiftl b p → a = b.
Proof.
  rewrite !N.shiftl_mul_pow2. intros H.
  apply N.mul_cancel_r in H; [done|]. apply N.pow_nonzero. done.
Qed.

Lemma in_network_v4_24 (s c : N) :
  (s < 2 ^ 32)%N → (c < 2 ^ 32)%N →
  in_network netmask_v4_24 s c = true ↔ same_slash_24 s c.
Proof.
  intros Hs Hc. unfold in_network, netmask_v4_24, same_slash_24.
  rewrite bool_decide_eq_true.
  rewrite !(land_shifted_ones _ 8 24) by done. split.
  - intros H. symmetry. by apply shiftl_cancel in H.
  - by intros ->.
Qed.

Lemma in_network_v6_64 (s c : N) :
  (s < 2 ^ 128)%N → (c < 2 ^ 128)%N →
  in_network netmask_v6_64 s c = true ↔ same_slash_64 s c.
Proof.
  intros Hs Hc. unfold in_network, netmask_v6_64, same_slash_64.
  rewrite bool_decide_eq_true.
  rewrite !(land_shifted_ones _ 64 64) by done. split.
  - intros H. symmetry. by apply shiftl_cancel in H.
  - by intros ->.
Qed.

Lemma truthy_str_Some (s : string) : truthy_str (Some s) = true ↔ s ≠ "".
Proof.
  unfold truthy_str. rewrite negb_true_iff, bool_decide_eq_false. done.
Qed.

Section NetworkCheck.

Variable ipaddress_ip_address : string → option IPAddress.
Hypothesis parsed_in_range : parser_in_range ipaddress_ip_address.

(** When [verify_wifi] answers yes. *)
Lemma verify_wifi_true_iff (attendance : AttendanceRedis.t) (ip : string) :
  verify_wifi ipaddress_ip_address attendance ip = true ↔
  ∃ session_address,
    AttendanceRedis.ip_address attendance = Some session_address
    ∧ session_address ≠ "" ∧ ip ≠ ""
    ∧ (session_address = ip
       ∨ (∃ s c, ipaddress_ip_address session_address = Some (IPv4Address s)
                 ∧ ipaddress_ip_address ip = Some (IPv4Address c) ∧ same_slash_24 s c)
       ∨ (∃ s c, ipaddress_ip_address session_address = Some (IPv6Address s)
                 ∧ ipaddress_ip_address ip = Some (IPv6Address c) ∧ same_slash_64 s c)).
Proof.
  unfold verify_wifi.
  destruct (AttendanceRedis.ip_address attendance) as [sa|] eqn:Hsa; simpl.
  2:{ split; [done|]. by intros (? & ? & _). }
  destruct (decide (sa = "")) as [->|Hsa_ne].
  { simpl. split; [done|]. intros (x & [= <-] & Hx & _). done. }
  rewrite (bool_decide_eq_false_2 (sa = "")) by done. simpl.
  destruct (decide (ip = "")) as [->|Hip_ne].
  { simpl. split; [done|]. intros (x & _ & _ & Hx & _). done. }
  rewrite (bool_decide_eq_false_2 (ip = "")) by done. simpl.
  destruct (decide (sa = ip)) as [Heq|Hne].
  { rewrite bool_decide_eq_true_2 by done. split; [|done].
    intros _. exists sa. auto. }
  rewrite (bool_decide_eq_false_2 (sa = ip)) by done.
  pose proof (parsed_in_range sa) as Hrs. pose proof (parsed_in_range ip) as Hrc.
  destruct (ipaddress_ip_address sa) as [[s|s]|] eqn:Hps;
    destruct (ipaddress_ip_address ip) as [[c|c]|] eqn:Hpc.
  all: try rewrite in_network_v4_24 by done; try rewrite in_network_v6_64 by done.
  all: split;
    [ intros H; try done; exists sa; repeat split; try done; right;
      first [ left; by exists s, c | right; by exists s, c ]
    | intros (x & Hx & _ & _ & [?|[(s' & c' & H1 & H2 & H)|(s' & c' & H1 & H2 & H)]]);
      by simplify_eq ].
Qed.

End NetworkCheck.

(** C5, as the code has it. The network check of an attempt passes exactly
    when both addresses are present and not empty and they match exactly, or
    are two IPv4 addresses in one /24, or two IPv6 addresses in one /64;
    mixed families and unparseable pairs that differ fail. On a session of
    tier 2 or above that the attempt reaches, a failed check stores a record
    that is not attended with reason WIFI_FAILED, and a passed check on a
    tier-2 session stores an attended record. *)
Theorem network_check_decides_attendance (ipaddress_ip_address : string → option IPAddress) :
  parser_in_range ipaddress_ip_address →
  (∀ (attendance : AttendanceRedis.t) (student_ip : option string),
     network_check ipaddress_ip_address attendance student_ip = true ↔
     ∃ session_address caller_address,
       AttendanceRedis.ip_address attendance = Some session_address
       ∧ student_ip = Some caller_address
       ∧ session_address ≠ "" ∧ caller_address ≠ ""
       ∧ judged_same_network ipaddress_ip_address session_address caller_address)
  ∧ (∀ (out : Outside) (now now_record : datetime) (student : User.t) (attendance_id : UUID)
       (student_ip : option string) (normal_image_bytes : option bytes) (r : Redis)
       (a : AttendanceRedis.t),
       get_attendance_session attendance_id r = Some a →
       now < AttendanceRedis.end_time a →
       (∀ rec, get_attendance_record_by_id attendance_id (User.user_school_number student) r
               = Some rec →
               AttendanceRecordRedis.is_attended rec = false
               ∧ AttendanceRecordRedis.fail_reason rec ≠ Some "FACE_RECOGNITION_PENDING") →
       AttendanceRedis.security_option a >= 2 →
       (network_check ipaddress_ip_address a student_ip = false →
        let new_record :=
          AttendanceRecordRedis.mk (AttendanceRedis.attendance_id a)
            (User.user_school_number student) (User.user_full_name student)
            false None (Some "WIFI_FAILED") false None None in
        attend_to_attendance ipaddress_ip_address out now now_record student attendance_id
          student_ip normal_image_bytes r
        = (Ok new_record, add_attendance_record new_record r, []))
       ∧ (network_check ipaddress_ip_address a student_ip = true →
          AttendanceRedis.security_option a = 2 →
          let new_record :=
            AttendanceRecordRedis.mk (AttendanceRedis.attendance_id a)
              (User.user_school_number student) (User.user_full_name student)
              true (Some now_record) None false None None in
          attend_to_attendance ipaddress_ip_address out now now_record student attendance_id
            student_ip normal_image_bytes r
          = (Ok new_record, add_attendance_record new_record r, []))).
Proof.
  intros Hrange. split.
  - intros attendance student_ip. unfold network_check, judged_same_network.
    rewrite andb_true_iff. destruct student_ip as [ip|]; simpl.
    + rewrite verify_wifi_true_iff by done. split.
      * intros (_ & sa & H1 & H2 & H3 & H4). by exists sa, ip.
      * intros (sa & ca & H1 & [= <-] & H2 & H3 & H4). split.
        { by rewrite bool_decide_eq_false_2. }
        by exists sa.
    + split; [by intros [? _]|]. by intros (? & ? & _ & ? & _).
  - intros out now now_record student attendance_id student_ip img r a Hget Hend Hrec Htier.
    unfold network_check. split.
    + intros Hfail. simpl.
      rewrite (attend_reaches_checks _ _ _ _ _ _ _ _ _ a) by done.
      unfold security_checks. rewrite (bool_decide_eq_true_2 _ Htier).
      apply andb_false_iff in Hfail.
      assert (negb (truthy_str student_ip)
              || negb (verify_wifi ipaddress_ip_address a (default "" student_ip)) = true) as ->.
      { destruct Hfail as [->| ->]; [done|]. apply orb_true_r. }
      rewrite andb_false_r. done.
    + intros Hpass Htwo. simpl.
      rewrite (attend_reaches_checks _ _ _ _ _ _ _ _ _ a) by done.
      unfold security_checks. rewrite (bool_decide_eq_true_2 _ Htier).
      apply andb_true_iff in Hpass as [-> ->]. simpl.
      rewrite Htwo. done.
Qed.

Lemma network_check_decides_attendance_witness :
  network_check dotted_quad sample_session (Some "192.168.1.50") = true
  ∧ network_check dotted_quad sample_session (Some "192.168.2.50") = false
  ∧ (∃ rec,
       attend_to_attendance dotted_quad sample_outside 1600 1601 sample_student 7%N
         (Some "192.168.2.50") None sample_live = (Ok rec, add_attendance_record rec sample_live, [])
       ∧ AttendanceRecordRedis.is_attended rec = false
       ∧ AttendanceRecordRedis.fail_reason rec = Some "WIFI_FAILED")
  ∧ (∃ rec,
       attend_to_attendance dotted_quad sample_outside 1600 1601 sample_student 7%N
         (Some "192.168.1.50") None sample_live = (Ok rec, add_attendance_record rec sample_live, [])
       ∧ AttendanceRecordRedis.is_attended rec = true).
Proof.
  assert (parser_in_range dotted_quad) as Hrange.
  { intros s. unfold dotted_quad.
    destruct (read_fields s None []) as [[|a [|b [|c [|d [|? ?]]]]]|]; try done.
    destruct ((a <=? 255)%N && (b <=? 255)%N && (c <=? 255)%N && (d <=? 255)%N) eqn:H; [|done].
    repeat (apply andb_true_iff in H as [H ?]).
    apply N.leb_le in H. repeat match goal with X : (_ <=? _)%N = true |- _ => apply N.leb_le in X end.
    lia. }
  destruct (network_check_decides_attendance dotted_quad Hrange) as [Hiff Hattempt].
  split.
  { apply Hiff. exists "192.168.1.117", "192.168.1.50".
    repeat split; try done. right. left.
    exists 3232235893%N, 3232235826%N. repeat split; reflexivity. }
  split; [reflexivity|].
  destruct (Hattempt sample_outside 1600 1601 sample_student 7%N (Some "192.168.2.50") None
              sample_live sample_session) as [Hfail _];
    [reflexivity | reflexivity | intros rec Hrec; vm_compute in Hrec; discriminate | done |].
  destruct (Hattempt sample_outside 1600 1601 sample_student 7%N (Some "192.168.1.50") None
              sample_live sample_session) as [_ Hpass];
    [reflexivity | reflexivity | intros rec Hrec; vm_compute in Hrec; discriminate | done |].
  split.
  - eexists. split; [apply Hfail; reflexivity|]. split; reflexivity.
  - eexists. split; [apply Hpass; reflexivity|]. reflexivity.
Defined.

(** C5 as stated fails where the two addresses are the same empty text: they
    match exactly, yet [verify_wifi] and the check of the attempt answer no
    and the record is stored with WIFI_FAILED. *)
Lemma network_check_blank_addresses_fail :
  ¬ (∀ (attendance : AttendanceRedis.t) (session_address caller_address : string),
       AttendanceRedis.ip_address attendance = Some session_address →
       (network_check dotted_quad attendance (Some caller_address) = true
        ↔ judged_same_network dotted_quad session_address caller_address)).
Proof.
  intros H.
  specialize (H sample_session_blank_ip "" "" eq_refl).
  destruct H as [_ H]. specialize (H (or_introl eq_refl)). discriminate H.
Qed.

(** The check on some concrete addresses. *)
Example dotted_quad_reads : dotted_quad "192.168.1.117" = Some (IPv4Address 3232235893).
Proof. reflexivity. Qed.

Example dotted_quad_rejects : dotted_quad "fe80::1" = None ∧ dotted_quad "256.1.1.1" = None.
Proof. split; reflexivity. Qed.

Example verify_wifi_same_24 : verify_wifi dotted_quad sample_session "192.168.1.1" = true.
Proof. reflexivity. Qed.

Example verify_wifi_other_24 : verify_wifi dotted_quad sample_session "192.168.2.117" = false.
Proof. reflexivity. Qed.

Example verify_wifi_unparseable_differs : verify_wifi dotted_quad sample_session "unknown" = false.
Proof. reflexivity. Qed.

Example attend_blank_addresses :
  (attend_to_attendance dotted_quad sample_outside 1600 1601 sample_student 11%N (Some "") None
     sample_live_blank_ip).1.1
  = Ok (AttendanceRecordRedis.mk 11%N "S-201" "Student Alpha" false None (Some "WIFI_FAILED")
          false None None).
Proof. reflexivity. Qed.

(** ** The persistence sweep *)

Lemma elem_of_get_attendance_records (id : UUID) (r : Redis) (rec : AttendanceRecordRedis.t) :
  rec ∈ get_attendance_records id r ↔ ∃ sn, attendance_records r !! (id, sn) = Some rec.
Proof.
  unfold get_attendance_records. rewrite list_elem_of_fmap. split.
  - intros ([[i sn] x] & -> & Hin). apply elem_of_map_to_list in Hin.
    apply map_lookup_filter_Some in Hin as [Hin Hid]. simpl in *. subst. by exists sn.
  - intros (sn & Hin). exists ((id, sn), rec). split; [done|].
    apply elem_of_map_to_list. by apply map_lookup_filter_Some.
Qed.

Lemma upsert_record_to_db (rec : AttendanceRecordRedis.t)
  (tbl : gmap (UUID * string) AttendanceRecord.t) :
  upsert_attendance_record (record_to_db rec) tbl
  = <[(AttendanceRecordRedis.attendance_id rec, AttendanceRecordRedis.student_number rec)
      := record_to_db rec]> tbl.
Proof. unfold upsert_attendance_record. simpl. by destruct (tbl !! _). Qed.

Lemma foldl_upsert_other (recs : list AttendanceRecordRedis.t)
  (tbl : gmap (UUID * string) AttendanceRecord.t) (k : UUID * string) :
  (∀ rec, rec ∈ recs →
     (AttendanceRecordRedis.attendance_id rec, AttendanceRecordRedis.student_number rec) ≠ k) →
  foldl (λ tbl rec, upsert_attendance_record rec tbl) tbl (map record_to_db recs) !! k = tbl !! k.
Proof.
  revert tbl. induction recs as [|x xs IH]; intros tbl Hne; simpl; [done|].
  rewrite IH by (intros rec Hrec; apply Hne; by right).
  rewrite upsert_record_to_db. apply lookup_insert_ne. apply Hne. by left.
Qed.

Lemma foldl_upsert_hit (recs : list AttendanceRecordRedis.t)
  (tbl : gmap (UUID * string) AttendanceRecord.t) (x : AttendanceRecordRedis.t) :
  x ∈ recs →
  (∀ rec, rec ∈ recs →
     (AttendanceRecordRedis.attendance_id rec, AttendanceRecordRedis.student_number rec)
     = (AttendanceRecordRedis.attendance_id x, AttendanceRecordRedis.student_number x) →
     rec = x) →
  foldl (λ tbl rec, upsert_attendance_record rec tbl) tbl (map record_to_db recs)
    !! (AttendanceRecordRedis.attendance_id x, AttendanceRecordRedis.student_number x)
  = Some (record_to_db x).
Proof.
  revert tbl. induction recs as [|y ys IH]; intros tbl Hin Huniq; [by apply elem_of_nil in Hin|].
  simpl.
  set (key := λ rec, (AttendanceRecordRedis.attendance_id rec,
                      AttendanceRecordRedis.student_number rec)).
  destruct (decide (key x ∈ key <$> ys)) as [Hys|Hys].
  - apply list_elem_of_fmap in Hys as (rec & Hk & Hrec).
    apply IH.
    + rewrite <- (Huniq rec); [done | by right | done].
    + intros rec' Hrec'. apply Huniq. by right.
  - assert (x = y) as <-.
    { apply elem_of_cons in Hin as [?|Hin]; [done|].
      exfalso. apply Hys. apply list_elem_of_fmap. by exists x. }
    rewrite foldl_upsert_other.
    + rewrite upsert_record_to_db. apply lookup_insert_eq.
    + intros rec Hrec Hk. apply Hys. apply list_elem_of_fmap. by exists rec.
Qed.

Lemma elem_of_scan_attendance_sessions (r : Redis) (k : UUID) :
  k ∈ scan_attendance_sessions r ↔ is_Some (attendance_session r !! k).
Proof.
  unfold scan_attendance_sessions. rewrite list_elem_of_fmap. split.
  - intros ([k' a] & -> & Hin). apply elem_of_map_to_list in Hin. by exists a.
  - intros [a Ha]. exists (k, a). split; [done|]. by apply elem_of_map_to_list.
Qed.

(** Well-formedness is what the writers of the Redis client establish. *)
Lemma wf_sessions_empty : wf_sessions redis_empty.
Proof. intros k a H. simpl in H. by rewrite lookup_empty in H. Qed.

Lemma wf_records_empty : wf_records redis_empty.
Proof. intros k a H. simpl in H. by rewrite lookup_empty in H. Qed.

Lemma save_attendance_session_wf_sessions (a : AttendanceRedis.t) (r : Redis) :
  wf_sessions r → wf_sessions (save_attendance_session a r).
Proof.
  intros Hwf k x. simpl. intros [[<- <-]|[_ Hx]]%lookup_insert_Some; [done|by apply Hwf].
Qed.

Lemma save_attendance_session_wf_records (a : AttendanceRedis.t) (r : Redis) :
  wf_records r → wf_records (save_attendance_session a r).
Proof. done. Qed.

Lemma add_attendance_record_wf_sessions (rec : AttendanceRecordRedis.t) (r : Redis) :
  wf_sessions r → wf_sessions (add_attendance_record rec r).
Proof. done. Qed.

Lemma add_attendance_record_wf_records (rec : AttendanceRecordRedis.t) (r : Redis) :
  wf_records r → wf_records (add_attendance_record rec r).
Proof.
  intros Hwf k x. simpl. intros [[<- <-]|[_ Hx]]%lookup_insert_Some; [done|by apply Hwf].
Qed.

(** The durable store once the writes of the persistence block are through. *)
Lemma all_written_Attendances (a : AttendanceRedis.t) (recs : list AttendanceRecordRedis.t)
  (d : Postgres) :
  Attendances (all_written (session_writes a recs) d)
  = insert_do_nothing (AttendanceRedis.attendance_id a) (attendance_row (attendance_to_db a))
                      (Attendances d).
Proof. destruct recs; reflexivity. Qed.

Lemma all_written_AttendanceRecords (a : AttendanceRedis.t)
  (recs : list AttendanceRecordRedis.t) (d : Postgres) :
  AttendanceRecords (all_written (session_writes a recs) d)
  = foldl (λ tbl rec, upsert_attendance_record rec tbl) (AttendanceRecords d)
          (map record_to_db recs).
Proof. destruct recs; reflexivity. Qed.

(** The live store after the cleanup block. *)
Lemma cleanup_session_sessions a recs r :
  attendance_session (cleanup_session a recs r)
  = delete (AttendanceRedis.attendance_id a) (attendance_session r).
Proof. unfold cleanup_session. by destruct recs. Qed.

Lemma cleanup_session_index_name a recs r :
  attendance_index_name (cleanup_session a recs r)
  = srem (index_key_by_name a) (AttendanceRedis.attendance_id a) (attendance_index_name r).
Proof. unfold cleanup_session. by destruct recs. Qed.

Lemma cleanup_session_index_teacher a recs r :
  attendance_index_teacher (cleanup_session a recs r)
  = srem (index_key_by_teacher a) (AttendanceRedis.attendance_id a) (attendance_index_teacher r).
Proof. unfold cleanup_session. by destruct recs. Qed.

Lemma cleanup_session_records a recs r :
  attendance_records (cleanup_session a recs r)
  = foldr delete (attendance_records r)
          (map (λ rec, (AttendanceRedis.attendance_id a, AttendanceRecordRedis.student_number rec)) recs).
Proof. unfold cleanup_session. by destruct recs. Qed.

Lemma lookup_insert_do_nothing {K V : Type} `{Countable K} (k j : K) (v : V) (tbl : gmap K V) :
  insert_do_nothing k v tbl !! j
  = if decide (k = j) then Some (default v (tbl !! k)) else tbl !! j.
Proof.
  unfold insert_do_nothing. destruct (tbl !! k) as [x|] eqn:Hk.
  - case_decide; [by subst|done].
  - case_decide; [subst; by rewrite lookup_insert_eq|by rewrite lookup_insert_ne].
Qed.

Lemma cleanup_session_wf_sessions a recs r :
  wf_sessions r → wf_sessions (cleanup_session a recs r).
Proof.
  intros Hwf k x. rewrite cleanup_session_sessions.
  intros [_ Hx]%lookup_delete_Some. by apply Hwf.
Qed.

Lemma cleanup_session_wf_records a recs r :
  wf_records r → wf_records (cleanup_session a recs r).
Proof.
  intros Hwf k x. rewrite cleanup_session_records.
  intros [_ Hx]%lookup_foldr_delete_Some. by apply Hwf.
Qed.

(** The writes of one block. *)
Lemma elem_of_session_writes (a : AttendanceRedis.t) (recs : list AttendanceRecordRedis.t)
  (w : DbWrite) :
  w ∈ session_writes a recs →
  (∃ users, w = AddUsers users)
  ∨ w = AddAttendances [attendance_to_db a]
  ∨ w = AddAttendanceRecords (map record_to_db recs).
Proof.
  unfold session_writes. destruct recs as [|x xs]; cbn.
  - intros [->|[->|?%elem_of_nil]%elem_of_cons]%elem_of_cons; [left; by eexists|by right; left|done].
  - intros [->|[->|[->|[->|?%elem_of_nil]%elem_of_cons]%elem_of_cons]%elem_of_cons]%elem_of_cons.
    + left. by eexists.
    + left. by eexists.
    + right. by left.
    + right. by right.
    + done.
Qed.

(** A write of the block of [a] leaves the durable rows of every other id
    as they are. *)
Lemma session_write_other_id (id : UUID) (a : AttendanceRedis.t) (r : Redis) (w : DbWrite)
  (d : Postgres) :
  wf_records r →
  AttendanceRedis.attendance_id a ≠ id →
  w ∈ session_writes a (get_attendance_records (AttendanceRedis.attendance_id a) r) →
  Attendances (run_write w d) !! id = Attendances d !! id
  ∧ (∀ sn, AttendanceRecords (run_write w d) !! (id, sn) = AttendanceRecords d !! (id, sn)).
Proof.
  intros Hwf Hne [[users ->]|[->| ->]]%elem_of_session_writes; cbn.
  - done.
  - split; [|done]. rewrite lookup_insert_do_nothing. by case_decide.
  - split; [done|]. intros sn. apply foldl_upsert_other.
    intros rec (sn' & Hrec)%elem_of_get_attendance_records.
    rewrite (Hwf _ _ Hrec). intros [= ? _]. done.
Qed.

(** No write of a block removes a session row. *)
Lemma session_write_keeps_rows (a : AttendanceRedis.t) (recs : list AttendanceRecordRedis.t)
  (w : DbWrite) (d : Postgres) (id : UUID) (x : Attendance.t) :
  w ∈ session_writes a recs →
  Attendances d !! id = Some x → Attendances (run_write w d) !! id = Some x.
Proof.
  intros [[users ->]|[->| ->]]%elem_of_session_writes Hx; cbn; try done.
  rewrite lookup_insert_do_nothing. case_decide; [subst; by rewrite Hx|done].
Qed.

Lemma filter_records_same (id : UUID) (r r' : Redis) :
  (∀ sn, attendance_records r' !! (id, sn) = attendance_records r !! (id, sn)) →
  get_attendance_records id r' = get_attendance_records id r.
Proof.
  intros Hsame. unfold get_attendance_records. f_equal. f_equal.
  apply map_eq. intros [i sn]. apply option_eq. intros x.
  rewrite !map_lookup_filter_Some. cbn.
  split; intros [Hx ->]; (split; [|done]); by rewrite Hsame in * || by rewrite <- Hsame.
Qed.

Section SweepProperties.

Variable raises : DbWrite → Postgres → bool.

Lemma run_writes_accepted (ws : list DbWrite) (d : Postgres) :
  (∀ w d', w ∈ ws → raises w d' = false) →
  run_writes raises ws d = (all_written ws d, true).
Proof.
  revert d. induction ws as [|w ws IH]; intros d Hok; [done|].
  cbn. rewrite Hok by left. apply IH. intros w' d' Hw'. apply Hok. by right.
Qed.

Lemma run_writes_through (ws : list DbWrite) (d d' : Postgres) :
  run_writes raises ws d = (d', true) → d' = all_written ws d.
Proof.
  revert d. induction ws as [|w ws IH]; intros d; cbn; [by intros [= <-]|].
  destruct (raises w d); [done|]. apply IH.
Qed.

(** What every write of the list keeps, the writes done keep, however far
    they got. *)
Lemma run_writes_preserves (P : Postgres → Prop) (ws : list DbWrite) (d : Postgres) :
  (∀ w d', w ∈ ws → P d' → P (run_write w d')) →
  P d → P (run_writes raises ws d).1.
Proof.
  revert d. induction ws as [|w ws IH]; intros d Hkeep Hd; [done|].
  cbn. destruct (raises w d); [done|].
  apply IH; [intros w' d' Hw'; apply Hkeep; by right|].
  apply Hkeep; [left|done].
Qed.

Lemma persist_session_accepted (a : AttendanceRedis.t) (r : Redis) (d : Postgres) :
  writes_accepted raises a r →
  persist_session raises a r d
  = (all_written (session_writes a (get_attendance_records (AttendanceRedis.attendance_id a) r)) d,
     Some (get_attendance_records (AttendanceRedis.attendance_id a) r)).
Proof.
  intros Hok. unfold persist_session. by rewrite run_writes_accepted.
Qed.

Lemma persist_session_through (a : AttendanceRedis.t) (r : Redis) (d d' : Postgres)
  (recs : list AttendanceRecordRedis.t) :
  persist_session raises a r d = (d', Some recs) →
  recs = get_attendance_records (AttendanceRedis.attendance_id a) r
  ∧ d' = all_written (session_writes a recs) d.
Proof.
  unfold persist_session.
  destruct (run_writes raises _ d) as [d1 [|]] eqn:Hrun; [|done].
  intros [= <- <-]. split; [done|]. by apply run_writes_through.
Qed.

Lemma persist_session_preserves (P : Postgres → Prop) (a : AttendanceRedis.t) (r : Redis)
  (d : Postgres) :
  (∀ w d', w ∈ session_writes a (get_attendance_records (AttendanceRedis.attendance_id a) r) →
           P d' → P (run_write w d')) →
  P d → P (persist_session raises a r d).1.
Proof.
  intros Hkeep Hd. unfold persist_session.
  pose proof (run_writes_preserves P _ d Hkeep Hd) as H.
  by destruct (run_writes raises _ d) as [d1 [|]].
Qed.

(** One scanned key: skipped; or persisted and cleaned up; or, when a write
    raised, persisted in part and left live. *)
Lemma process_session_key_skip (now : datetime) (k : UUID) (s : Redis * Postgres) :
  (∀ a, attendance_session s.1 !! k = Some a → now <= AttendanceRedis.end_time a) →
  process_session_key raises now k s = s.
Proof.
  intros Hskip. unfold process_session_key.
  destruct (attendance_session s.1 !! k) as [a|]; [|done].
  rewrite bool_decide_eq_true_2; [done|]. specialize (Hskip a eq_refl). lia.
Qed.

Lemma process_session_key_hit (now : datetime) (k : UUID) (r : Redis) (d : Postgres)
  (a : AttendanceRedis.t) :
  attendance_session r !! k = Some a →
  AttendanceRedis.end_time a < now →
  writes_accepted raises a r →
  process_session_key raises now k (r, d)
  = (cleanup_session a (get_attendance_records (AttendanceRedis.attendance_id a) r) r,
     all_written (session_writes a (get_attendance_records (AttendanceRedis.attendance_id a) r))
                 d).
Proof.
  intros Hk Hend Hok. unfold process_session_key. cbn [fst snd]. rewrite Hk.
  rewrite bool_decide_eq_false_2 by lia.
  by rewrite persist_session_accepted.
Qed.

Lemma process_session_key_cases (now : datetime) (k : UUID) (s : Redis * Postgres) :
  process_session_key raises now k s = s
  ∨ ∃ a, attendance_session s.1 !! k = Some a
         ∧ AttendanceRedis.end_time a < now
         ∧ (process_session_key raises now k s).2 = (persist_session raises a s.1 s.2).1
         ∧ ((process_session_key raises now k s).1 = s.1
            ∨ ((process_session_key raises now k s).1
               = cleanup_session a
                   (get_attendance_records (AttendanceRedis.attendance_id a) s.1) s.1
               ∧ (process_session_key raises now k s).2
                 = all_written
                     (session_writes a
                        (get_attendance_records (AttendanceRedis.attendance_id a) s.1)) s.2)).
Proof.
  unfold process_session_key.
  destruct (attendance_session s.1 !! k) as [a|] eqn:Hk; [|by left].
  case_bool_decide as Hend; [by left|]. right. exists a.
  split; [done|]. split; [lia|].
  destruct (persist_session raises a s.1 s.2) as [d' [recs|]] eqn:Hp; cbn [fst snd].
  - split; [done|]. right.
    apply persist_session_through in Hp as [-> ->]. done.
  - split; [done|]. by left.
Qed.

Lemma process_session_key_wf (now : datetime) (k : UUID) (s : Redis * Postgres) :
  wf_sessions s.1 → wf_records s.1 →
  wf_sessions (process_session_key raises now k s).1
  ∧ wf_records (process_session_key raises now k s).1.
Proof.
  intros Hs Hr.
  destruct (process_session_key_cases now k s) as [->|(a & _ & _ & _ & [->|[-> _]])];
    try done.
  split; [by apply cleanup_session_wf_sessions | by apply cleanup_session_wf_records].
Qed.

(** The persistence block of [a], however far it gets, leaves the durable
    rows of every other id as they are. *)
Lemma persist_session_other_id (id : UUID) (a : AttendanceRedis.t) (r : Redis) (d : Postgres) :
  wf_records r →
  AttendanceRedis.attendance_id a ≠ id →
  Attendances (persist_session raises a r d).1 !! id = Attendances d !! id
  ∧ (∀ sn, AttendanceRecords (persist_session raises a r d).1 !! (id, sn)
           = AttendanceRecords d !! (id, sn)).
Proof.
  intros Hwf Hne.
  apply (persist_session_preserves
           (λ d', Attendances d' !! id = Attendances d !! id
                  ∧ (∀ sn, AttendanceRecords d' !! (id, sn) = AttendanceRecords d !! (id, sn))));
    [|done].
  intros w d' Hw [Hrow Hrecs].
  destruct (session_write_other_id id a r w d' Hwf Hne Hw) as [Hrow' Hrecs'].
  split; [congruence|]. intros sn. by rewrite Hrecs'.
Qed.

(** The cleanup block of [a] leaves the live view of every other id as it is. *)
Lemma cleanup_session_other_id (id : UUID) (a : AttendanceRedis.t) (r : Redis) :
  wf_records r →
  AttendanceRedis.attendance_id a ≠ id →
  let r' := cleanup_session a (get_attendance_records (AttendanceRedis.attendance_id a) r) r in
  attendance_session r' !! id = attendance_session r !! id
  ∧ (∀ sn, attendance_records r' !! (id, sn) = attendance_records r !! (id, sn))
  ∧ (∀ k, id ∈ smembers k (attendance_index_name r')
          ↔ id ∈ smembers k (attendance_index_name r))
  ∧ (∀ k, id ∈ smembers k (attendance_index_teacher r')
          ↔ id ∈ smembers k (attendance_index_teacher r)).
Proof.
  intros Hwf Hne. cbn zeta.
  rewrite cleanup_session_sessions, cleanup_session_records, cleanup_session_index_name,
    cleanup_session_index_teacher.
  split; [by apply lookup_delete_ne|].
  split.
  { intros sn. apply lookup_foldr_delete_not_elem_of.
    intros (rec & Hk & _)%list_elem_of_fmap. by injection Hk. }
  split; intros k; rewrite elem_of_smembers_srem; naive_solver.
Qed.

(** Migrating the session [a], stored under its own id. *)
Lemma migrate_hit (a : AttendanceRedis.t) (r : Redis) (d : Postgres) :
  wf_records r →
  migrated a (r, d)
    (cleanup_session a (get_attendance_records (AttendanceRedis.attendance_id a) r) r,
     all_written (session_writes a (get_attendance_records (AttendanceRedis.attendance_id a) r))
                 d).
Proof.
  intros Hwf. unfold migrated. cbn [fst snd].
  rewrite cleanup_session_sessions, cleanup_session_records, cleanup_session_index_name,
    cleanup_session_index_teacher, all_written_Attendances, all_written_AttendanceRecords.
  set (id := AttendanceRedis.attendance_id a).
  split; [apply lookup_delete_eq|].
  split.
  { intros sn.
    destruct (foldr delete (attendance_records r) _ !! (id, sn)) as [x|] eqn:Hx; [|done].
    apply lookup_foldr_delete_Some in Hx as [Hnot Hsome]. exfalso. apply Hnot.
    apply list_elem_of_fmap. exists x. split.
    - pose proof (Hwf _ _ Hsome) as [= _ Hsn]. by rewrite Hsn.
    - apply elem_of_get_attendance_records. by exists sn. }
  split; [rewrite elem_of_smembers_srem; naive_solver|].
  split; [rewrite elem_of_smembers_srem; naive_solver|].
  split.
  { rewrite lookup_insert_do_nothing. by rewrite decide_True. }
  intros sn. destruct (attendance_records r !! (id, sn)) as [rec|] eqn:Hrec.
  - pose proof (Hwf _ _ Hrec) as Hkey.
    assert (AttendanceRecord.mk id sn (AttendanceRecordRedis.is_attended rec)
              (AttendanceRecordRedis.attendance_time rec)
              (AttendanceRecordRedis.fail_reason rec) false None None
            = record_to_db rec) as ->.
    { unfold record_to_db. by injection Hkey as -> ->. }
    rewrite <- Hkey. apply foldl_upsert_hit.
    + apply elem_of_get_attendance_records. by exists sn.
    + intros rec' (sn' & Hrec')%elem_of_get_attendance_records Hk.
      pose proof (Hwf _ _ Hrec') as Hkey'. rewrite Hkey, Hkey' in Hk.
      injection Hk as ->. by simplify_eq.
  - apply foldl_upsert_other.
    intros rec (sn' & Hrec')%elem_of_get_attendance_records.
    rewrite (Hwf _ _ Hrec'). intros [= ->]. by simplify_eq.
Qed.

Lemma same_view_refl (id : UUID) (s : Redis * Postgres) : same_view id s s.
Proof. unfold same_view. naive_solver. Qed.

Lemma same_view_trans (id : UUID) (s1 s2 s3 : Redis * Postgres) :
  same_view id s1 s2 → same_view id s2 s3 → same_view id s1 s3.
Proof.
  intros (A1 & A2 & A3 & A4 & A5 & A6) (B1 & B2 & B3 & B4 & B5 & B6).
  unfold same_view. repeat split.
  - congruence.
  - intros sn. by rewrite B2.
  - rewrite B3. apply A3.
  - rewrite <- A3. rewrite B3. done.
  - rewrite B4. apply A4.
  - rewrite <- A4. rewrite B4. done.
  - congruence.
  - intros sn. by rewrite B6.
Qed.

Lemma migrated_same_view (a : AttendanceRedis.t) (s s1 s2 : Redis * Postgres) :
  migrated a s s1 → same_view (AttendanceRedis.attendance_id a) s1 s2 → migrated a s s2.
Proof.
  intros (A1 & A2 & A3 & A4 & A5 & A6) (B1 & B2 & B3 & B4 & B5 & B6).
  unfold migrated. cbn zeta. repeat split.
  - congruence.
  - intros sn. by rewrite B2.
  - by rewrite B3.
  - by rewrite B4.
  - congruence.
  - intros sn. by rewrite B6.
Qed.

Lemma same_view_migrated (a : AttendanceRedis.t) (s s1 s2 : Redis * Postgres) :
  same_view (AttendanceRedis.attendance_id a) s s1 → migrated a s1 s2 → migrated a s s2.
Proof.
  intros (A1 & A2 & A3 & A4 & A5 & A6) (B1 & B2 & B3 & B4 & B5 & B6).
  unfold migrated. cbn zeta. repeat split; try done.
  - by rewrite <- A5.
  - intros sn. by rewrite B6, A2, A6.
Qed.

(** Processing the key [k], whatever comes of it, leaves the view from every
    other id as it was. *)
Lemma process_session_key_other_view (now : datetime) (k id : UUID) (s : Redis * Postgres) :
  wf_sessions s.1 → wf_records s.1 → k ≠ id →
  same_view id s (process_session_key raises now k s).
Proof.
  intros Hs Hr Hne.
  destruct (process_session_key_cases now k s) as [->|(a & Hk & _ & Hd & Hcases)];
    [apply same_view_refl|].
  assert (AttendanceRedis.attendance_id a ≠ id) as Hne' by by rewrite (Hs _ _ Hk).
  destruct (persist_session_other_id id a s.1 s.2 Hr Hne') as [Hrow Hrecs].
  unfold same_view. rewrite Hd.
  destruct Hcases as [->|[-> _]].
  - repeat split; done.
  - destruct (cleanup_session_other_id id a s.1 Hr Hne') as (C1 & C2 & C3 & C4).
    split; [exact C1|]. split; [exact C2|]. split; [exact C3|]. split; [exact C4|]. done.
Qed.

Lemma sweep_keys_wf (now : datetime) (keys : list UUID) (s : Redis * Postgres) :
  wf_sessions s.1 → wf_records s.1 →
  wf_sessions (sweep_keys raises now keys s).1 ∧ wf_records (sweep_keys raises now keys s).1.
Proof.
  revert s. induction keys as [|k keys IH]; intros s Hs Hr; [done|].
  simpl. destruct (process_session_key_wf now k s Hs Hr). by apply IH.
Qed.

(** A sweep leaves alone every id that has no live blob or whose session has
    not ended. *)
Lemma sweep_keys_not_due (now : datetime) (keys : list UUID) (id : UUID) (s : Redis * Postgres) :
  wf_sessions s.1 → wf_records s.1 →
  (∀ a, attendance_session s.1 !! id = Some a → now <= AttendanceRedis.end_time a) →
  same_view id s (sweep_keys raises now keys s).
Proof.
  revert s. induction keys as [|k keys IH]; intros s Hs Hr Hnot; [apply same_view_refl|].
  simpl. destruct (decide (k = id)) as [->|Hne].
  - rewrite process_session_key_skip by done. by apply IH.
  - pose proof (process_session_key_other_view now k id s Hs Hr Hne) as Hview.
    destruct (process_session_key_wf now k s Hs Hr) as [Hs' Hr'].
    eapply same_view_trans; [exact Hview|]. apply IH; try done.
    destruct Hview as [-> _]. done.
Qed.

(** The writes of the block of a session depend on the view from its id only. *)
Lemma writes_accepted_same_view (a : AttendanceRedis.t) (s s' : Redis * Postgres) :
  same_view (AttendanceRedis.attendance_id a) s s' →
  writes_accepted raises a s.1 → writes_accepted raises a s'.1.
Proof.
  intros (_ & Hrecs & _) Hok. unfold writes_accepted.
  by rewrite (filter_records_same _ s.1 s'.1 Hrecs).
Qed.

(** A sweep whose scan meets the key of an ended session migrates it, when
    the database takes the writes of its block. *)
Lemma sweep_keys_due (now : datetime) (keys : list UUID) (a : AttendanceRedis.t)
  (s : Redis * Postgres) :
  wf_sessions s.1 → wf_records s.1 →
  attendance_session s.1 !! AttendanceRedis.attendance_id a = Some a →
  AttendanceRedis.end_time a < now →
  writes_accepted raises a s.1 →
  AttendanceRedis.attendance_id a ∈ keys →
  migrated a s (sweep_keys raises now keys s).
Proof.
  revert s. induction keys as [|k keys IH]; intros s Hs Hr Hlive Hend Hok Hin.
  { by apply elem_of_nil in Hin. }
  simpl. destruct (process_session_key_wf now k s Hs Hr) as [Hs' Hr'].
  destruct (decide (k = AttendanceRedis.attendance_id a)) as [->|Hne].
  - destruct s as [r d]. simpl in *.
    rewrite (process_session_key_hit now _ r d a) in * by done.
    eapply migrated_same_view; [by apply migrate_hit|].
    apply sweep_keys_not_due; try done.
    simpl. rewrite cleanup_session_sessions, lookup_delete_eq. done.
  - pose proof (process_session_key_other_view now k _ s Hs Hr Hne) as Hview.
    eapply same_view_migrated; [exact Hview|]. apply IH; try done.
    + destruct Hview as [-> _]. done.
    + by apply (writes_accepted_same_view a s).
    + apply elem_of_cons in Hin as [?|?]; [by subst|done].
Qed.

(** A sweep whose scan meets the key of an ended session once, and whose
    block for it raises, leaves the live view of the session as it was and
    removes no durable row. *)
Lemma process_session_key_raised (now : datetime) (k : UUID) (s : Redis * Postgres)
  (a : AttendanceRedis.t) :
  attendance_session s.1 !! k = Some a →
  AttendanceRedis.end_time a < now →
  (persist_session raises a s.1 s.2).2 = None →
  process_session_key raises now k s = (s.1, (persist_session raises a s.1 s.2).1).
Proof.
  intros Hk Hend Hraised. unfold process_session_key. rewrite Hk.
  rewrite bool_decide_eq_false_2 by lia.
  by destruct (persist_session raises a s.1 s.2) as [d' [recs|]].
Qed.

Lemma sweep_keys_nothing_due (now : datetime) (keys : list UUID) (s : Redis * Postgres) :
  (∀ k a, attendance_session s.1 !! k = Some a → now <= AttendanceRedis.end_time a) →
  sweep_keys raises now keys s = s.
Proof.
  intros Hnot. induction keys as [|k keys IH]; [done|].
  simpl. rewrite process_session_key_skip; [done|]. apply Hnot.
Qed.

(** A sweep never adds a member to a teacher index set. *)
Lemma process_session_key_teacher_index_shrinks (now : datetime) (k : UUID)
  (s : Redis * Postgres) (key : string) (id : UUID) :
  id ∈ smembers key (attendance_index_teacher (process_session_key raises now k s).1) →
  id ∈ smembers key (attendance_index_teacher s.1).
Proof.
  destruct (process_session_key_cases now k s) as [->|(a & _ & _ & _ & [->|[-> _]])];
    try done.
  rewrite cleanup_session_index_teacher, elem_of_smembers_srem. by intros [? _].
Qed.

Lemma sweep_keys_teacher_index_shrinks (now : datetime) (keys : list UUID)
  (s : Redis * Postgres) (key : string) (id : UUID) :
  id ∈ smembers key (attendance_index_teacher (sweep_keys raises now keys s).1) →
  id ∈ smembers key (attendance_index_teacher s.1).
Proof.
  revert s. induction keys as [|k keys IH]; intros s; [done|].
  simpl. intros Hin. apply IH in Hin.
  by apply process_session_key_teacher_index_shrinks in Hin.
Qed.

(** A whole pass, seen from one id. *)
Lemma unified_persistence_task_due (now : datetime) (r : Redis) (d : Postgres)
  (id : UUID) (a : AttendanceRedis.t) :
  wf_sessions r → wf_records r →
  attendance_session r !! id = Some a →
  AttendanceRedis.end_time a < now →
  writes_accepted raises a r →
  AttendanceRedis.attendance_id a = id
  ∧ migrated a (r, d) (unified_persistence_task raises now r d).
Proof.
  intros Hs Hr Hlive Hend Hok. pose proof (Hs _ _ Hlive) as Hid. split; [done|].
  apply sweep_keys_due; try done.
  - simpl. by rewrite Hid.
  - rewrite Hid. apply elem_of_scan_attendance_sessions. by exists a.
Qed.

Lemma unified_persistence_task_not_due (now : datetime) (r : Redis) (d : Postgres) (id : UUID) :
  wf_sessions r → wf_records r →
  (∀ a, attendance_session r !! id = Some a → now <= AttendanceRedis.end_time a) →
  same_view id (r, d) (unified_persistence_task raises now r d).
Proof. intros Hs Hr Hnot. by apply sweep_keys_not_due. Qed.

Lemma unified_persistence_task_wf (now : datetime) (r : Redis) (d : Postgres) :
  wf_sessions r → wf_records r →
  wf_sessions (unified_persistence_task raises now r d).1
  ∧ wf_records (unified_persistence_task raises now r d).1.
Proof. intros Hs Hr. by apply sweep_keys_wf. Qed.

(** After a pass in which the database took every write, no live session has
    an end time before the pass. *)
Lemma unified_persistence_task_leaves_none_due (now : datetime) (r : Redis) (d : Postgres) :
  wf_sessions r → wf_records r →
  (∀ id a, attendance_session r !! id = Some a → writes_accepted raises a r) →
  ∀ k a, attendance_session (unified_persistence_task raises now r d).1 !! k = Some a →
         now <= AttendanceRedis.end_time a.
Proof.
  intros Hs Hr Hok k a Hafter.
  destruct (attendance_session r !! k) as [a0|] eqn:Hk.
  - destruct (decide (AttendanceRedis.end_time a0 < now)) as [Hend|Hend].
    + destruct (unified_persistence_task_due now r d k a0) as [Hid [Hgone _]]; try done.
      { by eapply Hok. }
      rewrite Hid in Hgone. cbn in Hgone. congruence.
    + destruct (unified_persistence_task_not_due now r d k) as [Hsame _]; try done.
      * intros a' Ha'. simplify_eq. lia.
      * rewrite Hsame in Hafter. simpl in Hafter. simplify_eq. lia.
  - destruct (unified_persistence_task_not_due now r d k) as [Hsame _]; try done.
    + intros a' Ha'. simplify_eq.
    + rewrite Hsame in Hafter. simpl in Hafter. simplify_eq.
Qed.

End SweepProperties.

(** The block of a session whose row the database refuses gets as far as
    the users at most: no session row and no record is written. *)
Lemma persist_session_row_refused (raises : DbWrite → Postgres → bool)
  (a : AttendanceRedis.t) (r : Redis) (d : Postgres) :
  (∀ d', raises (AddAttendances [attendance_to_db a]) d' = true) →
  (persist_session raises a r d).2 = None
  ∧ Attendances (persist_session raises a r d).1 = Attendances d
  ∧ AttendanceRecords (persist_session raises a r d).1 = AttendanceRecords d.
Proof.
  intros Hrow. unfold persist_session, session_writes.
  destruct (get_attendance_records (AttendanceRedis.attendance_id a) r) as [|x xs];
    cbn [run_writes app];
    repeat (match goal with |- context [raises ?w ?d] =>
              first [rewrite (Hrow d) | destruct (raises w d)] end; cbn [run_writes]);
    done.
Qed.

Lemma sweep_keys_row_refused (raises : DbWrite → Postgres → bool) (now : datetime)
  (keys : list UUID) (id : UUID) (a : AttendanceRedis.t) (s : Redis * Postgres) :
  wf_sessions s.1 → wf_records s.1 →
  attendance_session s.1 !! id = Some a →
  (∀ d', raises (AddAttendances [attendance_to_db a]) d' = true) →
  same_view id s (sweep_keys raises now keys s).
Proof.
  revert s. induction keys as [|k keys IH]; intros s Hs Hr Hlive Hrow; [apply same_view_refl|].
  simpl. destruct (process_session_key_wf raises now k s Hs Hr) as [Hs' Hr'].
  assert (same_view id s (process_session_key raises now k s)) as Hview.
  { destruct (decide (k = id)) as [->|Hne]; [|by apply process_session_key_other_view].
    destruct (decide (AttendanceRedis.end_time a < now)) as [Hend|Hend].
    - destruct (persist_session_row_refused raises a s.1 s.2 Hrow) as (Hnone & Hrows & Hrecs).
      rewrite (process_session_key_raised raises now id s a) by done.
      unfold same_view. cbn [fst snd]. rewrite Hrows, Hrecs. repeat split; done.
    - rewrite process_session_key_skip; [apply same_view_refl|].
      intros a' Ha'. simplify_eq. lia. }
  eapply same_view_trans; [exact Hview|]. apply IH; try done.
  destruct Hview as [-> _]. done.
Qed.

(** C2, as the code has it. On a store whose blobs sit under their own
    keys, one pass of the sweep migrates every live session whose [end_time]
    is before the pass and whose durable writes the database takes: the
    durable store holds the session row (teacher, lesson, address, times,
    security option; not deleted) and, for every record that was live, a
    durable record with its verdict, time and failure reason, and the live
    blob, the id's entry in the name index and in the teacher index, and
    every live record key of the session are gone. A session whose
    [end_time] has not passed is left as it was, in both stores, and so is
    a session whose row the database refuses: the exception is caught, the
    cleanup is skipped and the live copy stays whole. A later pass, at any
    instant, changes nothing for a migrated id, and when the database took
    every write a second pass at the same instant changes nothing at all. *)
Theorem sweep_migrates_expired_sessions (raises : DbWrite → Postgres → bool)
  (now : datetime) (r : Redis) (d : Postgres) :
  wf_sessions r → wf_records r →
  (∀ id a, attendance_session r !! id = Some a →
           AttendanceRedis.end_time a < now →
           writes_accepted raises a r →
           AttendanceRedis.attendance_id a = id
           ∧ migrated a (r, d) (unified_persistence_task raises now r d))
  ∧ (∀ id a, attendance_session r !! id = Some a →
             now <= AttendanceRedis.end_time a →
             same_view id (r, d) (unified_persistence_task raises now r d))
  ∧ (∀ id a, attendance_session r !! id = Some a →
             (∀ d', raises (AddAttendances [attendance_to_db a]) d' = true) →
             same_view id (r, d) (unified_persistence_task raises now r d))
  ∧ (∀ id a now', attendance_session r !! id = Some a →
                  AttendanceRedis.end_time a < now →
                  writes_accepted raises a r →
                  same_view id (unified_persistence_task raises now r d)
                    (unified_persistence_task raises now'
                       (unified_persistence_task raises now r d).1
                       (unified_persistence_task raises now r d).2))
  ∧ ((∀ id a, attendance_session r !! id = Some a → writes_accepted raises a r) →
     unified_persistence_task raises now (unified_persistence_task raises now r d).1
                                         (unified_persistence_task raises now r d).2
     = unified_persistence_task raises now r d).
Proof.
  intros Hs Hr.
  assert (∀ id a, attendance_session r !! id = Some a →
                  AttendanceRedis.end_time a < now →
                  writes_accepted raises a r →
                  AttendanceRedis.attendance_id a = id
                  ∧ migrated a (r, d) (unified_persistence_task raises now r d)) as Hdue.
  { intros id a Hlive Hend Hok. by apply unified_persistence_task_due. }
  destruct (unified_persistence_task_wf raises now r d Hs Hr) as [Hs' Hr'].
  split; [exact Hdue|]. split; [|split; [|split]].
  - intros id a Hlive Hend. apply unified_persistence_task_not_due; try done.
    intros a' Ha'. by simplify_eq.
  - intros id a Hlive Hrow. by apply (sweep_keys_row_refused raises now _ id a (r, d)).
  - intros id a now' Hlive Hend Hok.
    destruct (Hdue id a Hlive Hend Hok) as [Hid (Hgone & _)].
    unfold unified_persistence_task at 2.
    replace (unified_persistence_task raises now r d) with
      ((unified_persistence_task raises now r d).1, (unified_persistence_task raises now r d).2)
      at 1 by (by destruct (unified_persistence_task raises now r d)).
    apply sweep_keys_not_due; try done.
    simpl. rewrite <- Hid, Hgone. done.
  - intros Hok. unfold unified_persistence_task at 1.
    rewrite sweep_keys_nothing_due; [by destruct (unified_persistence_task raises now r d)|].
    by apply unified_persistence_task_leaves_none_due.
Qed.

Lemma sample_two_sessions_wf : wf_sessions sample_two_sessions ∧ wf_records sample_two_sessions.
Proof.
  unfold sample_two_sessions. split.
  - apply add_attendance_record_wf_sessions.
    do 2 apply save_attendance_session_wf_sessions. apply wf_sessions_empty.
  - apply add_attendance_record_wf_records.
    do 2 apply save_attendance_session_wf_records. apply wf_records_empty.
Qed.

Lemma sample_session_writes_accepted :
  writes_accepted raises_on_nul sample_session sample_two_sessions.
Proof.
  intros w d Hw. vm_compute in Hw.
  repeat (apply elem_of_cons in Hw as [->|Hw]; [reflexivity|]).
  by apply elem_of_nil in Hw.
Qed.

Lemma sweep_migrates_expired_sessions_witness :
  let s' := unified_persistence_task raises_on_nul 6000 sample_two_sessions postgres_empty in
  attendance_session s'.1 !! 7%N = None
  ∧ attendance_records s'.1 !! (7%N, "S-201") = None
  ∧ (7%N ∉ smembers "Algebra:Dr. Integration" (attendance_index_name s'.1))
  ∧ (7%N ∉ smembers "T-101" (attendance_index_teacher s'.1))
  ∧ Attendances s'.2 !! 7%N
    = Some (Attendance.mk 7%N "T-101" "Algebra" (Some "192.168.1.117") 1000 5000 2
              false None None)
  ∧ AttendanceRecords s'.2 !! (7%N, "S-201")
    = Some (AttendanceRecord.mk 7%N "S-201" true (Some 1200) None false None None)
  ∧ attendance_session s'.1 !! 13%N = Some sample_session_late
  ∧ Attendances s'.2 !! 13%N = None.
Proof.
  destruct (sweep_migrates_expired_sessions raises_on_nul 6000 sample_two_sessions
              postgres_empty (proj1 sample_two_sessions_wf) (proj2 sample_two_sessions_wf))
    as (Hdue & Hnot & _).
  destruct (Hdue 7%N sample_session) as (_ & H1 & H2 & H3 & H4 & H5 & H6);
    [reflexivity | reflexivity | apply sample_session_writes_accepted |].
  destruct (Hnot 13%N sample_session_late) as (G1 & _ & _ & _ & G5 & _);
    [reflexivity | done |].
  exact (conj H1 (conj (H2 "S-201") (conj H3 (conj H4 (conj H5 (conj (H6 "S-201")
           (conj G1 G5))))))).
Defined.

(** C2 as stated fails for an ended session with a durable write that
    raises: with a lesson name that holds a NUL character the insert of the
    session row is refused, the sweep catches the exception and skips the
    cleanup, and after the pass the session is still live, with its record
    and its index entries, and has no durable row. *)
Lemma sweep_skips_refused_session :
  let s' := unified_persistence_task raises_on_nul 6000 sample_live_nul postgres_empty in
  attendance_session sample_live_nul !! 19%N = Some sample_session_nul
  ∧ AttendanceRedis.end_time sample_session_nul < 6000
  ∧ attendance_session s'.1 !! 19%N = Some sample_session_nul
  ∧ is_Some (attendance_records s'.1 !! (19%N, "S-201"))
  ∧ 19%N ∈ smembers "T-101" (attendance_index_teacher s'.1)
  ∧ Attendances s'.2 !! 19%N = None
  ∧ AttendanceRecords s'.2 !! (19%N, "S-201") = None.
Proof.
  cbn zeta. split; [reflexivity|]. split; [reflexivity|]. split; [reflexivity|].
  split; [by eexists|]. split; [vm_compute; set_solver|]. split; reflexivity.
Qed.

(** ** The two stores over the life of a session *)

Lemma client_write_sessions r r' :
  client_write r r' → attendance_session r' = attendance_session r.
Proof.
  destruct 1 as [| | |now user ttl r r' Hsave|]; try done.
  unfold save_user_session in Hsave. case_bool_decide; by simplify_eq.
Qed.

Lemma client_write_wf_records r r' :
  client_write r r' → wf_records r → wf_records r'.
Proof.
  destruct 1 as [| | |now user ttl r r' Hsave|]; try done.
  - apply add_attendance_record_wf_records.
  - unfold save_user_session in Hsave. case_bool_decide; by simplify_eq.
Qed.

Lemma delete_attendance_keeps_rows now attendance_id reason d id :
  is_Some (Attendances (delete_attendance now attendance_id reason d) !! id)
  ↔ is_Some (Attendances d !! id).
Proof. simpl. apply lookup_alter_is_Some. Qed.

(** [finish_attendance] is its read followed at once by its write. *)
Lemma finish_attendance_halves now teacher attendance_id r :
  finish_attendance now teacher attendance_id r
  = match finish_attendance_read teacher attendance_id r with
    | Ok session_to_finish => (Ok (), finish_attendance_write now session_to_finish r)
    | Err e => (Err e, r)
    end.
Proof.
  unfold finish_attendance, finish_attendance_read, finish_attendance_write.
  destruct (get_attendance_session attendance_id r) as [a|]; [|done].
  by destruct (bool_decide _).
Qed.

Lemma finish_attendance_read_Ok teacher attendance_id r a :
  finish_attendance_read teacher attendance_id r = Ok a →
  attendance_session r !! attendance_id = Some a
  ∧ AttendanceRedis.teacher_school_number a = User.user_school_number teacher.
Proof.
  unfold finish_attendance_read, get_attendance_session.
  destruct (attendance_session r !! attendance_id) as [x|]; [|done].
  case_bool_decide as Hown; [done|]. intros [= <-]. split; [done|].
  by destruct (decide (AttendanceRedis.teacher_school_number x
                       = User.user_school_number teacher)).
Qed.

Section LifecycleProperties.

Variable set_pop : gset UUID → UUID.
Variable raises : DbWrite → Postgres → bool.

Lemma start_attendance_Ok now uuid4 teacher lesson_name ip_address start_time end_time
  security_option r a r' :
  start_attendance set_pop now uuid4 teacher lesson_name ip_address start_time end_time
                   security_option r = (Ok a, r') →
  AttendanceRedis.attendance_id a = uuid4 ∧ r' = save_attendance_session a r.
Proof.
  unfold start_attendance.
  destruct (get_attendance_session_of_teacher _ _ _ _); [done|].
  intros [= <- <-]. done.
Qed.

Lemma finish_attendance_Ok now teacher attendance_id r r' :
  finish_attendance now teacher attendance_id r = (Ok (), r') →
  ∃ a, attendance_session r !! attendance_id = Some a
       ∧ r' = save_attendance_session (AttendanceRedis.set_end_time now a) r.
Proof.
  unfold finish_attendance, get_attendance_session.
  destruct (attendance_session r !! attendance_id) as [a|]; [|done].
  destruct (bool_decide _); [done|]. intros [= <-]. by exists a.
Qed.

Lemma persist_session_keeps_rows a r d id :
  is_Some (Attendances d !! id) →
  is_Some (Attendances (persist_session raises a r d).1 !! id).
Proof.
  intros Hrow.
  apply (persist_session_preserves raises (λ d', is_Some (Attendances d' !! id))); [|done].
  intros w d' Hw [x Hx]. exists x. by eapply session_write_keeps_rows.
Qed.

Lemma persist_session_adds_row a r d d' recs :
  persist_session raises a r d = (d', Some recs) →
  is_Some (Attendances d' !! AttendanceRedis.attendance_id a).
Proof.
  intros [-> ->]%persist_session_through.
  rewrite all_written_Attendances, lookup_insert_do_nothing.
  rewrite decide_True by done. by eexists.
Qed.

(** A row the persistence block adds, however far it gets, is the row of
    its own session. *)
Lemma persist_session_new_row a r d id :
  is_Some (Attendances (persist_session raises a r d).1 !! id) →
  id = AttendanceRedis.attendance_id a ∨ is_Some (Attendances d !! id).
Proof.
  apply (persist_session_preserves raises
           (λ d', is_Some (Attendances d' !! id) →
                  id = AttendanceRedis.attendance_id a ∨ is_Some (Attendances d !! id)));
    [|by right].
  intros w d' [[users ->]|[->| ->]]%elem_of_session_writes IH; cbn; try done.
  rewrite lookup_insert_do_nothing. case_decide as Hk; [by left|done].
Qed.

(** One iteration of the sweep on an ended session whose block goes through
    is the persistence step followed by the cleanup step; one whose block
    raises is the raise step. *)
Lemma sweep_iteration_two_steps (now : datetime) (session_key : UUID) (a : AttendanceRedis.t)
  (s : System) (d' : Postgres) (recs : list AttendanceRecordRedis.t) :
  attendance_session (redis s) !! session_key = Some a →
  AttendanceRedis.end_time a < now →
  persist_session raises a (redis s) (postgres s) = (d', Some recs) →
  ∃ s1 s2,
    step set_pop raises s s1 ∧ step set_pop raises s1 s2
    ∧ (redis s2, postgres s2) = process_session_key raises now session_key (redis s, postgres s)
    ∧ in_flight s2 = in_flight s ∧ finishing s2 = finishing s ∧ created s2 = created s.
Proof.
  intros Hkey Hend Hp.
  exists (mkSystem (redis s) d' ((a, recs) :: in_flight s) (finishing s) (created s)).
  eexists. split; [|split; [|split; [|split; [|split]]]].
  - apply (step_sweep_persist set_pop raises now session_key a s); [done| |done].
    apply bool_decide_eq_false_2. lia.
  - by apply (step_sweep_cleanup set_pop raises a recs [] (in_flight s)).
  - unfold process_session_key. cbn [fst snd redis postgres]. rewrite Hkey.
    rewrite bool_decide_eq_false_2 by lia. by rewrite Hp.
  - done.
  - done.
  - done.
Qed.

Lemma sweep_iteration_raise_step (now : datetime) (session_key : UUID) (a : AttendanceRedis.t)
  (s : System) (d' : Postgres) :
  attendance_session (redis s) !! session_key = Some a →
  AttendanceRedis.end_time a < now →
  persist_session raises a (redis s) (postgres s) = (d', None) →
  ∃ s1,
    step set_pop raises s s1
    ∧ (redis s1, postgres s1) = process_session_key raises now session_key (redis s, postgres s)
    ∧ in_flight s1 = in_flight s ∧ finishing s1 = finishing s ∧ created s1 = created s.
Proof.
  intros Hkey Hend Hp. eexists. split; [|split; [|split; [|split]]].
  - apply (step_sweep_raise set_pop raises now session_key a s d'); [done| |done].
    apply bool_decide_eq_false_2. lia.
  - unfold process_session_key. cbn [fst snd redis postgres]. rewrite Hkey.
    rewrite bool_decide_eq_false_2 by lia. by rewrite Hp.
  - done.
  - done.
  - done.
Qed.

(** A finish that nothing interrupts is the read step followed by the write
    step. *)
Lemma finish_two_steps (now : datetime) (teacher : User.t) (attendance_id : UUID) (s : System)
  (r' : Redis) :
  finish_attendance now teacher attendance_id (redis s) = (Ok (), r') →
  ∃ s1,
    step set_pop raises s s1
    ∧ step set_pop raises s1
        (mkSystem r' (postgres s) (in_flight s) (finishing s) (created s)).
Proof.
  rewrite finish_attendance_halves.
  destruct (finish_attendance_read teacher attendance_id (redis s)) as [a|e] eqn:Hread;
    [|done].
  intros [= <-].
  exists (mkSystem (redis s) (postgres s) (in_flight s) (a :: finishing s) (created s)).
  split; [by apply (step_finish_read set_pop raises teacher attendance_id)|].
  by apply (step_finish_write set_pop raises now a [] (finishing s)
              (mkSystem (redis s) (postgres s) (in_flight s) (a :: finishing s) (created s))).
Qed.

Lemma never_lost_step s s' : step set_pop raises s s' → never_lost s → never_lost s'.
Proof.
  intros Hstep (Hwf & Hdom & Hcreated & Hflight & Hfinishing).
  unfold never_lost, in_live, in_durable in *.
  destruct Hstep as [now uuid4 teacher lesson ip st et sec s a r' Hfresh Hstart
                    |teacher aid s a Hread
                    |now a before after s Hin
                    |now key a s d' recs Hkey Hend Hpersist
                    |now key a s d' Hkey Hend Hpersist
                    |a recs before after s Hin
                    |now aid reason s
                    |r' s Hwrite
                    |s]; cbn [redis postgres in_flight finishing created].
  - apply start_attendance_Ok in Hstart as [Hid ->]. simpl. rewrite Hid.
    split; [by apply save_attendance_session_wf_sessions|].
    split; [|split; [|split]].
    + intros id [Hl|Hd].
      * apply lookup_insert_is_Some in Hl as [->|[_ Hl]]; [set_solver|].
        apply elem_of_union. right. apply Hdom. by left.
      * apply elem_of_union. right. apply Hdom. by right.
    + intros id [->%elem_of_singleton|Hid']%elem_of_union.
      * left. by rewrite lookup_insert_eq.
      * destruct (Hcreated id Hid') as [Hl|Hd]; [left|by right].
        by apply lookup_insert_is_Some'; right.
    + done.
    + intros x Hx. apply elem_of_union. right. by apply Hfinishing.
  - apply finish_attendance_read_Ok in Hread as [Ha _].
    split; [done|]. split; [done|]. split; [done|]. split; [done|].
    intros x [->|Hx]%elem_of_cons; [|by apply Hfinishing].
    apply Hdom. left. rewrite (Hwf _ _ Ha). by exists a.
  - assert (AttendanceRedis.attendance_id a ∈ created s) as Hid.
    { apply Hfinishing. rewrite Hin. set_solver. }
    unfold finish_attendance_write. simpl.
    split; [by apply save_attendance_session_wf_sessions|].
    split; [|split; [|split]].
    + intros id [Hl|Hd]; [|apply Hdom; by right].
      apply lookup_insert_is_Some in Hl as [<-|[_ Hl]]; [done|]. apply Hdom. by left.
    + intros id Hid'. destruct (Hcreated id Hid') as [Hl|Hd]; [left|by right].
      by apply lookup_insert_is_Some'; right.
    + done.
    + intros x Hx. apply Hfinishing. rewrite Hin. set_solver.
  - pose proof (persist_session_adds_row _ _ _ _ _ Hpersist) as Hrow.
    assert (d' = (persist_session raises a (redis s) (postgres s)).1) as Hd'
      by (by rewrite Hpersist).
    pose proof (Hwf _ _ Hkey) as Hid.
    split; [done|]. split; [|split; [|split]].
    + intros id [Hl|Hd]; [apply Hdom; by left|].
      rewrite Hd' in Hd. apply persist_session_new_row in Hd as [->|Hd].
      * apply Hdom. left. rewrite Hid. by exists a.
      * apply Hdom. by right.
    + intros id Hin. destruct (Hcreated id Hin) as [Hl|Hd]; [by left|right].
      rewrite Hd'. by apply persist_session_keeps_rows.
    + intros a' recs' [[= -> ->]|Hin]%elem_of_cons; [done|].
      rewrite Hd'. apply persist_session_keeps_rows. by eapply Hflight.
    + done.
  - assert (d' = (persist_session raises a (redis s) (postgres s)).1) as Hd'
      by (by rewrite Hpersist).
    pose proof (Hwf _ _ Hkey) as Hid.
    split; [done|]. split; [|split; [|split]].
    + intros id [Hl|Hd]; [apply Hdom; by left|].
      rewrite Hd' in Hd. apply persist_session_new_row in Hd as [->|Hd].
      * apply Hdom. left. rewrite Hid. by exists a.
      * apply Hdom. by right.
    + intros id Hin. destruct (Hcreated id Hin) as [Hl|Hd]; [by left|right].
      rewrite Hd'. by apply persist_session_keeps_rows.
    + intros a' recs' Hin. rewrite Hd'. apply persist_session_keeps_rows. by eapply Hflight.
    + done.
  - split; [by apply cleanup_session_wf_sessions|].
    split; [|split; [|split]].
    + intros id [Hl|Hd]; [|apply Hdom; by right].
      rewrite cleanup_session_sessions in Hl.
      apply lookup_delete_is_Some in Hl as [_ Hl]. apply Hdom. by left.
    + intros id Hid.
      destruct (decide (id = AttendanceRedis.attendance_id a)) as [->|Hne].
      * right. apply (Hflight a recs). rewrite Hin. set_solver.
      * destruct (Hcreated id Hid) as [Hl|Hd]; [left|by right].
        rewrite cleanup_session_sessions. by rewrite lookup_delete_ne.
    + intros a' recs' Hin'. apply (Hflight a' recs'). rewrite Hin. set_solver.
    + done.
  - split; [done|]. split; [|split; [|split]].
    + intros id. rewrite delete_attendance_keeps_rows. apply Hdom.
    + intros id Hid. rewrite delete_attendance_keeps_rows. by apply Hcreated.
    + intros a' recs' Hin'. rewrite delete_attendance_keeps_rows. by eapply Hflight.
    + done.
  - rewrite (client_write_sessions _ _ Hwrite).
    split; [|done]. intros k a. rewrite (client_write_sessions _ _ Hwrite). apply Hwf.
  - done.
Qed.

Lemma writes_accepted_never (a : AttendanceRedis.t) (r : Redis) :
  writes_accepted never_raises a r.
Proof. by intros w d _. Qed.

Lemma settled_op_step s s' : op_step set_pop never_raises s s' → settled s → settled s'.
Proof.
  intros Hstep (Hs & Hr & Hdom & Hone).
  unfold settled, exactly_one_store, in_live, in_durable in *.
  destruct Hstep as [now uuid4 teacher lesson ip st et sec s a r' Hfresh Hstart
                    |now teacher aid s r' Hfinish
                    |now s r' d' Hsweep
                    |now aid reason s
                    |r' s Hwrite
                    |s]; cbn [redis postgres in_flight finishing created].
  - apply start_attendance_Ok in Hstart as [Hid ->]. simpl. rewrite Hid.
    split; [by apply save_attendance_session_wf_sessions|]. split; [done|].
    split.
    + intros id [Hl|Hd].
      * apply lookup_insert_is_Some in Hl as [->|[_ Hl]]; [set_solver|].
        apply elem_of_union. right. apply Hdom. by left.
      * apply elem_of_union. right. apply Hdom. by right.
    + intros id [->%elem_of_singleton|Hid']%elem_of_union.
      * left. rewrite lookup_insert_eq. split; [done|].
        intros Hd. apply Hfresh, Hdom. by right.
      * destruct (decide (uuid4 = id)) as [->|Hne]; [done|].
        rewrite lookup_insert_ne by done. by apply Hone.
  - apply finish_attendance_Ok in Hfinish as (a & Ha & ->). simpl.
    pose proof (Hs _ _ Ha) as Hid.
    split; [by apply save_attendance_session_wf_sessions|]. split; [done|].
    assert (∀ id, is_Some (<[aid := AttendanceRedis.set_end_time now a]>
                             (attendance_session (redis s)) !! id)
                  ↔ is_Some (attendance_session (redis s) !! id)) as Hsame.
    { intros id. rewrite lookup_insert_is_Some. split.
      - intros [<-|[_ ?]]; [by exists a|done].
      - intros ?. destruct (decide (aid = id)); [by left|by right]. }
    rewrite Hid. split.
    + intros id. rewrite Hsame. apply Hdom.
    + intros id Hin. rewrite Hsame. by apply Hone.
  - pose proof (λ id a Hlive Hend,
                  unified_persistence_task_due never_raises now (redis s) (postgres s) id a
                    Hs Hr Hlive Hend (writes_accepted_never a (redis s))) as Hdue.
    pose proof (λ id, unified_persistence_task_not_due never_raises now (redis s) (postgres s)
                        id Hs Hr) as Hnot.
    destruct (unified_persistence_task_wf never_raises now (redis s) (postgres s) Hs Hr)
      as [Hs' Hr'].
    rewrite Hsweep in Hdue, Hnot, Hs', Hr'. simpl in Hs', Hr'.
    assert (∀ id, (is_Some (attendance_session r' !! id) ∨ is_Some (Attendances d' !! id)
                   ↔ is_Some (attendance_session (redis s) !! id)
                     ∨ is_Some (Attendances (postgres s) !! id))
                  ∧ (is_Some (attendance_session (redis s) !! id)
                     ∨ is_Some (Attendances (postgres s) !! id) →
                     ¬ (is_Some (attendance_session (redis s) !! id)
                        ∧ is_Some (Attendances (postgres s) !! id)) →
                     ¬ (is_Some (attendance_session r' !! id) ∧ is_Some (Attendances d' !! id))))
      as Hview.
    { intros id. destruct (attendance_session (redis s) !! id) as [a|] eqn:Hlive.
      - destruct (decide (AttendanceRedis.end_time a < now)) as [Hend|Hend].
        + destruct (Hdue id a Hlive Hend) as (Hid & Hgone & _ & _ & _ & Hrow & _).
          simpl in Hgone, Hrow. rewrite Hid in Hgone, Hrow. rewrite Hgone, Hrow. split.
          * split; [left; by eexists|right; by eexists].
          * intros _ _ [[? ?] _]. done.
        + destruct (Hnot id) as (Hl & _ & _ & _ & Hd & _).
          { intros a' Ha'. simplify_eq. lia. }
          simpl in Hl, Hd. rewrite Hl, Hd, Hlive. done.
      - destruct (Hnot id) as (Hl & _ & _ & _ & Hd & _).
        { intros a' Ha'. simplify_eq. }
        simpl in Hl, Hd. rewrite Hl, Hd, Hlive. done. }
    split; [done|]. split; [done|]. split.
    + intros id Hin. apply Hdom. by apply Hview.
    + intros id Hin. pose proof (Hone id Hin) as Hbefore.
      destruct (Hview id) as [Hiff Hexcl].
      assert (is_Some (attendance_session r' !! id) ∨ is_Some (Attendances d' !! id)) as Hafter.
      { apply Hiff. destruct Hbefore as [[? _]|[_ ?]]; [by left|by right]. }
      assert (¬ (is_Some (attendance_session r' !! id) ∧ is_Some (Attendances d' !! id)))
        as Hnotboth.
      { apply Hexcl; [destruct Hbefore as [[? _]|[_ ?]]; [by left|by right]|].
        destruct Hbefore as [[_ ?]|[? _]]; naive_solver. }
      destruct Hafter as [Hl|Hd]; [left|right]; naive_solver.
  - split; [done|]. split; [done|]. split.
    + intros id. rewrite delete_attendance_keeps_rows. apply Hdom.
    + intros id Hin. rewrite delete_attendance_keeps_rows. by apply Hone.
  - rewrite (client_write_sessions _ _ Hwrite).
    split; [|split; [by eapply client_write_wf_records|done]].
    intros k a. rewrite (client_write_sessions _ _ Hwrite). apply Hs.
  - done.
Qed.

End LifecycleProperties.

(** C1, as the code has it. Across any interleaving of session creation,
    the two halves of a finish, the blocks of a sweep iteration (whether
    its durable writes go through or raise), soft deletes and other
    traffic, the id of a created session is never missing from both stores.
    When every operation runs to its end before the next one starts (a
    whole pass of the sweep being one operation) and the database takes
    every write of the sweep, it is in exactly one of the two stores. *)
Theorem created_session_in_a_store (set_pop : gset UUID → UUID)
  (raises : DbWrite → Postgres → bool) :
  (∀ s, rtc (step set_pop raises) system_init s →
        ∀ id, id ∈ created s → in_live id s ∨ in_durable id s)
  ∧ (∀ s, rtc (op_step set_pop never_raises) system_init s →
          ∀ id, id ∈ created s → exactly_one_store id s).
Proof.
  split.
  - intros s Hreach.
    cut (never_lost s).
    { intros (_ & _ & Hcreated & _) id Hid. by apply Hcreated. }
    refine (rtc_ind_r (R := step set_pop raises) never_lost system_init _ _ s Hreach).
    + split; [apply wf_sessions_empty|]. split; [|split; [|split]].
      * intros id [[? H]|[? H]]; simpl in H; by rewrite lookup_empty in H.
      * intros id Hid. simpl in Hid. set_solver.
      * by intros ?? ?%elem_of_nil.
      * by intros ? ?%elem_of_nil.
    + intros s1 s2 _ Hstep IH. by eapply never_lost_step.
  - intros s Hreach.
    cut (settled s); [by intros (_ & _ & _ & ?)|].
    refine (rtc_ind_r (R := op_step set_pop never_raises) settled system_init _ _ s Hreach).
    + split; [apply wf_sessions_empty|]. split; [apply wf_records_empty|].
      split.
      * intros id [[? H]|[? H]]; simpl in H; by rewrite lookup_empty in H.
      * intros id Hid. simpl in Hid. set_solver.
    + intros s1 s2 _ Hstep IH. by eapply settled_op_step.
Qed.

Lemma created_session_in_a_store_witness :
  let s := mkSystem sample_live postgres_empty [] [] ({[7%N]} ∪ ∅) in
  (in_live 7%N s ∨ in_durable 7%N s) ∧ exactly_one_store 7%N s.
Proof.
  destruct (created_session_in_a_store pop_first raises_on_nul) as [Hfine Hcoarse].
  cbn zeta. split.
  - apply (Hfine (mkSystem sample_live postgres_empty [] [] ({[7%N]} ∪ ∅))); [|set_solver].
    apply rtc_once.
    apply (step_start pop_first raises_on_nul 0 7%N sample_teacher "Algebra"
             (Some "192.168.1.117") 1000 5000 2 system_init sample_session sample_live);
      [set_solver|reflexivity].
  - apply Hcoarse; [|set_solver].
    apply rtc_once.
    apply (op_start pop_first never_raises 0 7%N sample_teacher "Algebra"
             (Some "192.168.1.117") 1000 5000 2 system_init sample_session sample_live);
      [set_solver|reflexivity].
Defined.

(** C1 as stated fails in the middle of a sweep iteration: once the durable
    writes for an ended session are done and before its Redis cleanup, the id
    has both a live blob and a durable row. *)
Lemma both_stores_during_sweep :
  ¬ (∀ s, rtc (step pop_first never_raises) system_init s →
          ∀ id, id ∈ created s → exactly_one_store id s).
Proof.
  intros Hclaim.
  set (s1 := mkSystem sample_live postgres_empty [] [] ({[7%N]} ∪ ∅)).
  set (s2 := mkSystem sample_live
               (persist_session never_raises sample_session sample_live postgres_empty).1
               [(sample_session, [])] [] ({[7%N]} ∪ ∅)).
  assert (rtc (step pop_first never_raises) system_init s2) as Hreach.
  { eapply rtc_l.
    - apply (step_start pop_first never_raises 0 7%N sample_teacher "Algebra"
               (Some "192.168.1.117") 1000 5000 2 system_init sample_session sample_live);
        [set_solver|reflexivity].
    - apply rtc_once.
      apply (step_sweep_persist pop_first never_raises 6000 7%N sample_session s1);
        reflexivity. }
  destruct (Hclaim s2 Hreach 7%N) as [[_ Hnot]|[Hnot _]].
  - set_solver.
  - apply Hnot. unfold in_durable. simpl. by eexists.
  - apply Hnot. unfold in_live. simpl. by eexists.
Qed.

(** The id stays in both stores after the iteration when a finish that has
    read the blob before the cleanup writes it back afterwards: no sweep
    iteration and no finish is under way any more, and the session has a
    live blob and a durable row. *)
Lemma both_stores_after_racing_finish :
  ∃ s, rtc (step pop_first never_raises) system_init s
       ∧ in_flight s = [] ∧ finishing s = []
       ∧ 7%N ∈ created s
       ∧ attendance_session (redis s) !! 7%N
         = Some (AttendanceRedis.set_end_time 6001 sample_session)
       ∧ is_Some (Attendances (postgres s) !! 7%N).
Proof.
  set (d1 := (persist_session never_raises sample_session sample_live postgres_empty).1).
  set (s1 := mkSystem sample_live postgres_empty [] [] ({[7%N]} ∪ ∅)).
  set (s2 := mkSystem sample_live postgres_empty [] [sample_session] ({[7%N]} ∪ ∅)).
  set (s3 := mkSystem sample_live d1 [(sample_session, [])] [sample_session] ({[7%N]} ∪ ∅)).
  set (s4 := mkSystem (cleanup_session sample_session [] sample_live) d1 [] [sample_session]
               ({[7%N]} ∪ ∅)).
  exists (mkSystem (finish_attendance_write 6001 sample_session
                      (cleanup_session sample_session [] sample_live))
                   d1 [] [] ({[7%N]} ∪ ∅)).
  split; [|split; [done|split; [done|split; [set_solver|split; [reflexivity|by eexists]]]]].
  eapply rtc_l.
  { apply (step_start pop_first never_raises 0 7%N sample_teacher "Algebra"
             (Some "192.168.1.117") 1000 5000 2 system_init sample_session sample_live);
      [set_solver|reflexivity]. }
  eapply rtc_l.
  { apply (step_finish_read pop_first never_raises sample_teacher 7%N s1 sample_session).
    reflexivity. }
  eapply rtc_l.
  { apply (step_sweep_persist pop_first never_raises 6000 7%N sample_session s2 d1 []);
      reflexivity. }
  eapply rtc_l.
  { apply (step_sweep_cleanup pop_first never_raises sample_session [] [] [] s3). reflexivity. }
  apply rtc_once.
  apply (step_finish_write pop_first never_raises 6001 sample_session [] [] s4). reflexivity.
Qed.

(** The id also stays in both stores, each operation running to its end,
    when the database refuses a write that comes after the session row: a
    live record whose failure reason holds a NUL character makes the write
    of the records raise, the pass moves on to the next key, and the
    session keeps its live blob next to its durable row. *)
Lemma both_stores_after_refused_write :
  ∃ s, rtc (op_step pop_first raises_on_nul) system_init s
       ∧ in_flight s = [] ∧ finishing s = []
       ∧ 7%N ∈ created s
       ∧ attendance_session (redis s) !! 7%N = Some sample_session
       ∧ is_Some (Attendances (postgres s) !! 7%N).
Proof.
  set (rec := AttendanceRecordRedis.mk 7%N "S-201" "Student Alpha" false None
                (Some (String (ascii_of_N 0) "absent")) false None None).
  set (s1 := mkSystem sample_live postgres_empty [] [] ({[7%N]} ∪ ∅)).
  set (s2 := mkSystem (add_attendance_record rec sample_live) postgres_empty [] []
               ({[7%N]} ∪ ∅)).
  set (swept := unified_persistence_task raises_on_nul 6000
                  (add_attendance_record rec sample_live) postgres_empty).
  exists (mkSystem swept.1 swept.2 [] [] ({[7%N]} ∪ ∅)).
  split; [|split; [done|split; [done|split; [set_solver|split]]]].
  - eapply rtc_l.
    { apply (op_start pop_first raises_on_nul 0 7%N sample_teacher "Algebra"
               (Some "192.168.1.117") 1000 5000 2 system_init sample_session sample_live);
        [set_solver|reflexivity]. }
    eapply rtc_l.
    { apply (op_traffic pop_first raises_on_nul (add_attendance_record rec sample_live) s1).
      apply write_record. }
    apply rtc_once.
    apply (op_sweep pop_first raises_on_nul 6000 s2 swept.1 swept.2).
    apply surjective_pairing.
  - vm_compute. reflexivity.
  - vm_compute. by eexists.
Qed.

(** ** One live session per teacher *)

Section TeacherLookup.

Variable set_pop : gset UUID → UUID.
Hypothesis set_pop_elem : ∀ s : gset UUID, s ≠ ∅ → set_pop s ∈ s.

(** The lookup answers "none" when every indexed session of the teacher has
    ended or is gone. *)
Lemma teacher_lookup_none (now : datetime) (teacher_school_number : string) (r : Redis) :
  (∀ id a, id ∈ smembers teacher_school_number (attendance_index_teacher r) →
           attendance_session r !! id = Some a → AttendanceRedis.end_time a <= now) →
  get_attendance_session_of_teacher set_pop now teacher_school_number r = None.
Proof.
  intros Hall. unfold get_attendance_session_of_teacher, get_attendance_session.
  case_decide as Hempty; [done|].
  destruct (attendance_session r !! set_pop _) as [a|] eqn:Ha; [|done].
  rewrite bool_decide_eq_false_2; [done|].
  specialize (Hall _ a (set_pop_elem _ Hempty) Ha). lia.
Qed.

(** The lookup finds the session when it is the only one indexed. *)
Lemma teacher_lookup_single (now : datetime) (teacher_school_number : string) (r : Redis)
  (id : UUID) (a : AttendanceRedis.t) :
  smembers teacher_school_number (attendance_index_teacher r) = {[id]} →
  attendance_session r !! id = Some a →
  now < AttendanceRedis.end_time a →
  get_attendance_session_of_teacher set_pop now teacher_school_number r = Some a.
Proof.
  intros Hidx Ha Hend. unfold get_attendance_session_of_teacher, get_attendance_session.
  rewrite Hidx. rewrite decide_False by set_solver.
  assert (set_pop {[id]} = id) as ->.
  { assert (set_pop {[id]} ∈ ({[id]} : gset UUID)) by (apply set_pop_elem; set_solver).
    set_solver. }
  rewrite Ha. by rewrite bool_decide_eq_true_2 by lia.
Qed.

(** With a single indexed session that is live and not ended, a start is
    rejected and writes nothing. *)
Lemma start_attendance_rejected_single (now : datetime) (uuid4 : UUID) (teacher : User.t)
  (lesson_name : string) (ip_address : option string) (start_time end_time : datetime)
  (security_option : Z) (r : Redis) (id : UUID) (a : AttendanceRedis.t) :
  smembers (User.user_school_number teacher) (attendance_index_teacher r) = {[id]} →
  attendance_session r !! id = Some a →
  now < AttendanceRedis.end_time a →
  ∃ msg, start_attendance set_pop now uuid4 teacher lesson_name ip_address start_time end_time
           security_option r = (Err (ServiceError msg), r).
Proof.
  intros Hidx Ha Hend. unfold start_attendance.
  rewrite (teacher_lookup_single now _ r id a) by done. by eexists.
Qed.

(** After the teacher's only indexed session has been finished, a later
    start succeeds. *)
Lemma start_attendance_after_finish (now_finish now : datetime) (uuid4 : UUID) (teacher : User.t)
  (lesson_name : string) (ip_address : option string) (start_time end_time : datetime)
  (security_option : Z) (r : Redis) (id : UUID) (a : AttendanceRedis.t) :
  smembers (User.user_school_number teacher) (attendance_index_teacher r) = {[id]} →
  attendance_session r !! id = Some a →
  AttendanceRedis.attendance_id a = id →
  AttendanceRedis.teacher_school_number a = User.user_school_number teacher →
  now_finish <= now →
  ∃ r1 new r2,
    finish_attendance now_finish teacher id r = (Ok (), r1)
    ∧ start_attendance set_pop now uuid4 teacher lesson_name ip_address start_time end_time
        security_option r1 = (Ok new, r2).
Proof.
  intros Hidx Ha Hid Hown Hle.
  exists (save_attendance_session (AttendanceRedis.set_end_time now_finish a) r).
  unfold start_attendance.
  rewrite teacher_lookup_none; [eexists _, _; split; [by apply finish_attendance_owner|done]|].
  intros id' a'' Hin Hget.
  assert (id' = id) as ->.
  { simpl in Hin. apply elem_of_smembers_sadd in Hin as [[_ ->]|Hin]; [done|].
    rewrite Hidx in Hin. by apply elem_of_singleton in Hin. }
  simpl in Hget. rewrite Hid, lookup_insert_eq in Hget.
  injection Hget as <-. simpl. lia.
Qed.

(** After the teacher's only indexed session has been swept, a start
    succeeds. *)
Lemma start_attendance_after_sweep (raises : DbWrite → Postgres → bool)
  (now_sweep now : datetime) (uuid4 : UUID) (teacher : User.t)
  (lesson_name : string) (ip_address : option string) (start_time end_time : datetime)
  (security_option : Z) (r : Redis) (d : Postgres) (id : UUID) (a : AttendanceRedis.t) :
  wf_sessions r → wf_records r →
  smembers (User.user_school_number teacher) (attendance_index_teacher r) = {[id]} →
  attendance_session r !! id = Some a →
  AttendanceRedis.end_time a < now_sweep →
  writes_accepted raises a r →
  ∃ new r2,
    start_attendance set_pop now uuid4 teacher lesson_name ip_address start_time end_time
      security_option (unified_persistence_task raises now_sweep r d).1 = (Ok new, r2).
Proof.
  intros Hs Hr Hidx Ha Hend Hok. unfold start_attendance.
  rewrite teacher_lookup_none; [by eexists _, _|].
  intros id' a' Hin Hget.
  apply sweep_keys_teacher_index_shrinks in Hin. simpl in Hin.
  rewrite Hidx in Hin. apply elem_of_singleton in Hin as ->.
  destruct (unified_persistence_task_due raises now_sweep r d id a Hs Hr Ha Hend Hok)
    as [Hid [Hgone _]].
  rewrite Hid in Hgone. congruence.
Qed.

End TeacherLookup.

(** [pop_first] is a pop: it returns a member of a non-empty set. *)
Lemma pop_first_elem (s : gset UUID) : s ≠ ∅ → pop_first s ∈ s.
Proof.
  intros Hne. unfold pop_first.
  destruct (elements s) as [|x xs] eqn:Hel.
  - exfalso. apply Hne. by apply leibniz_equiv, elements_empty_inv.
  - simpl. assert (x ∈ elements s) as Hx by (rewrite Hel; by left).
    by apply elem_of_elements in Hx.
Qed.

(** C8, on the run [after_second_start]: the teacher's index then holds the
    finished, not yet swept session 2 next to the live session 1, the pop
    returns 2, the lookup answers "none", and a further start at 200 is
    accepted although session 1 is live and ends at 9000: the teacher ends up
    with two live, unexpired sessions. *)
Theorem second_live_session_started :
  start_attendance pop_first 0 2%N sample_teacher "Algebra" (Some "192.168.1.117")
      0 5000 2 redis_empty
    = (Ok first_session, after_first_start)
  ∧ finish_attendance 100 sample_teacher 2%N after_first_start = (Ok (), after_finish)
  ∧ start_attendance pop_first 150 1%N sample_teacher "Topology" (Some "192.168.1.117")
      150 9000 2 after_finish
    = (Ok second_session, after_second_start)
  ∧ smembers "T-101" (attendance_index_teacher after_second_start) = {[1%N; 2%N]}
  ∧ attendance_session after_second_start !! 1%N = Some second_session
  ∧ 200 < AttendanceRedis.end_time second_session
  ∧ pop_first {[1%N; 2%N]} = 2%N
  ∧ get_attendance_session_of_teacher pop_first 200 "T-101" after_second_start = None
  ∧ start_attendance pop_first 200 3%N sample_teacher "Analysis" (Some "192.168.1.117")
      200 9500 2 after_second_start
    = (Ok third_session, save_attendance_session third_session after_second_start)
  ∧ attendance_session (save_attendance_session third_session after_second_start) !! 1%N
    = Some second_session
  ∧ attendance_session (save_attendance_session third_session after_second_start) !! 3%N
    = Some third_session.
Proof. repeat split; reflexivity. Qed.

(** * Further properties of the clients, the services and the routes *)

(** ** The Redis client *)

(** X1. A user session saved with a positive time-to-live is read back
    until the clock reaches the expiry and is gone from then on; saving
    replaces whatever the user had before and touches no other user; logging
    out removes it at once. With a time-to-live that is not positive the
    save is refused and nothing is stored. *)
Theorem user_session_round_trip (now now' : datetime) (ttl : Z) (user : UserSessionRedis.t)
  (r : Redis) :
  (0 < ttl →
   ∃ r1,
     save_user_session now user ttl r = Some r1
     ∧ get_user_session now' (User.user_school_number (UserSessionRedis.user_data user)) r1
       = (if bool_decide (now' < now + seconds ttl) then Some user else None)
     ∧ (∀ other, other ≠ User.user_school_number (UserSessionRedis.user_data user) →
          get_user_session now' other r1 = get_user_session now' other r)
     ∧ get_user_session now' (User.user_school_number (UserSessionRedis.user_data user))
         (delete_user_session (User.user_school_number (UserSessionRedis.user_data user)) r1)
       = None)
  ∧ (ttl <= 0 → save_user_session now user ttl r = None).
Proof.
  unfold save_user_session. split.
  - intros Httl. rewrite bool_decide_eq_true_2 by done. eexists. split; [done|].
    unfold get_user_session, get_ex, delete_user_session. simpl.
    split; [by rewrite lookup_insert_eq|]. split.
    + intros other Hne. by rewrite lookup_insert_ne.
    + by rewrite lookup_delete_eq.
  - intros Httl. by rewrite bool_decide_eq_false_2 by lia.
Qed.

Lemma user_session_round_trip_witness :
  ∃ r1,
    save_user_session 0 sample_user_session 3600 sample_live = Some r1
    ∧ get_user_session 10 "S-201" r1 = Some sample_user_session.
Proof.
  destruct (user_session_round_trip 0 10 3600 sample_user_session sample_live) as [H _].
  destruct H as (r1 & Hsave & Hget & _); [done|].
  exists r1. split; [exact Hsave|exact Hget].
Defined.

Lemma elem_of_get_attendance_sessions_by_name (lesson_name teacher_name : string) (r : Redis)
  (a : AttendanceRedis.t) :
  a ∈ get_attendance_sessions_by_name lesson_name teacher_name r ↔
  ∃ id, id ∈ smembers (lesson_name +:+ ":" +:+ teacher_name) (attendance_index_name r)
        ∧ attendance_session r !! id = Some a.
Proof.
  unfold get_attendance_sessions_by_name, get_attendance_session.
  rewrite list_elem_of_omap. split.
  - intros (id & Hin & Hget). exists id. by rewrite <- elem_of_elements.
  - intros (id & Hin & Hget). exists id. by rewrite elem_of_elements.
Qed.

(** X2. The student's search by lesson and teacher name returns exactly the
    sessions that the name index lists, that still have a live blob, and
    whose end time is after the clock: an index entry whose blob is gone is
    skipped, and a session that has ended is never returned, swept or not. *)
Theorem find_active_sessions_exactly (now : datetime) (lesson_name teacher_name : string)
  (r : Redis) (a : AttendanceRedis.t) :
  a ∈ StudentService.find_active_sessions_by_name now lesson_name teacher_name r ↔
  (∃ id, id ∈ smembers (lesson_name +:+ ":" +:+ teacher_name) (attendance_index_name r)
         ∧ attendance_session r !! id = Some a)
  ∧ now < AttendanceRedis.end_time a.
Proof.
  unfold StudentService.find_active_sessions_by_name.
  rewrite list_elem_of_filter, elem_of_get_attendance_sessions_by_name.
  split; intros [? ?]; split; try done; lia.
Qed.

(** X3. A session that has just been saved is read back by its id, is found
    under its own lesson and teacher name, and is offered to students
    exactly while its end time is ahead. *)
Theorem saved_session_is_found (now : datetime) (a : AttendanceRedis.t) (r : Redis) :
  get_attendance_session (AttendanceRedis.attendance_id a) (save_attendance_session a r) = Some a
  ∧ a ∈ get_attendance_sessions_by_name (AttendanceRedis.lesson_name a)
          (AttendanceRedis.teacher_full_name a) (save_attendance_session a r)
  ∧ (now < AttendanceRedis.end_time a →
     a ∈ StudentService.find_active_sessions_by_name now (AttendanceRedis.lesson_name a)
           (AttendanceRedis.teacher_full_name a) (save_attendance_session a r))
  ∧ (AttendanceRedis.end_time a <= now →
     a ∉ StudentService.find_active_sessions_by_name now (AttendanceRedis.lesson_name a)
           (AttendanceRedis.teacher_full_name a) (save_attendance_session a r)).
Proof.
  assert (a ∈ get_attendance_sessions_by_name (AttendanceRedis.lesson_name a)
                (AttendanceRedis.teacher_full_name a) (save_attendance_session a r)) as Hfound.
  { apply elem_of_get_attendance_sessions_by_name.
    exists (AttendanceRedis.attendance_id a). split.
    - simpl. apply elem_of_smembers_sadd. by left.
    - simpl. apply lookup_insert_eq. }
  split; [apply lookup_insert_eq|]. split; [done|].
  unfold StudentService.find_active_sessions_by_name. split.
  - intros Hend. apply list_elem_of_filter. split; [lia|done].
  - intros Hend [Hlt _]%list_elem_of_filter. lia.
Qed.

Lemma srem_sadd_fresh (k : string) (x : UUID) (m : gmap string (gset UUID)) :
  no_empty_sets m → x ∉ smembers k m → srem k x (sadd k x m) = m.
Proof.
  intros Hne Hx. unfold srem, sadd, smembers in *. rewrite lookup_insert_eq.
  destruct (m !! k) as [s|] eqn:Hk; simpl in *.
  - assert (({[x]} ∪ s) ∖ {[x]} = s) as -> by set_solver.
    rewrite decide_False by by eapply Hne.
    rewrite insert_insert_eq. by apply insert_id.
  - assert (({[x]} ∪ ∅) ∖ {[x]} = (∅ : gset UUID)) as -> by set_solver.
    rewrite decide_True by done. by apply delete_insert_id.
Qed.

(** X4. Deleting a session undoes saving it: on a store that did not hold
    the id, neither as a blob nor in the two index sets it goes to, save
    followed by delete gives the store back unchanged. *)
Theorem delete_undoes_save (a : AttendanceRedis.t) (r : Redis) :
  attendance_session r !! AttendanceRedis.attendance_id a = None →
  AttendanceRedis.attendance_id a ∉ smembers (index_key_by_name a) (attendance_index_name r) →
  AttendanceRedis.attendance_id a ∉ smembers (index_key_by_teacher a) (attendance_index_teacher r) →
  no_empty_sets (attendance_index_name r) →
  no_empty_sets (attendance_index_teacher r) →
  delete_attendance_session a (save_attendance_session a r) = r.
Proof.
  intros Hblob Hname Hteacher Hne1 Hne2.
  unfold delete_attendance_session, save_attendance_session. simpl.
  rewrite delete_insert_id by done.
  rewrite !srem_sadd_fresh by done. by destruct r.
Qed.

Lemma delete_undoes_save_witness :
  delete_attendance_session sample_session_late
    (save_attendance_session sample_session_late sample_live) = sample_live.
Proof.
  apply (delete_undoes_save sample_session_late sample_live).
  - reflexivity.
  - vm_compute. set_solver.
  - vm_compute. set_solver.
  - intros k s. unfold sample_live. simpl. unfold sadd.
    intros [[_ <-]|[_ H]]%lookup_insert_Some; [set_solver|by rewrite lookup_empty in H].
  - intros k s. unfold sample_live. simpl. unfold sadd.
    intros [[_ <-]|[_ H]]%lookup_insert_Some; [set_solver|by rewrite lookup_empty in H].
Defined.

(** X5. A correlation entry written at dispatch resolves to the student and
    the session it was written for during the 300 seconds that follow, and
    not after; it does not resolve at all when the school number holds a
    colon, because the stored text then splits into more than two parts; once
    deleted it is gone. *)
Theorem verification_mapping_round_trip (now now' : datetime) (verification_id : UUID)
  (user_school_number : string) (attendance_id : UUID) (r : Redis) :
  get_user_and_attendance_for_verification now' verification_id
    (map_verification_to_user now verification_id user_school_number attendance_id r)
  = (if bool_decide (now' < now + seconds 300) && negb (has_colon user_school_number)
     then Some (user_school_number, attendance_id) else None)
  ∧ get_user_and_attendance_for_verification now' verification_id
      (delete_verification_mapping verification_id
         (map_verification_to_user now verification_id user_school_number attendance_id r))
    = None.
Proof.
  split; [|apply get_verification_deleted].
  unfold get_user_and_attendance_for_verification, get_ex, map_verification_to_user. simpl.
  rewrite lookup_insert_eq.
  destruct (bool_decide (now' < now + seconds 300)); [|done].
  by destruct (has_colon user_school_number).
Qed.

(** X6. After a record is stored, listing the live records of a session
    gives the new record (when it belongs to that session) together with the
    records listed before, except the one it replaces; records of other
    sessions never appear. *)
Theorem live_records_after_add (attendance_id : UUID) (rec x : AttendanceRecordRedis.t)
  (r : Redis) :
  wf_records r →
  x ∈ get_attendance_records attendance_id (add_attendance_record rec r) ↔
  (x = rec ∧ AttendanceRecordRedis.attendance_id rec = attendance_id)
  ∨ (x ∈ get_attendance_records attendance_id r
     ∧ (AttendanceRecordRedis.attendance_id x, AttendanceRecordRedis.student_number x)
       ≠ (AttendanceRecordRedis.attendance_id rec, AttendanceRecordRedis.student_number rec)).
Proof.
  intros Hwf. rewrite !elem_of_get_attendance_records. simpl. split.
  - intros (sn & Hx). apply lookup_insert_Some in Hx as [[[= Hid Hsn] <-]|[Hne Hx]].
    + left. done.
    + right. split; [by exists sn|]. by rewrite (Hwf _ _ Hx).
  - intros [[-> <-]|[(sn & Hx) Hne]].
    + exists (AttendanceRecordRedis.student_number rec). apply lookup_insert_eq.
    + exists sn. rewrite lookup_insert_ne; [done|]. by rewrite <- (Hwf _ _ Hx).
Qed.

Lemma live_records_after_add_witness :
  sample_pending_record ∈ get_attendance_records 7%N
    (add_attendance_record sample_pending_record sample_live).
Proof.
  apply (live_records_after_add 7%N sample_pending_record sample_pending_record sample_live).
  - apply save_attendance_session_wf_records, wf_records_empty.
  - left. split; reflexivity.
Defined.

(** ** The Postgres client *)

Lemma foldl_insert_do_nothing_keeps {K V : Type} `{Countable K} (key : V → K) (xs : list V)
  (tbl : gmap K V) (k : K) (v : V) :
  tbl !! k = Some v →
  foldl (λ tbl x, insert_do_nothing (key x) x tbl) tbl xs !! k = Some v.
Proof.
  revert tbl. induction xs as [|x xs IH]; intros tbl Hk; [done|].
  simpl. apply IH. rewrite lookup_insert_do_nothing.
  case_decide; [subst; by rewrite Hk|done].
Qed.

Lemma foldl_insert_do_nothing_present {K V : Type} `{Countable K} (key : V → K) (xs : list V)
  (tbl : gmap K V) (x : V) :
  x ∈ xs → is_Some (foldl (λ tbl x, insert_do_nothing (key x) x tbl) tbl xs !! key x).
Proof.
  revert tbl. induction xs as [|y ys IH]; intros tbl Hin; [by apply elem_of_nil in Hin|].
  simpl. apply elem_of_cons in Hin as [->|Hin]; [|by apply IH].
  assert (is_Some (insert_do_nothing (key y) y tbl !! key y)) as [v Hv].
  { rewrite lookup_insert_do_nothing, decide_True by done. by eexists. }
  exists v. by apply foldl_insert_do_nothing_keeps.
Qed.


Lemma foldl_insert_do_nothing_from {K V : Type} `{Countable K} (key : V → K) (xs : list V)
  (tbl : gmap K V) (k : K) (v : V) :
  foldl (λ tbl x, insert_do_nothing (key x) x tbl) tbl xs !! k = Some v →
  tbl !! k = Some v ∨ (v ∈ xs ∧ key v = k).
Proof.
  revert tbl. induction xs as [|x xs IH]; intros tbl Hk; [by left|].
  simpl in Hk. apply IH in Hk as [Hk|[Hin Hkey]].
  - rewrite lookup_insert_do_nothing in Hk. case_decide as Heq; [|by left].
    destruct (tbl !! key x) as [w|] eqn:Hw; simpl in Hk.
    + left. subst. congruence.
    + right. injection Hk as <-. split; [by left|done].
  - right. split; [by right|done].
Qed.

Lemma add_users_wf_users (users : list User.t) (d : Postgres) :
  wf_users d → wf_users (add_users users d).
Proof.
  intros Hwf k u Hk. simpl in Hk.
  apply foldl_insert_do_nothing_from in Hk as [Hk|[_ Hkey]]; [by apply Hwf|done].
Qed.



Lemma elem_of_db_get_attendance_records (attendance_id : UUID) (d : Postgres)
  (row : AttendanceRecord.t) :
  row ∈ AsyncPostgresClient.get_attendance_records attendance_id d ↔
  ∃ sn, AttendanceRecords d !! (attendance_id, sn) = Some row
        ∧ AttendanceRecord.is_deleted row = false.
Proof.
  unfold AsyncPostgresClient.get_attendance_records. rewrite list_elem_of_fmap. split.
  - intros ([[i sn] x] & -> & Hin). apply elem_of_map_to_list in Hin.
    apply map_lookup_filter_Some in Hin as [Hin [Hid Hdel]]. simpl in *. subst. by exists sn.
  - intros (sn & Hin & Hdel). exists ((attendance_id, sn), row). split; [done|].
    apply elem_of_map_to_list. by apply map_lookup_filter_Some.
Qed.















(** ** Ownership *)

(** X11. The owner check hands out a session only to the teacher recorded
    on it. It answers from the live store whenever the id has a live blob
    (a durable row is then not consulted), and from the durable store
    otherwise, where a soft-deleted row counts as not found. *)
Theorem owner_check_sound (attendance_id : UUID) (teacher : User.t) (r : Redis) (d : Postgres)
  (x : AnyAttendance) :
  TeacherService.get_and_verify_attendance_owner attendance_id teacher r d = Ok x →
  owner_of x = User.user_school_number teacher
  ∧ match x with
    | LiveAttendance a => attendance_session r !! attendance_id = Some a
    | HistoricalAttendance a =>
        attendance_session r !! attendance_id = None
        ∧ Attendances d !! attendance_id = Some a
        ∧ Attendance.is_deleted a = false
    end.
Proof.
  unfold TeacherService.get_and_verify_attendance_owner, get_attendance_session,
    get_attendance_by_id.
  destruct (attendance_session r !! attendance_id) as [a|] eqn:Hlive.
  - case_bool_decide as Hown; [|done]. intros [= <-]. done.
  - destruct (Attendances d !! attendance_id) as [att|] eqn:Hrow; [|done].
    destruct (Attendance.is_deleted att) eqn:Hdel; [done|].
    case_bool_decide as Hown; [done|]. intros [= <-]. simpl.
    split; [|done]. by destruct (decide (Attendance.teacher_school_number att
                                          = User.user_school_number teacher)).
Qed.

Lemma owner_check_sound_witness :
  owner_of (LiveAttendance sample_session) = User.user_school_number sample_teacher
  ∧ attendance_session sample_live !! 7%N = Some sample_session.
Proof.
  apply (owner_check_sound 7%N sample_teacher sample_live postgres_empty
           (LiveAttendance sample_session)).
  reflexivity.
Defined.

(** ** Enrichment of records with their students *)

Lemma omap_inr_of_inr {A B} (l : list B) :
  omap (λ rec : A + B, match rec with inr x => Some x | inl _ => None end) (inr <$> l) = l.
Proof. induction l as [|x l IH]; [done|]. simpl. by f_equal. Qed.

Lemma omap_inl_of_inr {A B} (l : list B) :
  omap (λ rec : A + B, match rec with inl x => Some x | inr _ => None end) (inr <$> l) = [].
Proof. induction l as [|x l IH]; [done|]. done. Qed.

Lemma omap_inl_of_inl {A B} (l : list A) :
  omap (λ rec : A + B, match rec with inl x => Some x | inr _ => None end) (inl <$> l) = l.
Proof. induction l as [|x l IH]; [done|]. simpl. by f_equal. Qed.

Lemma omap_inr_of_inl {A B} (l : list A) :
  omap (λ rec : A + B, match rec with inr x => Some x | inl _ => None end) (inl <$> l) = [].
Proof. induction l as [|x l IH]; [done|]. done. Qed.

Lemma enrich_live_records (l : list AttendanceRecordRedis.t) (d : Postgres) :
  TeacherService._enrich_records_with_user_data (inr <$> l) d = enrich_redis_record <$> l.
Proof.
  destruct l as [|x l]; [done|].
  unfold TeacherService._enrich_records_with_user_data.
  change (inr <$> x :: l) with
    (@inr AttendanceRecord.t AttendanceRecordRedis.t x :: (inr <$> l)).
  cbv beta iota zeta.
  change (@inr AttendanceRecord.t AttendanceRecordRedis.t x :: (inr <$> l))
    with (@inr AttendanceRecord.t AttendanceRecordRedis.t <$> x :: l).
  rewrite omap_inr_of_inr, omap_inl_of_inr. simpl. by rewrite app_nil_r.
Qed.

(** X12. The live listing of a session never consults the durable store:
    each live record is answered with the student snapshot it carries, one
    entry per record of the session's hash, whatever the [Users] table
    holds. *)
Theorem live_listing_uses_snapshots (attendance_id : UUID) (r : Redis) (d : Postgres) :
  TeacherService.get_live_attendance_records attendance_id r d
  = enrich_redis_record <$> get_attendance_records attendance_id r.
Proof. apply enrich_live_records. Qed.

Lemma user_map_of_acc_Some (users : list User.t) (m : gmap string User.t) (k : string)
  (u : User.t) :
  foldl (λ m user, <[User.user_school_number user := user]> m) m users !! k = Some u →
  m !! k = Some u ∨ (u ∈ users ∧ User.user_school_number u = k).
Proof.
  revert m. induction users as [|x xs IH]; intros m H; simpl in H; [by left|].
  apply IH in H as [H|[H1 H2]].
  - destruct (decide (User.user_school_number x = k)) as [<-|Hne].
    + rewrite lookup_insert_eq in H. injection H as <-. right. split; [left|done].
    + rewrite lookup_insert_ne in H by done. by left.
  - right. split; [by right|done].
Qed.

Lemma user_map_of_acc_hit (users : list User.t) (m : gmap string User.t) (k : string)
  (u : User.t) :
  (∀ u', u' ∈ users → User.user_school_number u' = k → u' = u) →
  m !! k = Some u ∨ (u ∈ users ∧ User.user_school_number u = k) →
  foldl (λ m user, <[User.user_school_number user := user]> m) m users !! k = Some u.
Proof.
  revert m. induction users as [|x xs IH]; intros m Huniq Hin.
  { destruct Hin as [Hin|[Hin _]]; [done|]. by apply elem_of_nil in Hin. }
  simpl. apply IH.
  - intros u' Hu'. apply Huniq. by right.
  - destruct Hin as [Hin|[Hin Hk]].
    + left. destruct (decide (User.user_school_number x = k)) as [Heq|Hne].
      * assert (x = u) as -> by (apply Huniq; [left|done]).
        subst k. by rewrite lookup_insert_eq.
      * by rewrite lookup_insert_ne.
    + apply elem_of_cons in Hin as [->|Hin].
      * left. subst k. by rewrite lookup_insert_eq.
      * by right.
Qed.

Lemma elem_of_get_users (user_school_numbers : list string) (d : Postgres) (u : User.t) :
  u ∈ AsyncPostgresClient.get_users user_school_numbers d ↔
  ∃ k, k ∈ user_school_numbers ∧ Users d !! k = Some u.
Proof.
  unfold AsyncPostgresClient.get_users. destruct user_school_numbers as [|n ns].
  { split; [by intros ?%elem_of_nil|]. intros (k & Hk & _). by apply elem_of_nil in Hk. }
  rewrite list_elem_of_fmap. split.
  - intros ([k x] & -> & Hin). apply elem_of_map_to_list in Hin.
    apply map_lookup_filter_Some in Hin as [Hin Hk]. simpl in *. by exists k.
  - intros (k & Hk & Hin). exists (k, u). split; [done|].
    apply elem_of_map_to_list. by apply map_lookup_filter_Some.
Qed.

Lemma elem_of_enrich_db_records (l : list AttendanceRecord.t) (d : Postgres)
  (rec : AttendanceRecord.t) (u : User.t) :
  wf_users d →
  (rec, u) ∈ TeacherService._enrich_records_with_user_data (inl <$> l) d ↔
  rec ∈ l ∧ Users d !! AttendanceRecord.student_number rec = Some u.
Proof.
  intros Hwf. destruct l as [|x l].
  { split; [by intros ?%elem_of_nil|]. intros [H _]. by apply elem_of_nil in H. }
  unfold TeacherService._enrich_records_with_user_data.
  change (inl <$> x :: l) with
    (@inl AttendanceRecord.t AttendanceRecordRedis.t x :: (inl <$> l)).
  cbv beta iota zeta.
  change (@inl AttendanceRecord.t AttendanceRecordRedis.t x :: (inl <$> l))
    with (@inl AttendanceRecord.t AttendanceRecordRedis.t <$> x :: l).
  rewrite omap_inl_of_inl, omap_inr_of_inl. generalize (x :: l) as rows. clear x l.
  intros rows. rewrite fmap_nil, app_nil_l, list_elem_of_omap.
  set (names := list_to_set (AttendanceRecord.student_number <$> rows) : gset string).
  assert (∀ row, row ∈ rows → AttendanceRecord.student_number row ∈ elements names) as Hnames.
  { intros row Hrow. apply elem_of_elements, elem_of_list_to_set, list_elem_of_fmap.
    by exists row. }
  split.
  - intros (row & Hrow & Hsome).
    destruct (decide (names = ∅)) as [He|Hne].
    { apply Hnames in Hrow. rewrite He, elements_empty in Hrow. by apply elem_of_nil in Hrow. }
    unfold TeacherService.user_map_of in Hsome.
    destruct (foldl _ _ _ !! AttendanceRecord.student_number row) as [su|] eqn:Hsu; [|done].
    simpl in Hsome. injection Hsome as -> ->. split; [done|].
    apply user_map_of_acc_Some in Hsu as [Hsu|[Hsu Hk]]; [done|].
    apply elem_of_get_users in Hsu as (k & _ & Hu).
    rewrite <- Hk. by rewrite (Hwf _ _ Hu).
  - intros [Hrow Hu]. exists rec. split; [done|].
    destruct (decide (names = ∅)) as [He|Hne].
    { apply Hnames in Hrow. rewrite He, elements_empty in Hrow. by apply elem_of_nil in Hrow. }
    unfold TeacherService.user_map_of.
    rewrite (user_map_of_acc_hit _ _ _ u); [done| |].
    + intros u' Hu' Hk. apply elem_of_get_users in Hu' as (k & _ & Hu'').
      pose proof (Hwf _ _ Hu'') as Hkk. congruence.
    + right. split; [|by apply Hwf].
      apply elem_of_get_users. exists (AttendanceRecord.student_number rec).
      split; [by apply Hnames|done].
Qed.

(** X13. The historical listing of an attendance joins its records with
    [Users]: where every user row sits under its own school number, a
    record is answered together with a user exactly when the record is
    listed for the attendance (not soft-deleted) and that user is the
    [Users] row of the record's student. A record whose student has no
    [Users] row is left out, silently. *)
Theorem historical_listing_joins_users (attendance_id : UUID) (d : Postgres)
  (rec : AttendanceRecord.t) (u : User.t) :
  wf_users d →
  (rec, u) ∈ TeacherService.get_historical_attendance_records attendance_id d ↔
  rec ∈ AsyncPostgresClient.get_attendance_records attendance_id d
  ∧ Users d !! AttendanceRecord.student_number rec = Some u.
Proof. intros Hwf. by apply elem_of_enrich_db_records. Qed.

(** ** What the sweep writes to [Users] *)

Lemma all_written_Users (a : AttendanceRedis.t) (recs : list AttendanceRecordRedis.t)
  (d : Postgres) :
  Users (all_written (session_writes a recs) d)
  = Users (add_users
             (map (λ rec, User.mk (AttendanceRecordRedis.student_number rec)
                            (AttendanceRecordRedis.student_full_name rec) "Student") recs)
             (add_users [User.mk (AttendanceRedis.teacher_school_number a)
                           (AttendanceRedis.teacher_full_name a) "Teacher"] d)).
Proof. destruct recs; reflexivity. Qed.

Lemma session_write_Users_keeps (a : AttendanceRedis.t) (recs : list AttendanceRecordRedis.t)
  (w : DbWrite) (d : Postgres) (k : string) (u : User.t) :
  w ∈ session_writes a recs →
  Users d !! k = Some u → Users (run_write w d) !! k = Some u.
Proof.
  intros [[users ->]|[->| ->]]%elem_of_session_writes Hk; cbn; try done.
  by apply (foldl_insert_do_nothing_keeps User.user_school_number).
Qed.

Lemma session_write_wf_users (a : AttendanceRedis.t) (recs : list AttendanceRecordRedis.t)
  (w : DbWrite) (d : Postgres) :
  w ∈ session_writes a recs → wf_users d → wf_users (run_write w d).
Proof.
  intros [[users ->]|[->| ->]]%elem_of_session_writes Hwf; cbn [run_write]; try done.
  by apply add_users_wf_users.
Qed.

Lemma all_written_registers_teacher (a : AttendanceRedis.t)
  (recs : list AttendanceRecordRedis.t) (d : Postgres) :
  is_Some (Users (all_written (session_writes a recs) d)
             !! AttendanceRedis.teacher_school_number a).
Proof.
  rewrite all_written_Users. unfold add_users. cbn [Users].
  destruct (foldl_insert_do_nothing_present User.user_school_number
              [User.mk (AttendanceRedis.teacher_school_number a)
                 (AttendanceRedis.teacher_full_name a) "Teacher"] (Users d)
              (User.mk (AttendanceRedis.teacher_school_number a)
                 (AttendanceRedis.teacher_full_name a) "Teacher")) as [u Hu]; [left|].
  exists u. apply (foldl_insert_do_nothing_keeps User.user_school_number). exact Hu.
Qed.

Lemma all_written_registers_student (a : AttendanceRedis.t)
  (recs : list AttendanceRecordRedis.t) (d : Postgres) (rec : AttendanceRecordRedis.t) :
  rec ∈ recs →
  is_Some (Users (all_written (session_writes a recs) d)
             !! AttendanceRecordRedis.student_number rec).
Proof.
  intros Hrec. rewrite all_written_Users. unfold add_users. cbn [Users].
  apply (foldl_insert_do_nothing_present User.user_school_number _ _
           (User.mk (AttendanceRecordRedis.student_number rec)
              (AttendanceRecordRedis.student_full_name rec) "Student")).
  apply list_elem_of_fmap. by exists rec.
Qed.

Section SweepUsers.

Variable raises : DbWrite → Postgres → bool.

Lemma process_session_key_Users_keeps (now : datetime) (key : UUID) (s : Redis * Postgres)
  (k : string) (u : User.t) :
  Users s.2 !! k = Some u → Users (process_session_key raises now key s).2 !! k = Some u.
Proof.
  intros Hk.
  destruct (process_session_key_cases raises now key s) as [->|(a & _ & _ & -> & _)]; [done|].
  apply (persist_session_preserves raises (λ d', Users d' !! k = Some u)); [|done].
  intros w d' Hw. exact (session_write_Users_keeps a _ w d' k u Hw).
Qed.

Lemma process_session_key_wf_users (now : datetime) (key : UUID) (s : Redis * Postgres) :
  wf_users s.2 → wf_users (process_session_key raises now key s).2.
Proof.
  intros Hwf.
  destruct (process_session_key_cases raises now key s) as [->|(a & _ & _ & -> & _)]; [done|].
  apply (persist_session_preserves raises wf_users); [|done].
  intros w d' Hw. exact (session_write_wf_users a _ w d' Hw).
Qed.

Lemma process_session_key_Attendances_keeps (now : datetime) (key : UUID)
  (s : Redis * Postgres) (k : UUID) (x : Attendance.t) :
  Attendances s.2 !! k = Some x →
  Attendances (process_session_key raises now key s).2 !! k = Some x.
Proof.
  intros Hk.
  destruct (process_session_key_cases raises now key s) as [->|(a & _ & _ & -> & _)]; [done|].
  apply (persist_session_preserves raises (λ d', Attendances d' !! k = Some x)); [|done].
  intros w d' Hw. exact (session_write_keeps_rows a _ w d' k x Hw).
Qed.

Lemma process_session_key_frame (now : datetime) (key : UUID) (s : Redis * Postgres) :
  users (process_session_key raises now key s).1 = users s.1
  ∧ verification (process_session_key raises now key s).1 = verification s.1.
Proof.
  destruct (process_session_key_cases raises now key s)
    as [->|(a & _ & _ & _ & [->|[-> _]])]; try done.
  unfold cleanup_session.
  by destruct (map _ (get_attendance_records (AttendanceRedis.attendance_id a) s.1)).
Qed.

Lemma process_session_key_sessions_shrink (now : datetime) (key : UUID) (s : Redis * Postgres)
  (k : UUID) (a : AttendanceRedis.t) :
  attendance_session (process_session_key raises now key s).1 !! k = Some a →
  attendance_session s.1 !! k = Some a.
Proof.
  destruct (process_session_key_cases raises now key s)
    as [->|(a' & _ & _ & _ & [->|[-> _]])]; try done.
  rewrite cleanup_session_sessions. by intros [_ ?]%lookup_delete_Some.
Qed.

Lemma sweep_keys_Users_keeps (now : datetime) (keys : list UUID) (s : Redis * Postgres)
  (k : string) (u : User.t) :
  Users s.2 !! k = Some u → Users (sweep_keys raises now keys s).2 !! k = Some u.
Proof.
  revert s. induction keys as [|key keys IH]; intros s Hk; [done|].
  simpl. apply IH. by apply process_session_key_Users_keeps.
Qed.

Lemma sweep_keys_wf_users (now : datetime) (keys : list UUID) (s : Redis * Postgres) :
  wf_users s.2 → wf_users (sweep_keys raises now keys s).2.
Proof.
  revert s. induction keys as [|key keys IH]; intros s Hwf; [done|].
  simpl. apply IH. by apply process_session_key_wf_users.
Qed.

Lemma sweep_keys_Attendances_keeps (now : datetime) (keys : list UUID) (s : Redis * Postgres)
  (k : UUID) (x : Attendance.t) :
  Attendances s.2 !! k = Some x → Attendances (sweep_keys raises now keys s).2 !! k = Some x.
Proof.
  revert s. induction keys as [|key keys IH]; intros s Hk; [done|].
  simpl. apply IH. by apply process_session_key_Attendances_keeps.
Qed.

Lemma sweep_keys_frame (now : datetime) (keys : list UUID) (s : Redis * Postgres) :
  users (sweep_keys raises now keys s).1 = users s.1
  ∧ verification (sweep_keys raises now keys s).1 = verification s.1.
Proof.
  revert s. induction keys as [|key keys IH]; intros s; [done|].
  simpl. destruct (IH (process_session_key raises now key s)) as [-> ->].
  apply process_session_key_frame.
Qed.

Lemma sweep_keys_sessions_shrink (now : datetime) (keys : list UUID) (s : Redis * Postgres)
  (k : UUID) (a : AttendanceRedis.t) :
  attendance_session (sweep_keys raises now keys s).1 !! k = Some a →
  attendance_session s.1 !! k = Some a.
Proof.
  revert s. induction keys as [|key keys IH]; intros s Hk; [done|].
  simpl in Hk. apply IH in Hk. by apply process_session_key_sessions_shrink in Hk.
Qed.

Lemma sweep_keys_registers_users (now : datetime) (keys : list UUID) (a : AttendanceRedis.t)
  (s : Redis * Postgres) :
  wf_sessions s.1 → wf_records s.1 →
  attendance_session s.1 !! AttendanceRedis.attendance_id a = Some a →
  AttendanceRedis.end_time a < now →
  writes_accepted raises a s.1 →
  AttendanceRedis.attendance_id a ∈ keys →
  is_Some (Users (sweep_keys raises now keys s).2 !! AttendanceRedis.teacher_school_number a)
  ∧ ∀ sn rec, attendance_records s.1 !! (AttendanceRedis.attendance_id a, sn) = Some rec →
              is_Some (Users (sweep_keys raises now keys s).2
                         !! AttendanceRecordRedis.student_number rec).
Proof.
  revert s. induction keys as [|k keys IH]; intros s Hs Hr Hlive Hend Hok Hin.
  { by apply elem_of_nil in Hin. }
  simpl. destruct (process_session_key_wf raises now k s Hs Hr) as [Hs' Hr'].
  destruct (decide (k = AttendanceRedis.attendance_id a)) as [->|Hne].
  - destruct s as [r d]. simpl in *.
    rewrite (process_session_key_hit raises now _ r d a) in * by done. split.
    + destruct (all_written_registers_teacher a
                  (get_attendance_records (AttendanceRedis.attendance_id a) r) d) as [u Hu].
      exists u. by apply sweep_keys_Users_keeps.
    + intros sn rec Hrec.
      destruct (all_written_registers_student a
                  (get_attendance_records (AttendanceRedis.attendance_id a) r) d rec)
        as [u Hu].
      { apply elem_of_get_attendance_records. by exists sn. }
      exists u. by apply sweep_keys_Users_keeps.
  - pose proof (process_session_key_other_view raises now k _ s Hs Hr Hne) as Hview.
    pose proof (writes_accepted_same_view raises a s _ Hview Hok) as Hok'.
    destruct Hview as (Hsess & Hrecs & _).
    destruct (IH (process_session_key raises now k s)) as [Ht Hst]; try done.
    + by rewrite Hsess.
    + apply elem_of_cons in Hin as [?|?]; [by subst|done].
    + split; [done|]. intros sn rec Hrec. apply (Hst sn). by rewrite Hrecs.
Qed.

Lemma unified_persistence_task_wf_users (now : datetime) (r : Redis) (d : Postgres) :
  wf_users d → wf_users (unified_persistence_task raises now r d).2.
Proof. intros Hwf. by apply sweep_keys_wf_users. Qed.

End SweepUsers.

(** X14. The sweep registers the people of a session before its rows: once
    a pass has swept an expired session, the database having taken the
    writes of its block, its teacher and every student of its live records
    have a row in [Users], so the historical listing of the session answers
    each of those records, with the verdict, time and failure reason it had
    live, together with a user and drops none. *)
Theorem swept_session_listed_in_full (raises : DbWrite → Postgres → bool)
  (now : datetime) (r : Redis) (d : Postgres)
  (id : UUID) (a : AttendanceRedis.t) (sn : string) (rec : AttendanceRecordRedis.t) :
  wf_sessions r → wf_records r → wf_users d →
  attendance_session r !! id = Some a →
  AttendanceRedis.end_time a < now →
  writes_accepted raises a r →
  attendance_records r !! (id, sn) = Some rec →
  let d' := (unified_persistence_task raises now r d).2 in
  is_Some (Users d' !! AttendanceRedis.teacher_school_number a)
  ∧ ∃ u, Users d' !! sn = Some u
         ∧ User.user_school_number u = sn
         ∧ (AttendanceRecord.mk id sn (AttendanceRecordRedis.is_attended rec)
              (AttendanceRecordRedis.attendance_time rec)
              (AttendanceRecordRedis.fail_reason rec) false None None, u)
           ∈ TeacherService.get_historical_attendance_records id d'.
Proof.
  intros Hs Hr Hu Hlive Hend Hok Hrec. cbn zeta.
  pose proof (Hs _ _ Hlive) as Hid. subst id.
  pose proof (Hr _ _ Hrec) as Hkey. injection Hkey as _ Hsn.
  destruct (sweep_keys_registers_users raises now (scan_attendance_sessions r) a (r, d))
    as [Ht Hst]; try done.
  { by apply elem_of_scan_attendance_sessions. }
  split; [exact Ht|].
  destruct (Hst sn rec Hrec) as [u Hlook]. exists u.
  pose proof (unified_persistence_task_wf_users raises now r d Hu) as Hwf'.
  unfold unified_persistence_task in *. rewrite Hsn in Hlook.
  split; [done|]. split; [by apply Hwf'|].
  apply elem_of_enrich_db_records; [done|]. split; [|done].
  apply elem_of_db_get_attendance_records. exists sn. split; [|done].
  destruct (unified_persistence_task_due raises now r d _ a Hs Hr Hlive Hend Hok)
    as (_ & _ & _ & _ & _ & _ & Hrows).
  unfold unified_persistence_task in Hrows. rewrite (Hrows sn). cbn [fst]. by rewrite Hrec.
Qed.

Lemma postgres_empty_wf_users : wf_users postgres_empty.
Proof. intros k u Hk. cbn in Hk. by apply lookup_empty_Some in Hk. Qed.

Lemma swept_session_listed_in_full_witness :
  is_Some (Users sample_history !! "T-101")
  ∧ ∃ u, Users sample_history !! "S-201" = Some u
         ∧ User.user_school_number u = "S-201"
         ∧ (AttendanceRecord.mk 7%N "S-201" true (Some 1200) None false None None, u)
           ∈ TeacherService.get_historical_attendance_records 7%N sample_history.
Proof.
  apply (swept_session_listed_in_full raises_on_nul 6000 sample_two_sessions postgres_empty
           7%N sample_session "S-201" sample_accepted_record).
  - apply sample_two_sessions_wf.
  - apply sample_two_sessions_wf.
  - apply postgres_empty_wf_users.
  - reflexivity.
  - reflexivity.
  - apply sample_session_writes_accepted.
  - reflexivity.
Defined.

Lemma sample_history_wf_users : wf_users sample_history.
Proof. apply unified_persistence_task_wf_users, postgres_empty_wf_users. Qed.

Lemma historical_listing_joins_users_witness :
  (record_to_db sample_accepted_record, sample_student)
  ∈ TeacherService.get_historical_attendance_records 7%N sample_history.
Proof.
  apply (historical_listing_joins_users 7%N sample_history
           (record_to_db sample_accepted_record) sample_student sample_history_wf_users).
  split; [|reflexivity].
  apply elem_of_db_get_attendance_records. exists "S-201". split; reflexivity.
Defined.

(** X15. What the sweep leaves alone, whether its durable writes go through
    or raise: it never touches a login session or a verification mapping, it
    never creates or changes a live session (live sessions only disappear),
    and a row that [Users] or [Attendances] already holds is never
    overwritten, whatever the live store says about the same key. *)
Theorem sweep_frame (raises : DbWrite → Postgres → bool) (now : datetime) (r : Redis)
  (d : Postgres) :
  let s' := unified_persistence_task raises now r d in
  users s'.1 = users r
  ∧ verification s'.1 = verification r
  ∧ (∀ k a, attendance_session s'.1 !! k = Some a → attendance_session r !! k = Some a)
  ∧ (∀ k u, Users d !! k = Some u → Users s'.2 !! k = Some u)
  ∧ (∀ k x, Attendances d !! k = Some x → Attendances s'.2 !! k = Some x).
Proof.
  cbn zeta. unfold unified_persistence_task.
  destruct (sweep_keys_frame raises now (scan_attendance_sessions r) (r, d)) as [Hu Hv].
  split; [exact Hu|]. split; [exact Hv|]. split; [|split].
  - intros k a. apply (sweep_keys_sessions_shrink raises now _ (r, d)).
  - intros k u. apply (sweep_keys_Users_keeps raises now _ (r, d)).
  - intros k x. apply (sweep_keys_Attendances_keeps raises now _ (r, d)).
Qed.

(** ** Adding a student to a historical attendance *)




(** ** The attempt, the status read and the checks *)

Section AttemptFrame.

Variable ipaddress_ip_address : string → option IPAddress.

(** The checks write nothing but verification mappings. *)
Lemma security_checks_frame (out : Outside) (now : datetime) (student : User.t)
  (a : AttendanceRedis.t) (student_ip : option string) (normal_image_bytes : option bytes)
  (r : Redis) (res : result exn (option string)) (r' : Redis) (calls : list Call) :
  security_checks ipaddress_ip_address out now student a student_ip normal_image_bytes r
    = (res, r', calls) →
  users r' = users r
  ∧ attendance_session r' = attendance_session r
  ∧ attendance_index_name r' = attendance_index_name r
  ∧ attendance_index_teacher r' = attendance_index_teacher r
  ∧ attendance_records r' = attendance_records r
  ∧ (∀ k, k ≠ uuid4_verification out → verification r' !! k = verification r !! k).
Proof.
  unfold security_checks, submit_face_verification_job. intros H.
  repeat case_match; simplify_eq; repeat split; try done.
  all: intros k Hk; cbn; rewrite ?lookup_delete_ne by done; by rewrite lookup_insert_ne.
Qed.

Lemma attempt_frame_sessions
  (out : Outside) (now now_record : datetime) (student : User.t) (attendance_id : UUID)
  (student_ip : option string) (normal_image_bytes : option bytes) (r : Redis)
  (res : result exn AttendanceRecordRedis.t) (r' : Redis) (calls : list Call) :
  attend_to_attendance ipaddress_ip_address out now now_record student attendance_id student_ip
    normal_image_bytes r = (res, r', calls) →
  attendance_session r' = attendance_session r.
Proof.
  unfold attend_to_attendance. intros H.
  destruct (get_attendance_session attendance_id r) as [a|]; [|by simplify_eq].
  destruct (bool_decide (AttendanceRedis.end_time a <= now)); [by simplify_eq|].
  destruct (from_option AttendanceRecordRedis.is_attended false _); [by simplify_eq|].
  destruct (from_option _ false _); [by simplify_eq|].
  destruct (security_checks _ _ _ _ _ _ _ _) as [[checked r1] calls1] eqn:Hchecks.
  apply security_checks_frame in Hchecks as (_ & Hs & _).
  destruct checked as [fail_reason|e]; by simplify_eq.
Qed.

(** X17. On a session of tier 1 (any security option below 2) nothing is
    checked: an attempt that reaches the checks is answered with a record
    that is attended, with the time of the call and no failure reason,
    whatever address and photo the student sends, even none at all;
    afterwards that record is the one read back for the student, every
    other record and the correlation map are as before, and no outbound
    call has been made. *)
Theorem low_tier_attempt_attended
  (out : Outside) (now now_record : datetime) (student : User.t) (attendance_id : UUID)
  (student_ip : option string) (normal_image_bytes : option bytes) (r : Redis)
  (a : AttendanceRedis.t) :
  get_attendance_session attendance_id r = Some a →
  now < AttendanceRedis.end_time a →
  (∀ rec, get_attendance_record_by_id attendance_id (User.user_school_number student) r = Some rec →
          AttendanceRecordRedis.is_attended rec = false
          ∧ AttendanceRecordRedis.fail_reason rec ≠ Some "FACE_RECOGNITION_PENDING") →
  AttendanceRedis.security_option a < 2 →
  let new_record :=
    AttendanceRecordRedis.mk (AttendanceRedis.attendance_id a) (User.user_school_number student)
      (User.user_full_name student) true (Some now_record) None false None None in
  ∃ r',
    attend_to_attendance ipaddress_ip_address out now now_record student attendance_id student_ip
      normal_image_bytes r
    = (Ok new_record, r', [])
    ∧ get_attendance_record_by_id (AttendanceRedis.attendance_id a)
        (User.user_school_number student) r' = Some new_record
    ∧ (∀ k, k ≠ (AttendanceRedis.attendance_id a, User.user_school_number student) →
            attendance_records r' !! k = attendance_records r !! k)
    ∧ verification r' = verification r.
Proof.
  intros Hget Hend Hrec Htier. cbn zeta.
  rewrite (attend_reaches_checks _ _ _ _ _ _ _ _ _ a) by done.
  unfold security_checks.
  rewrite (bool_decide_eq_false_2 (AttendanceRedis.security_option a >= 2)) by lia.
  rewrite (bool_decide_eq_false_2 (AttendanceRedis.security_option a = 3)) by lia.
  eexists. split; [done|].
  unfold get_attendance_record_by_id, add_attendance_record. cbn.
  split; [apply lookup_insert_eq|]. split; [|done].
  intros k Hk. by rewrite lookup_insert_ne.
Qed.

(** X18. What an attempt can change: whatever it answers, the sessions, the
    two indexes and the login sessions are as before, no record of another
    student is touched, and the only verification mapping that can change
    is the one under the id drawn for this attempt; when it answers with an
    error, no record has changed at all. *)
Theorem attempt_frame
  (out : Outside) (now now_record : datetime) (student : User.t) (attendance_id : UUID)
  (student_ip : option string) (normal_image_bytes : option bytes) (r : Redis)
  (res : result exn AttendanceRecordRedis.t) (r' : Redis) (calls : list Call) :
  attend_to_attendance ipaddress_ip_address out now now_record student attendance_id student_ip
    normal_image_bytes r = (res, r', calls) →
  users r' = users r
  ∧ attendance_session r' = attendance_session r
  ∧ attendance_index_name r' = attendance_index_name r
  ∧ attendance_index_teacher r' = attendance_index_teacher r
  ∧ (∀ k, k.2 ≠ User.user_school_number student →
          attendance_records r' !! k = attendance_records r !! k)
  ∧ (∀ k, k ≠ uuid4_verification out → verification r' !! k = verification r !! k)
  ∧ (∀ e, res = Err e → attendance_records r' = attendance_records r).
Proof.
  unfold attend_to_attendance. intros H.
  destruct (get_attendance_session attendance_id r) as [a|]; [|by simplify_eq].
  destruct (bool_decide (AttendanceRedis.end_time a <= now)); [by simplify_eq|].
  destruct (from_option AttendanceRecordRedis.is_attended false _); [by simplify_eq|].
  destruct (from_option _ false _); [by simplify_eq|].
  destruct (security_checks _ _ _ _ _ _ _ _) as [[checked r1] calls1] eqn:Hchecks.
  apply security_checks_frame in Hchecks as (Hu & Hs & Hn & Ht & Hr & Hv).
  destruct checked as [fail_reason|e]; simplify_eq; cbn.
  - repeat split; try done.
    intros k Hk. rewrite lookup_insert_ne; [by rewrite Hr|].
    intros <-. done.
  - repeat split; try done. intros k _. by rewrite Hr.
Qed.

(** X19. An attempt and the status read agree: on a store whose sessions
    sit under their own ids, the record an attempt answers with is the
    record stored for that student, and the student's status read returns
    exactly it for as long as the session has not ended; once the end time
    is reached the status read is refused, and for an id with no live
    session it answers that there is no record, not an error. *)
Theorem attempt_then_status
  (out : Outside) (now now_record now' : datetime) (student : User.t) (attendance_id : UUID)
  (student_ip : option string) (normal_image_bytes : option bytes) (r : Redis)
  (rec : AttendanceRecordRedis.t) (r' : Redis) (calls : list Call) :
  wf_sessions r →
  attend_to_attendance ipaddress_ip_address out now now_record student attendance_id student_ip
    normal_image_bytes r = (Ok rec, r', calls) →
  ∃ a, attendance_session r !! attendance_id = Some a
       ∧ now < AttendanceRedis.end_time a
       ∧ get_attendance_record_by_id attendance_id (User.user_school_number student) r'
         = Some rec
       ∧ StudentService.get_my_attendance_status now' attendance_id student r'
         = (if bool_decide (AttendanceRedis.end_time a <= now')
            then Err (ServiceError "This attendance session has already ended.")
            else Ok (Some rec))
       ∧ (∀ other_id, attendance_session r !! other_id = None →
            StudentService.get_my_attendance_status now' other_id student r' = Ok None).
Proof.
  intros Hwf Hrun.
  pose proof (attempt_frame_sessions out now now_record student attendance_id student_ip
                normal_image_bytes r (Ok rec) r' calls Hrun) as Hsess.
  unfold attend_to_attendance in Hrun. unfold get_attendance_session in Hrun.
  destruct (attendance_session r !! attendance_id) as [a|] eqn:Hlive; [|by simplify_eq].
  case_bool_decide as Hend; [by simplify_eq|].
  destruct (from_option AttendanceRecordRedis.is_attended false _); [by simplify_eq|].
  destruct (from_option _ false _); [by simplify_eq|].
  destruct (security_checks _ _ _ _ _ _ _ _) as [[checked r1] calls1] eqn:Hchecks.
  destruct checked as [fail_reason|e]; [|by simplify_eq].
  injection Hrun as <- <- <-.
  pose proof (Hwf _ _ Hlive) as Hid.
  exists a. split; [done|]. split; [lia|].
  assert (get_attendance_record_by_id attendance_id (User.user_school_number student)
            (add_attendance_record
               (AttendanceRecordRedis.mk (AttendanceRedis.attendance_id a)
                  (User.user_school_number student) (User.user_full_name student)
                  (bool_decide (fail_reason = None))
                  (if bool_decide (fail_reason = None) then Some now_record else None)
                  fail_reason false None None) r1)
          = Some (AttendanceRecordRedis.mk (AttendanceRedis.attendance_id a)
                    (User.user_school_number student) (User.user_full_name student)
                    (bool_decide (fail_reason = None))
                    (if bool_decide (fail_reason = None) then Some now_record else None)
                    fail_reason false None None)) as Hget.
  { unfold get_attendance_record_by_id, add_attendance_record. cbn.
    rewrite Hid. apply lookup_insert_eq. }
  split; [exact Hget|]. split.
  - unfold StudentService.get_my_attendance_status, get_attendance_session.
    rewrite Hsess, Hlive.
    destruct (bool_decide (AttendanceRedis.end_time a <= now')); [done|]. by rewrite Hget.
  - intros other_id Hother.
    unfold StudentService.get_my_attendance_status, get_attendance_session.
    by rewrite Hsess, Hother.
Qed.

End AttemptFrame.

Lemma low_tier_attempt_attended_witness :
  ∃ r',
    attend_to_attendance dotted_quad sample_outside 1600 1601 sample_student 15%N None None
      sample_live_tier1
    = (Ok (AttendanceRecordRedis.mk 15%N "S-201" "Student Alpha" true (Some 1601) None
             false None None), r', [])
    ∧ get_attendance_record_by_id 15%N "S-201" r'
      = Some (AttendanceRecordRedis.mk 15%N "S-201" "Student Alpha" true (Some 1601) None
                false None None)
    ∧ get_attendance_record_by_id 15%N "S-201" sample_live_tier1 = None.
Proof.
  destruct (low_tier_attempt_attended dotted_quad sample_outside 1600 1601 sample_student 15%N
              None None sample_live_tier1 sample_session_tier1)
    as (r' & Hrun & Hread & _).
  - reflexivity.
  - reflexivity.
  - intros rec Hrec. vm_compute in Hrec. discriminate.
  - reflexivity.
  - exists r'. split; [exact Hrun|]. split; [exact Hread|]. reflexivity.
Defined.

Lemma attempt_frame_witness :
  attendance_session
    (attend_to_attendance dotted_quad outside_accepting 1600 1601 sample_student 9%N
       (Some "192.168.1.50") (Some ["p"%byte]) sample_logged_in_tier3).1.2
  = attendance_session sample_logged_in_tier3.
Proof.
  destruct (attempt_frame dotted_quad outside_accepting 1600 1601 sample_student 9%N
              (Some "192.168.1.50") (Some ["p"%byte]) sample_logged_in_tier3
              (attend_to_attendance dotted_quad outside_accepting 1600 1601 sample_student 9%N
                 (Some "192.168.1.50") (Some ["p"%byte]) sample_logged_in_tier3).1.1
              (attend_to_attendance dotted_quad outside_accepting 1600 1601 sample_student 9%N
                 (Some "192.168.1.50") (Some ["p"%byte]) sample_logged_in_tier3).1.2
              (attend_to_attendance dotted_quad outside_accepting 1600 1601 sample_student 9%N
                 (Some "192.168.1.50") (Some ["p"%byte]) sample_logged_in_tier3).2)
    as (_ & H & _); [reflexivity|].
  exact H.
Defined.

Lemma sample_live_wf_sessions : wf_sessions sample_live.
Proof. apply save_attendance_session_wf_sessions, wf_sessions_empty. Qed.

Lemma attempt_then_status_witness :
  StudentService.get_my_attendance_status 1700 7%N sample_student
    (add_attendance_record
       (AttendanceRecordRedis.mk 7%N "S-201" "Student Alpha" true (Some 1601) None
          false None None) sample_live)
  = Ok (Some (AttendanceRecordRedis.mk 7%N "S-201" "Student Alpha" true (Some 1601) None
                false None None)).
Proof.
  destruct (attempt_then_status dotted_quad sample_outside 1600 1601 1700 sample_student 7%N
              (Some "192.168.1.50") None sample_live
              (AttendanceRecordRedis.mk 7%N "S-201" "Student Alpha" true (Some 1601) None
                 false None None)
              (add_attendance_record
                 (AttendanceRecordRedis.mk 7%N "S-201" "Student Alpha" true (Some 1601) None
                    false None None) sample_live)
              [] sample_live_wf_sessions)
    as (a & Ha & _ & _ & Hstatus & _); [reflexivity|].
  injection Ha as <-. exact Hstatus.
Defined.

(** ** The face check from the dispatch to the verdict *)

Section FaceCheck.

Variable ipaddress_ip_address : string → option IPAddress.
Variable hmac_sha256_hexdigest : bytes → bytes → string.
Variable WEBHOOK_SECRET_KEY : bytes.
Variable parse_payload : bytes → PayloadParse.

(** A tier-3 attempt that has passed the network check, with a photo, a
    login session with a profile image and the image fetched. *)
Lemma attend_tier3_reaches_submission
  (out : Outside) (now now_record : datetime) (student : User.t) (attendance_id : UUID)
  (student_ip : option string) (b : byte) (image reference : bytes) (r : Redis)
  (a : AttendanceRedis.t) (user_session : UserSessionRedis.t) (url : string) :
  get_attendance_session attendance_id r = Some a →
  now < AttendanceRedis.end_time a →
  (∀ rec, get_attendance_record_by_id attendance_id (User.user_school_number student) r = Some rec →
          AttendanceRecordRedis.is_attended rec = false
          ∧ AttendanceRecordRedis.fail_reason rec ≠ Some "FACE_RECOGNITION_PENDING") →
  AttendanceRedis.security_option a = 3 →
  truthy_str student_ip = true →
  verify_wifi ipaddress_ip_address a (default "" student_ip) = true →
  get_user_session now (User.user_school_number student) r = Some user_session →
  UserSessionRedis.image_url user_session = Some url →
  url ≠ "" →
  aksis_profile_image out url = Some reference →
  attend_to_attendance ipaddress_ip_address out now now_record student attendance_id student_ip
    (Some (b :: image)) r
  = let verdict :=
      if verifier_accepts out then "FACE_RECOGNITION_PENDING"
      else "FACE_VERIFICATION_SUBMISSION_FAILED" in
    let new_record :=
      AttendanceRecordRedis.mk (AttendanceRedis.attendance_id a) (User.user_school_number student)
        (User.user_full_name student) false None (Some verdict) false None None in
    let r1 :=
      map_verification_to_user now (uuid4_verification out) (User.user_school_number student)
        (AttendanceRedis.attendance_id a) r in
    (Ok new_record,
     add_attendance_record new_record
       (if verifier_accepts out then r1
        else delete_verification_mapping (uuid4_verification out) r1),
     [GetProfileImage url;
      VerifyFaceAsync (uuid4_verification out) (User.user_school_number student)
        (b :: image) reference]).
Proof.
  intros Hget Hend Hrec Htier Hip Hwifi Hsess Hurl Hne Hprof.
  rewrite (attend_reaches_checks _ _ _ _ _ _ _ _ _ a) by done.
  unfold security_checks. rewrite Htier, Hip, Hwifi, Hsess, Hurl. cbn.
  rewrite (bool_decide_eq_false_2 (url = "")) by done. cbn.
  rewrite Hprof. unfold submit_face_verification_job.
  by destruct (verifier_accepts out).
Qed.


(** X21. When the verifier refuses the job, the mapping written for it is
    rolled back and the stored record carries the submission failure, not
    the pending mark: the student is not blocked, a further attempt runs
    the checks again. *)
Theorem refused_submission_rolls_back
  (out : Outside) (now now_record now2 now_record2 : datetime) (student : User.t)
  (attendance_id : UUID)
  (student_ip : option string) (b : byte) (image reference : bytes)
  (r : Redis) (a : AttendanceRedis.t) (user_session : UserSessionRedis.t) (url : string) :
  wf_sessions r →
  get_attendance_session attendance_id r = Some a →
  now < AttendanceRedis.end_time a →
  (∀ rec, get_attendance_record_by_id attendance_id (User.user_school_number student) r = Some rec →
          AttendanceRecordRedis.is_attended rec = false
          ∧ AttendanceRecordRedis.fail_reason rec ≠ Some "FACE_RECOGNITION_PENDING") →
  AttendanceRedis.security_option a = 3 →
  truthy_str student_ip = true →
  verify_wifi ipaddress_ip_address a (default "" student_ip) = true →
  get_user_session now (User.user_school_number student) r = Some user_session →
  UserSessionRedis.image_url user_session = Some url →
  url ≠ "" →
  aksis_profile_image out url = Some reference →
  verifier_accepts out = false →
  now2 < AttendanceRedis.end_time a →
  let failed :=
    AttendanceRecordRedis.mk (AttendanceRedis.attendance_id a) (User.user_school_number student)
      (User.user_full_name student) false None (Some "FACE_VERIFICATION_SUBMISSION_FAILED")
      false None None in
  ∃ r1,
    attend_to_attendance ipaddress_ip_address out now now_record student attendance_id
      student_ip (Some (b :: image)) r
    = (Ok failed, r1,
       [GetProfileImage url;
        VerifyFaceAsync (uuid4_verification out) (User.user_school_number student)
          (b :: image) reference])
    ∧ verification r1 !! uuid4_verification out = None
    ∧ get_attendance_record_by_id attendance_id (User.user_school_number student) r1
      = Some failed
    ∧ ∀ out2 student_ip2 image2,
        attend_to_attendance ipaddress_ip_address out2 now2 now_record2 student attendance_id
          student_ip2 image2 r1
        = match security_checks ipaddress_ip_address out2 now2 student a student_ip2 image2 r1
          with
          | (Err e, r', calls) => (Err e, r', calls)
          | (Ok fail_reason, r', calls) =>
              let new_record :=
                AttendanceRecordRedis.mk (AttendanceRedis.attendance_id a)
                  (User.user_school_number student) (User.user_full_name student)
                  (bool_decide (fail_reason = None))
                  (if bool_decide (fail_reason = None) then Some now_record2 else None)
                  fail_reason false None None in
              (Ok new_record, add_attendance_record new_record r', calls)
          end.
Proof.
  intros Hwf Hget Hend Hrec Htier Hip Hwifi Hsess Hurl Hne Hprof Hacc Hend2.
  cbn zeta. eexists. split.
  { rewrite (attend_tier3_reaches_submission out now now_record student attendance_id student_ip
               b image reference r a user_session url) by done.
    rewrite Hacc. reflexivity. }
  pose proof (Hwf _ _ Hget) as Hid.
  assert (get_attendance_record_by_id attendance_id (User.user_school_number student)
            (add_attendance_record
               (AttendanceRecordRedis.mk (AttendanceRedis.attendance_id a)
                  (User.user_school_number student) (User.user_full_name student) false None
                  (Some "FACE_VERIFICATION_SUBMISSION_FAILED") false None None)
               (delete_verification_mapping (uuid4_verification out)
                  (map_verification_to_user now (uuid4_verification out)
                     (User.user_school_number student) (AttendanceRedis.attendance_id a) r)))
          = Some (AttendanceRecordRedis.mk (AttendanceRedis.attendance_id a)
                    (User.user_school_number student) (User.user_full_name student) false None
                    (Some "FACE_VERIFICATION_SUBMISSION_FAILED") false None None)) as Hstored.
  { unfold get_attendance_record_by_id. cbn. rewrite Hid. apply lookup_insert_eq. }
  split; [cbn; apply lookup_delete_eq|]. split; [exact Hstored|].
  intros out2 ip2 image2. apply attend_reaches_checks; [done|done|].
  intros rec Hrec'. rewrite Hstored in Hrec'. injection Hrec' as <-. done.
Qed.

(** X22. A verdict that arrives after the sweep has moved the session is
    lost: the mapping is still there (the sweep keeps mappings), but the
    live record is gone, so the delivery is answered 404, the mapping is
    deleted, no live record comes back, and the durable record stays as the
    sweep wrote it, pending included. Nothing in the callback reaches the
    durable store. When instead the database refused the session's row, the
    sweep has left the live record, and the same delivery is applied to it
    and answered 200. *)
Theorem verdict_after_sweep_is_lost (raises : DbWrite → Postgres → bool)
  (now_sweep now_verdict : datetime) (verification_id : UUID) (r : Redis) (d : Postgres)
  (attendance_id : UUID) (a : AttendanceRedis.t) (student_number : string)
  (rec : AttendanceRecordRedis.t)
  (raw_body : bytes) (signature : string) (payload : VerificationResultPayload.t) :
  wf_sessions r → wf_records r →
  attendance_session r !! attendance_id = Some a →
  AttendanceRedis.end_time a < now_sweep →
  attendance_records r !! (attendance_id, student_number) = Some rec →
  get_user_and_attendance_for_verification now_verdict verification_id r
    = Some (student_number, attendance_id) →
  compare_digest (hmac_sha256_hexdigest WEBHOOK_SECRET_KEY raw_body) signature = Some true →
  parse_payload raw_body = Parsed payload →
  let swept := unified_persistence_task raises now_sweep r d in
  let delivery :=
    update_attendance_from_webhook hmac_sha256_hexdigest WEBHOOK_SECRET_KEY parse_payload
      now_verdict verification_id raw_body signature swept.1 in
  (writes_accepted raises a r →
   delivery.1 = HTTPException 404
   ∧ verification delivery.2 !! verification_id = None
   ∧ (∀ k, k ≠ verification_id → verification delivery.2 !! k = verification r !! k)
   ∧ attendance_records delivery.2 !! (attendance_id, student_number) = None
   ∧ AttendanceRecords swept.2 !! (attendance_id, student_number)
     = Some (AttendanceRecord.mk attendance_id student_number
               (AttendanceRecordRedis.is_attended rec)
               (AttendanceRecordRedis.attendance_time rec)
               (AttendanceRecordRedis.fail_reason rec) false None None))
  ∧ ((∀ d', raises (AddAttendances [attendance_to_db a]) d' = true) →
     delivery.1 = Status200 "success"
     ∧ verification delivery.2 !! verification_id = None
     ∧ (AttendanceRecordRedis.is_attended
          <$> attendance_records delivery.2 !! (attendance_id, student_number))
       = Some (VerificationResultPayload.verification_passed payload)
     ∧ AttendanceRecords swept.2 !! (attendance_id, student_number)
       = AttendanceRecords d !! (attendance_id, student_number)).
Proof.
  intros Hs Hr Hlive Hend Hrec Hmap Hsig Hparse. cbn zeta.
  pose proof (Hs _ _ Hlive) as Hid. subst attendance_id.
  destruct (sweep_keys_frame raises now_sweep (scan_attendance_sessions r) (r, d)) as [_ Hv].
  fold (unified_persistence_task raises now_sweep r d) in Hv. cbn [fst] in Hv.
  assert (get_user_and_attendance_for_verification now_verdict verification_id
            (unified_persistence_task raises now_sweep r d).1
          = Some (student_number, AttendanceRedis.attendance_id a)) as Hmap'.
  { unfold get_user_and_attendance_for_verification in *. by rewrite Hv. }
  split.
  - intros Hok.
    destruct (unified_persistence_task_due raises now_sweep r d _ a Hs Hr Hlive Hend Hok)
      as (_ & _ & Hgone & _ & _ & _ & Hrows).
    unfold update_attendance_from_webhook. rewrite Hsig, Hparse, Hmap'.
    unfold get_attendance_record_by_id. rewrite Hgone. cbn [fst snd].
    split; [done|]. split; [cbn; apply lookup_delete_eq|].
    split; [intros k Hk; cbn; by rewrite lookup_delete_ne, Hv|].
    split; [cbn; apply Hgone|].
    rewrite (Hrows student_number). cbn [fst]. by rewrite Hrec.
  - intros Hrow.
    destruct (sweep_keys_row_refused raises now_sweep (scan_attendance_sessions r) _ a (r, d)
                Hs Hr Hlive Hrow) as (_ & Hrecs & _ & _ & _ & Hdb).
    fold (unified_persistence_task raises now_sweep r d) in Hrecs, Hdb.
    cbn [fst snd] in Hrecs, Hdb.
    pose proof (Hr _ _ Hrec) as Hkey. injection Hkey as Hka Hks.
    unfold update_attendance_from_webhook. rewrite Hsig, Hparse, Hmap'.
    unfold get_attendance_record_by_id. rewrite Hrecs, Hrec. cbn [fst snd].
    split; [done|]. split; [cbn; apply lookup_delete_eq|].
    split; [|apply Hdb].
    destruct (VerificationResultPayload.verification_passed payload);
      cbn; rewrite Hka, Hks, lookup_insert_eq; done.
Qed.

(** X23. What a delivery to the webhook can change, whatever it carries and
    whatever it is answered: sessions, indexes and login sessions never; no
    mapping but the one of its own verification id, which can only
    disappear; and, on a store whose records sit under their own keys, no
    record but the one its mapping names, which is never created by it. *)
Theorem webhook_frame
  (now : datetime) (verification_id : UUID) (raw_body : bytes) (signature : string)
  (r : Redis) :
  wf_records r →
  let out := update_attendance_from_webhook hmac_sha256_hexdigest WEBHOOK_SECRET_KEY
               parse_payload now verification_id raw_body signature r in
  users out.2 = users r
  ∧ attendance_session out.2 = attendance_session r
  ∧ attendance_index_name out.2 = attendance_index_name r
  ∧ attendance_index_teacher out.2 = attendance_index_teacher r
  ∧ (∀ k, k ≠ verification_id → verification out.2 !! k = verification r !! k)
  ∧ (verification out.2 !! verification_id = verification r !! verification_id
     ∨ verification out.2 !! verification_id = None)
  ∧ (∀ k, attendance_records out.2 !! k = attendance_records r !! k
          ∨ (is_Some (attendance_records r !! k)
             ∧ is_Some (attendance_records out.2 !! k)
             ∧ get_user_and_attendance_for_verification now verification_id r
               = Some (k.2, k.1)))
  ∧ wf_records out.2.
Proof.
  intros Hwf. cbn zeta. unfold update_attendance_from_webhook.
  destruct (compare_digest _ _) as [[|]|]; try (repeat split; (done || by left)).
  destruct (parse_payload raw_body) as [payload| |]; try (repeat split; (done || by left)).
  destruct (get_user_and_attendance_for_verification now verification_id r)
    as [[usn aid]|] eqn:Hmap; [|repeat split; (done || by left)].
  destruct (get_attendance_record_by_id aid usn r) as [rec|] eqn:Hrec.
  - pose proof (Hwf _ _ Hrec) as Hkey. injection Hkey as Hka Hks.
    cbn [snd]. repeat split; try done.
    + intros k Hk. cbn. by rewrite lookup_delete_ne.
    + right. cbn. apply lookup_delete_eq.
    + intros k. destruct (decide (k = (aid, usn))) as [->|Hne].
      * right. split; [by eexists|]. split; [|done].
        destruct (VerificationResultPayload.verification_passed payload);
          cbn; rewrite Hka, Hks, lookup_insert_eq; by eexists.
      * left. destruct (VerificationResultPayload.verification_passed payload);
          cbn; rewrite Hka, Hks; by rewrite lookup_insert_ne.
    + intros k x.
      destruct (VerificationResultPayload.verification_passed payload);
        cbn; rewrite Hka, Hks; intros Hx;
        (destruct (decide (k = (aid, usn))) as [->|Hne];
         [rewrite lookup_insert_eq in Hx; injection Hx as <-; cbn; by rewrite Hka, Hks
         |rewrite lookup_insert_ne in Hx by done; by apply Hwf]).
  - cbn [snd]. repeat split; try done.
    + intros k Hk. cbn. by rewrite lookup_delete_ne.
    + right. cbn. apply lookup_delete_eq.
    + intros k. by left.
Qed.

End FaceCheck.


Lemma sample_logged_in_tier3_wf_sessions : wf_sessions sample_logged_in_tier3.
Proof.
  unfold sample_logged_in_tier3, sample_live_tier3. intros k a Hk.
  by apply (save_attendance_session_wf_sessions sample_session_tier3 redis_empty
              wf_sessions_empty k a).
Qed.

Lemma refused_submission_rolls_back_witness :
  ∃ r1,
    attend_to_attendance dotted_quad outside_refusing 1600 1601 sample_student 9%N
      (Some "192.168.1.50") (Some ["p"%byte]) sample_logged_in_tier3
    = (Ok (AttendanceRecordRedis.mk 9%N "S-201" "Student Alpha" false None
             (Some "FACE_VERIFICATION_SUBMISSION_FAILED") false None None), r1,
       [GetProfileImage "https://img/201"; VerifyFaceAsync 42%N "S-201" ["p"%byte] ["r"%byte]])
    ∧ verification r1 !! 42%N = None.
Proof.
  destruct (refused_submission_rolls_back dotted_quad outside_refusing 1600 1601 1800 1801
              sample_student 9%N (Some "192.168.1.50")
              "p"%byte [] ["r"%byte] sample_logged_in_tier3 sample_session_tier3
              (UserSessionRedis.mk sample_student 1%N 0 100000 (Some "https://img/201"))
              "https://img/201" sample_logged_in_tier3_wf_sessions)
    as (r1 & Hrun & Hv & _).
  - reflexivity.
  - reflexivity.
  - intros rec Hrec. vm_compute in Hrec. discriminate.
  - reflexivity.
  - reflexivity.
  - vm_compute. reflexivity.
  - reflexivity.
  - reflexivity.
  - discriminate.
  - reflexivity.
  - reflexivity.
  - reflexivity.
  - exists r1. split; [exact Hrun|exact Hv].
Defined.

Lemma sample_pending_wf : wf_sessions sample_pending ∧ wf_records sample_pending.
Proof.
  unfold sample_pending. split.
  - intros k a Hk.
    by apply (save_attendance_session_wf_sessions sample_session redis_empty
                wf_sessions_empty k a).
  - intros k rec Hk.
    apply (add_attendance_record_wf_records sample_pending_record sample_live); [|exact Hk].
    apply save_attendance_session_wf_records, wf_records_empty.
Qed.

Lemma sample_pending_writes_accepted :
  writes_accepted raises_on_nul sample_session sample_pending.
Proof.
  intros w d Hw. vm_compute in Hw.
  repeat (apply elem_of_cons in Hw as [->|Hw]; [reflexivity|]).
  by apply elem_of_nil in Hw.
Qed.

Lemma verdict_after_sweep_is_lost_witness :
  (update_attendance_from_webhook toy_hexdigest [] toy_parse_payload 7000 42%N body_passed "01"
     (unified_persistence_task raises_on_nul 6000 sample_pending postgres_empty).1).1
  = HTTPException 404
  ∧ AttendanceRecords (unified_persistence_task raises_on_nul 6000 sample_pending
                         postgres_empty).2 !! (7%N, "S-201")
    = Some (AttendanceRecord.mk 7%N "S-201" false None (Some "FACE_RECOGNITION_PENDING")
              false None None).
Proof.
  destruct (verdict_after_sweep_is_lost toy_hexdigest [] toy_parse_payload raises_on_nul
              6000 7000 42%N
              sample_pending postgres_empty 7%N sample_session "S-201" sample_pending_record
              body_passed "01" (VerificationResultPayload.mk true "no match"))
    as [Hlost _].
  - apply sample_pending_wf.
  - apply sample_pending_wf.
  - reflexivity.
  - reflexivity.
  - reflexivity.
  - reflexivity.
  - reflexivity.
  - reflexivity.
  - destruct (Hlost sample_pending_writes_accepted) as (Hweb & _ & _ & _ & Hrow).
    split; [exact Hweb|exact Hrow].
Defined.

Lemma webhook_frame_witness :
  attendance_session
    (update_attendance_from_webhook toy_hexdigest [] toy_parse_payload 1600 42%N body_passed
       "01" sample_pending).2
  = attendance_session sample_pending.
Proof.
  destruct (webhook_frame toy_hexdigest [] toy_parse_payload 1600 42%N body_passed "01"
              sample_pending) as (_ & H & _).
  - apply sample_pending_wf.
  - exact H.
Defined.

(** ** The network check as a relation on addresses *)

(** X24. The verdict of the network check does not depend on which of the
    two addresses is the session's: swapping them gives the same answer.
    Every address that is not empty matches itself, parseable or not, and
    matching is transitive, so the non-empty addresses fall into classes:
    the /24 blocks, the /64 blocks, and single unparseable texts. *)
Theorem network_check_is_equivalence (ipaddress_ip_address : string → option IPAddress)
  (a b : AttendanceRedis.t) (x y z : string) :
  AttendanceRedis.ip_address a = Some x →
  AttendanceRedis.ip_address b = Some y →
  verify_wifi ipaddress_ip_address a y = verify_wifi ipaddress_ip_address b x
  ∧ (x ≠ "" → verify_wifi ipaddress_ip_address a x = true)
  ∧ (verify_wifi ipaddress_ip_address a y = true →
     verify_wifi ipaddress_ip_address b z = true →
     verify_wifi ipaddress_ip_address a z = true).
Proof.
  intros Ha Hb. unfold verify_wifi, truthy_str, in_network. rewrite Ha, Hb.
  split; [|split].
  - repeat (case_bool_decide || case_match); simplify_eq/=; congruence.
  - intros Hx. rewrite (bool_decide_eq_false_2 (x = "")) by done. cbn.
    by rewrite bool_decide_eq_true_2.
  - repeat (case_bool_decide || case_match); simplify_eq/=; congruence.
Qed.

Lemma network_check_is_equivalence_witness :
  verify_wifi dotted_quad sample_session "192.168.1.50"
  = verify_wifi dotted_quad
      (AttendanceRedis.mk 17%N "T-101" "Dr. Integration" "Algebra" (Some "192.168.1.50")
         1000 5000 2 false None None) "192.168.1.117".
Proof.
  destruct (network_check_is_equivalence dotted_quad sample_session
              (AttendanceRedis.mk 17%N "T-101" "Dr. Integration" "Algebra"
                 (Some "192.168.1.50") 1000 5000 2 false None None)
              "192.168.1.117" "192.168.1.50" "192.168.1.7") as (H & _);
    [reflexivity|reflexivity|].
  exact H.
Defined.

(** ** The caller's address *)

Lemma has_comma_before_comma (s : string) : has_comma (before_comma s) = false.
Proof.
  induction s as [|c s IH]; [done|]. simpl.
  destruct (Ascii.eqb c ","%char) eqn:E; [done|]. simpl. by rewrite E.
Qed.

Lemma has_comma_lstrip (s : string) : has_comma s = false → has_comma (lstrip s) = false.
Proof.
  induction s as [|c s IH]; [done|]. simpl. intros H.
  destruct (is_space c); [|done]. apply IH.
  by destruct (Ascii.eqb c ","%char).
Qed.

Lemma has_comma_rstrip (s : string) : has_comma s = false → has_comma (rstrip s) = false.
Proof.
  induction s as [|c s IH]; [done|]. simpl. intros H.
  destruct (Ascii.eqb c ","%char) eqn:E; [done|]. specialize (IH H).
  destruct (rstrip s) as [|c' t].
  - destruct (is_space c); [done|]. simpl. by rewrite E.
  - cbn [has_comma]. by rewrite E.
Qed.

Lemma starts_with_space_lstrip (s : string) : starts_with_space (lstrip s) = false.
Proof.
  induction s as [|c s IH]; [done|]. simpl.
  destruct (is_space c) eqn:E; [done|]. simpl. exact E.
Qed.

Lemma starts_with_space_rstrip (s : string) :
  starts_with_space s = false → starts_with_space (rstrip s) = false.
Proof.
  destruct s as [|c s]; [done|]. simpl. intros H.
  destruct (rstrip s); [by rewrite H|done].
Qed.

Lemma ends_with_space_rstrip (s : string) : ends_with_space (rstrip s) = false.
Proof.
  induction s as [|c s IH]; [done|]. simpl.
  destruct (rstrip s) as [|c' t].
  - destruct (is_space c) eqn:E; [done|]. simpl. exact E.
  - exact IH.
Qed.

Lemma strip_clean (s : string) :
  has_comma s = false →
  has_comma (strip s) = false
  ∧ starts_with_space (strip s) = false
  ∧ ends_with_space (strip s) = false.
Proof.
  intros H. unfold strip. split; [|split].
  - by apply has_comma_rstrip, has_comma_lstrip.
  - apply starts_with_space_rstrip, starts_with_space_lstrip.
  - apply ends_with_space_rstrip.
Qed.

Lemma first_forwarded_clean (header_names : list string) (request : Request) (ip : string) :
  first_forwarded header_names request = Some ip →
  has_comma ip = false ∧ starts_with_space ip = false ∧ ends_with_space ip = false.
Proof.
  induction header_names as [|name names IH]; [done|]. cbn [first_forwarded].
  destruct (headers request !! name) as [header|]; [|done].
  destruct (truthy_str (Some header)); [|done].
  intros [= <-]. apply strip_clean, has_comma_before_comma.
Qed.

(** X25. The caller's address as the routes receive it. An address read
    from a proxy header holds no comma and neither begins nor ends with
    white space; the first of [cf-connecting-ip], [x-real-ip] and
    [x-forwarded-for] that is present and not empty decides, the later ones
    are not looked at, and only when none is there does the socket's peer
    answer. A header that begins with a comma yields the empty address,
    with no fallback, and the empty address fails every network check. *)
Theorem client_ip_from_headers (request : Request) :
  (∀ ip, first_forwarded ["cf-connecting-ip"; "x-real-ip"; "x-forwarded-for"] request = Some ip →
         get_client_ip request = Some ip
         ∧ has_comma ip = false ∧ starts_with_space ip = false ∧ ends_with_space ip = false)
  ∧ (∀ header, headers request !! "cf-connecting-ip" = Some header → header ≠ "" →
               get_client_ip request = Some (strip (before_comma header)))
  ∧ ((∀ name, name ∈ ["cf-connecting-ip"; "x-real-ip"; "x-forwarded-for"] →
              headers request !! name = None ∨ headers request !! name = Some "") →
     get_client_ip request = client_host request)
  ∧ (∀ rest, headers request !! "cf-connecting-ip" = Some (String ","%char rest) →
             get_client_ip request = Some ""
             ∧ ∀ parse a, network_check parse a (get_client_ip request) = false).
Proof.
  split; [|split; [|split]].
  - intros ip Hip. split; [unfold get_client_ip; by rewrite Hip|].
    exact (first_forwarded_clean _ request ip Hip).
  - intros header Hh Hne. unfold get_client_ip. cbn [first_forwarded]. rewrite Hh.
    apply truthy_str_Some in Hne. by rewrite Hne.
  - intros Hnone. unfold get_client_ip. cbn [first_forwarded].
    destruct (Hnone "cf-connecting-ip") as [->| ->]; [set_solver| |];
    destruct (Hnone "x-real-ip") as [->| ->]; try set_solver;
    destruct (Hnone "x-forwarded-for") as [->| ->]; try set_solver; done.
  - intros rest Hh.
    assert (get_client_ip request = Some "") as Hip.
    { unfold get_client_ip. cbn [first_forwarded]. by rewrite Hh. }
    split; [done|]. intros parse a. by rewrite Hip.
Qed.

Lemma client_ip_from_headers_witness :
  get_client_ip
    (mkRequest (<["x-forwarded-for" := "10.0.0.9 , 172.16.0.1"]>
                  (<["cf-connecting-ip" := " 192.168.1.50 "]> ∅)) (Some "127.0.0.1"))
  = Some "192.168.1.50".
Proof.
  destruct (client_ip_from_headers
              (mkRequest (<["x-forwarded-for" := "10.0.0.9 , 172.16.0.1"]>
                            (<["cf-connecting-ip" := " 192.168.1.50 "]> ∅))
                 (Some "127.0.0.1"))) as (_ & H & _).
  apply (H " 192.168.1.50 "); [reflexivity|discriminate].
Defined.

(** ** The teacher's routes *)

Lemma owner_check_error_is_404 (attendance_id : UUID) (user : User.t) (r : Redis)
  (d : Postgres) :
  (∀ a, attendance_session r !! attendance_id = Some a →
        AttendanceRedis.teacher_school_number a ≠ User.user_school_number user) →
  (attendance_session r !! attendance_id = None →
   ∀ att, Attendances d !! attendance_id = Some att →
          Attendance.is_deleted att = true
          ∨ Attendance.teacher_school_number att ≠ User.user_school_number user) →
  TeacherRoutes._get_and_verify_owner attendance_id user r d = inl 404.
Proof.
  intros Hlive Hdb.
  unfold TeacherRoutes._get_and_verify_owner, TeacherService.get_and_verify_attendance_owner,
    get_attendance_session, get_attendance_by_id.
  destruct (attendance_session r !! attendance_id) as [a|] eqn:Ha.
  - by rewrite bool_decide_eq_false_2 by by apply Hlive.
  - destruct (Attendances d !! attendance_id) as [att|] eqn:Hatt; [|done].
    destruct (Hdb eq_refl att eq_refl) as [Hdel|Hne].
    + by rewrite Hdel.
    + destruct (Attendance.is_deleted att); [done|]. by rewrite bool_decide_eq_true_2.
Qed.

(** X26. The routes that act on one attendance refuse a stranger and leave
    both stores as they were: a user whose role does not hold "Teacher" is
    answered 403 before anything is read, and a teacher for whom the id is
    somebody else's, unknown, or soft-deleted in the history is answered
    404 (never 400), by the finish, delete, listing, live accept and live
    fail routes alike. The two routes that carry a reason answer 422 first,
    to the owner and the stranger alike, when the reason is shorter than
    their body model allows (10 characters for the delete, 5 for the live
    fail). *)
Theorem routes_refuse_strangers (now : datetime) (attendance_id : UUID)
  (student_school_number reason : string) (user : User.t) (s : Redis * Postgres) :
  TeacherRoutes._verify_teacher_role user = false
  ∨ ((∀ a, attendance_session s.1 !! attendance_id = Some a →
           AttendanceRedis.teacher_school_number a ≠ User.user_school_number user)
     ∧ (attendance_session s.1 !! attendance_id = None →
        ∀ att, Attendances s.2 !! attendance_id = Some att →
               Attendance.is_deleted att = true
               ∨ Attendance.teacher_school_number att ≠ User.user_school_number user)) →
  let status_code := if TeacherRoutes._verify_teacher_role user then 404 else 403 in
  TeacherRoutes.finish_attendance now attendance_id user s = (Refused status_code, s)
  ∧ TeacherRoutes.delete_attendance now attendance_id reason user s
    = (Refused (if bool_decide (str_len reason < 10) then 422 else status_code), s)
  ∧ TeacherRoutes.get_attendance_records attendance_id user s = Refused status_code
  ∧ TeacherRoutes.accept_student_in_live_attendance now attendance_id student_school_number
      user s = (Refused status_code, s)
  ∧ TeacherRoutes.fail_student_in_live_attendance attendance_id student_school_number reason
      user s
    = (Refused (if bool_decide (str_len reason < 5) then 422 else status_code), s).
Proof.
  intros Hstranger. cbn zeta.
  unfold TeacherRoutes.finish_attendance, TeacherRoutes.delete_attendance,
    TeacherRoutes.get_attendance_records, TeacherRoutes.accept_student_in_live_attendance,
    TeacherRoutes.fail_student_in_live_attendance.
  destruct (TeacherRoutes._verify_teacher_role user) eqn:Hrole; cbn [negb].
  - destruct Hstranger as [?|[Hlive Hdb]]; [done|].
    rewrite (owner_check_error_is_404 attendance_id user s.1 s.2 Hlive Hdb).
    by destruct (bool_decide (str_len reason < 10)), (bool_decide (str_len reason < 5)).
  - by destruct (bool_decide (str_len reason < 10)), (bool_decide (str_len reason < 5)).
Qed.

Lemma routes_refuse_strangers_witness :
  TeacherRoutes.finish_attendance 1600 7%N sample_student (sample_live, postgres_empty)
  = (Refused 403, (sample_live, postgres_empty)).
Proof.
  destruct (routes_refuse_strangers 1600 7%N "S-201" "left early" sample_student
              (sample_live, postgres_empty)) as (H & _); [left; reflexivity|].
  exact H.
Defined.



(** X28. The teacher's live accept, through the route: for the teacher's
    own live session and a student with a record, the route answers 200
    with the record as stored, now attended at the time of the call with no
    failure reason and otherwise unchanged. The verification mappings and
    the durable store are not touched, so a verdict still under way for
    that record will be applied over the teacher's decision. *)
Theorem live_accept_route (now : datetime) (attendance_id : UUID)
  (student_school_number : string) (user : User.t) (s : Redis * Postgres)
  (a : AttendanceRedis.t) (rec : AttendanceRecordRedis.t) :
  TeacherRoutes._verify_teacher_role user = true →
  attendance_session s.1 !! attendance_id = Some a →
  AttendanceRedis.teacher_school_number a = User.user_school_number user →
  attendance_records s.1 !! (attendance_id, student_school_number) = Some rec →
  (AttendanceRecordRedis.attendance_id rec, AttendanceRecordRedis.student_number rec)
    = (attendance_id, student_school_number) →
  let accepted :=
    AttendanceRecordRedis.mk attendance_id student_school_number
      (AttendanceRecordRedis.student_full_name rec) true (Some now) None
      (AttendanceRecordRedis.is_deleted rec) (AttendanceRecordRedis.deletion_reason rec)
      (AttendanceRecordRedis.deletion_time rec) in
  ∃ r',
    TeacherRoutes.accept_student_in_live_attendance now attendance_id student_school_number
      user s = (Sent 200 (enrich_redis_record accepted), (r', s.2))
    ∧ attendance_records r' !! (attendance_id, student_school_number) = Some accepted
    ∧ (∀ k, k ≠ (attendance_id, student_school_number) →
            attendance_records r' !! k = attendance_records s.1 !! k)
    ∧ verification r' = verification s.1
    ∧ attendance_session r' = attendance_session s.1.
Proof.
  intros Hrole Hlive Hown Hrec Hkey. cbn zeta.
  destruct rec as [aid sn name att time why del dreason dtime]. cbn in Hkey.
  injection Hkey as -> ->. cbn.
  unfold TeacherRoutes.accept_student_in_live_attendance, TeacherRoutes._get_and_verify_owner,
    TeacherService.get_and_verify_attendance_owner, get_attendance_session.
  rewrite Hrole. cbn [negb]. rewrite Hlive.
  rewrite bool_decide_eq_true_2 by done.
  unfold accept_student_attendance, get_attendance_record_by_id. rewrite Hrec.
  eexists. split; [reflexivity|]. cbn.
  split; [apply lookup_insert_eq|]. split; [|done].
  intros k Hk. by rewrite lookup_insert_ne.
Qed.

Lemma live_accept_route_witness :
  ∃ r',
    TeacherRoutes.accept_student_in_live_attendance 1650 7%N "S-201" sample_teacher
      (sample_pending, postgres_empty)
    = (Sent 200 (enrich_redis_record
                   (AttendanceRecordRedis.mk 7%N "S-201" "Student Alpha" true (Some 1650) None
                      false None None)), (r', postgres_empty))
    ∧ verification r' = verification sample_pending.
Proof.
  destruct (live_accept_route 1650 7%N "S-201" sample_teacher (sample_pending, postgres_empty)
              sample_session sample_pending_record)
    as (r' & Hrun & _ & _ & Hv & _);
    [reflexivity | reflexivity | reflexivity | reflexivity | reflexivity |].
  exists r'. split; [exact Hrun|exact Hv].
Defined.

(** X29. The live routes on a session that is only in the history any more
    (swept, not soft-deleted, the teacher's own): the owner check passes on
    the durable row, then finishing finds no live session and is answered
    400, and a live accept or fail of a student finds no live record and is
    answered 404 (the fail only with a reason of the five characters its
    body model asks for, 422 otherwise); neither changes a store. The
    listing route answers from the durable records. *)
Theorem live_routes_on_history (now : datetime) (attendance_id : UUID)
  (student_school_number reason : string) (user : User.t) (s : Redis * Postgres)
  (att : Attendance.t) :
  TeacherRoutes._verify_teacher_role user = true →
  attendance_session s.1 !! attendance_id = None →
  attendance_records s.1 !! (attendance_id, student_school_number) = None →
  Attendances s.2 !! attendance_id = Some att →
  Attendance.is_deleted att = false →
  Attendance.teacher_school_number att = User.user_school_number user →
  TeacherRoutes.finish_attendance now attendance_id user s = (Refused 400, s)
  ∧ TeacherRoutes.accept_student_in_live_attendance now attendance_id student_school_number
      user s = (Refused 404, s)
  ∧ TeacherRoutes.fail_student_in_live_attendance attendance_id student_school_number reason
      user s = (Refused (if bool_decide (str_len reason < 5) then 422 else 404), s)
  ∧ TeacherRoutes.get_attendance_records attendance_id user s
    = Sent 200 (TeacherService.get_historical_attendance_records attendance_id s.2).
Proof.
  intros Hrole Hlive Hrec Hrow Hdel Hown. destruct s as [r d]. cbn [fst snd] in *.
  assert (TeacherRoutes._get_and_verify_owner attendance_id user r d
          = inr (HistoricalAttendance att)) as Howner.
  { unfold TeacherRoutes._get_and_verify_owner, TeacherService.get_and_verify_attendance_owner,
      get_attendance_session, get_attendance_by_id.
    rewrite Hlive, Hrow, Hdel. by rewrite bool_decide_eq_false_2 by (intros ?; done). }
  unfold TeacherRoutes.finish_attendance, TeacherRoutes.accept_student_in_live_attendance,
    TeacherRoutes.fail_student_in_live_attendance, TeacherRoutes.get_attendance_records.
  rewrite Hrole. cbn [negb fst snd]. rewrite Howner.
  unfold finish_attendance, accept_student_attendance, fail_student_in_live_attendance,
    get_attendance_session, get_attendance_record_by_id.
  rewrite Hlive, Hrec. by destruct (bool_decide (str_len reason < 5)).
Qed.

Lemma live_routes_on_history_witness :
  TeacherRoutes.finish_attendance 8000 7%N sample_teacher sample_swept
  = (Refused 400, sample_swept).
Proof.
  destruct (live_routes_on_history 8000 7%N "S-201" "left early" sample_teacher sample_swept
              (attendance_row (attendance_to_db sample_session))) as (H & _);
    [reflexivity | reflexivity | reflexivity | reflexivity | reflexivity | reflexivity |].
  exact H.
Defined.
